(** * URL shortener backend: a shallow embedding of the request path

    The development follows the backend sources:
    - [utils/helper.js]            ([generateNanoId], [signToken], [verifyToken])
    - [utils/errorHandler.js]      (the [AppError] hierarchy, [errorHandler])
    - [models/shorturl.model.js], [models/user.model.js]
    - [dao/shortUrl.dao.js], [dao/user.dao.js]
    - [services/ShortUrl.service.js], [services/auth.service.js]
    - [controllers/shortUrl.controller.js], [controllers/auth.controller.js]
    - [middlewares/auth.middleware.js]

    Asynchronous functions become computations in a state-and-exception
    monad over the two MongoDB collections.  The libraries the backend calls
    (the WHATWG URL parser, bcrypt, jsonwebtoken, the random source behind
    nanoid) are fields of an environment record. *)

From Stdlib Require Import String Ascii List ZArith NArith Arith Bool Lia.
Import ListNotations.
Open Scope string_scope.

(** ** JavaScript strings

    A [string] is read as a sequence of UTF-16 code units below 256. *)

Module Js.

(** White space and line terminators, as recognised by
    [String.prototype.trim] and by the [\s] class of regular expressions,
    among the code units below 256. *)
Definition is_ws (c : ascii) : bool :=
  let n := N_of_ascii c in
  ((9 <=? n) && (n <=? 13) || (n =? 32) || (n =? 160))%N.

Fixpoint trimStart (s : string) : string :=
  match s with
  | EmptyString => EmptyString
  | String c r => if is_ws c then trimStart r else s
  end.

Fixpoint trimEnd (s : string) : string :=
  match s with
  | EmptyString => EmptyString
  | String c r =>
      match trimEnd r with
      | EmptyString => if is_ws c then EmptyString else String c EmptyString
      | r' => String c r'
      end
  end.

Definition trim (s : string) : string := trimEnd (trimStart s).

Definition lower_char (c : ascii) : ascii :=
  let n := N_of_ascii c in
  if ((65 <=? n) && (n <=? 90)
      || (192 <=? n) && (n <=? 214)
      || (216 <=? n) && (n <=? 222))%N
  then ascii_of_N (n + 32) else c.

Fixpoint toLowerCase (s : string) : string :=
  match s with
  | EmptyString => EmptyString
  | String c r => String (lower_char c) (toLowerCase r)
  end.

Definition startsWith (p s : string) : bool := String.prefix p s.

(** [s.slice(n)] for [0 <= n]. *)
Fixpoint slice (n : nat) (s : string) : string :=
  match n, s with
  | O, _ => s
  | S n', String _ r => slice n' r
  | S _, EmptyString => EmptyString
  end.

(** [hay.includes(needle)] *)
Fixpoint includes (needle hay : string) : bool :=
  String.prefix needle hay ||
  match hay with
  | EmptyString => false
  | String _ r => includes needle r
  end.

Fixpoint all_chars (p : ascii -> bool) (s : string) : bool :=
  match s with
  | EmptyString => true
  | String c r => p c && all_chars p r
  end.

Definition is_empty (s : string) : bool :=
  match s with EmptyString => true | _ => false end.

(** Values that reach the backend in a JSON body or a function argument. *)
Inductive value : Type :=
| Undefined
| Null
| Bool (b : bool)
| Num (z : Z)
| Str (s : string)
| Obj.

(** [!!v] *)
Definition truthy (v : value) : bool :=
  match v with
  | Undefined | Null => false
  | Bool b => b
  | Num z => negb (z =? 0)%Z
  | Str s => negb (is_empty s)
  | Obj => true
  end.

(** [typeof v === 'string'] *)
Definition is_string (v : value) : bool :=
  match v with Str _ => true | _ => false end.

End Js.

(** ** Regular expressions

    The two patterns of the backend are anchored at both ends; they are
    matched with Brzozowski derivatives. *)

Module Regex.

Inductive regex : Type :=
| Void
| Eps
| Class (p : ascii -> bool)
| Seq (r1 r2 : regex)
| Alt (r1 r2 : regex)
| Star (r : regex).

Definition Plus (r : regex) : regex := Seq r (Star r).

Fixpoint nullable (r : regex) : bool :=
  match r with
  | Void => false
  | Eps => true
  | Class _ => false
  | Seq r1 r2 => nullable r1 && nullable r2
  | Alt r1 r2 => nullable r1 || nullable r2
  | Star _ => true
  end.

Fixpoint deriv (c : ascii) (r : regex) : regex :=
  match r with
  | Void => Void
  | Eps => Void
  | Class p => if p c then Eps else Void
  | Seq r1 r2 =>
      if nullable r1
      then Alt (Seq (deriv c r1) r2) (deriv c r2)
      else Seq (deriv c r1) r2
  | Alt r1 r2 => Alt (deriv c r1) (deriv c r2)
  | Star r1 => Seq (deriv c r1) (Star r1)
  end.

(** [/^r$/.test(s)] *)
Fixpoint test (r : regex) (s : string) : bool :=
  match s with
  | EmptyString => nullable r
  | String c s' => test (deriv c r) s'
  end.

Definition char_is (a c : ascii) : bool := Ascii.eqb a c.

Definition in_range (lo hi : N) (c : ascii) : bool :=
  let n := N_of_ascii c in ((lo <=? n) && (n <=? hi))%N.

End Regex.

(** [/^[^\s@]+@[^\s@]+\.[^\s@]+$/] *)
Definition email_atom (c : ascii) : bool :=
  negb (Js.is_ws c || Regex.char_is "@" c).

Definition emailRegex : Regex.regex :=
  Regex.Seq (Regex.Plus (Regex.Class email_atom))
    (Regex.Seq (Regex.Class (Regex.char_is "@"))
       (Regex.Seq (Regex.Plus (Regex.Class email_atom))
          (Regex.Seq (Regex.Class (Regex.char_is "."))
             (Regex.Plus (Regex.Class email_atom))))).

(** [/^[a-zA-Z0-9-_]+$/] *)
Definition slug_char (c : ascii) : bool :=
  Regex.in_range 97 122 c || Regex.in_range 65 90 c || Regex.in_range 48 57 c
  || Regex.char_is "-" c || Regex.char_is "_" c.

Definition customUrlRegex : Regex.regex := Regex.Plus (Regex.Class slug_char).

(** ** Errors

    [utils/errorHandler.js] declares [AppError] and four subclasses; the
    other classes are those of the language and of the database driver.
    An error carries the properties the backend reads. *)

Inductive ErrorClass : Type :=
| ErrorC              (* new Error(...) *)
| TypeErrorC          (* a method called on undefined or null *)
| AppErrorC
| NotFoundErrorC
| ConflictErrorC
| BadRequestErrorC
| UnauthorizedErrorC
| DriverErrorC.       (* raised by mongoose or the MongoDB driver *)

Record JsError : Type := mkError {
  err_class      : ErrorClass;
  err_name       : string;          (* error.name *)
  err_message    : string;          (* error.message *)
  err_code       : option Z;        (* error.code *)
  err_keyPattern : list string;     (* keys of error.keyPattern *)
  err_statusCode : option Z;        (* error.statusCode *)
  err_errors     : list string      (* messages of error.errors *)
}.

Definition Error (msg : string) : JsError :=
  mkError ErrorC "Error" msg None [] None [].

Definition TypeError (msg : string) : JsError :=
  mkError TypeErrorC "TypeError" msg None [] None [].

(** [class AppError extends Error]: the constructor sets [statusCode];
    [name] stays that of [Error]. *)
Definition AppError (cls : ErrorClass) (msg : string) (status : Z) : JsError :=
  mkError cls "Error" msg None [] (Some status) [].

Definition NotFoundError (msg : string) : JsError := AppError NotFoundErrorC msg 404.
Definition ConflictError (msg : string) : JsError := AppError ConflictErrorC msg 409.
Definition BadRequestError (msg : string) : JsError := AppError BadRequestErrorC msg 400.
Definition UnauthorizedError (msg : string) : JsError := AppError UnauthorizedErrorC msg 401.

Definition is_class (c : ErrorClass) (e : JsError) : bool :=
  match c, err_class e with
  | ErrorC, ErrorC | TypeErrorC, TypeErrorC | AppErrorC, AppErrorC
  | NotFoundErrorC, NotFoundErrorC | ConflictErrorC, ConflictErrorC
  | BadRequestErrorC, BadRequestErrorC | UnauthorizedErrorC, UnauthorizedErrorC
  | DriverErrorC, DriverErrorC => true
  | _, _ => false
  end.

(** [e instanceof AppError] *)
Definition instanceof_AppError (e : JsError) : bool :=
  match err_class e with
  | AppErrorC | NotFoundErrorC | ConflictErrorC | BadRequestErrorC
  | UnauthorizedErrorC => true
  | _ => false
  end.

Definition instanceof_BadRequestError : JsError -> bool := is_class BadRequestErrorC.
Definition instanceof_ConflictError : JsError -> bool := is_class ConflictErrorC.

(** [error.code === 11000] *)
Definition code_is_11000 (e : JsError) : bool :=
  match err_code e with Some c => (c =? 11000)%Z | None => false end.

(** The duplicate-key error of the driver for a unique index on [key]. *)
Definition DuplicateKeyError (key : string) : JsError :=
  mkError DriverErrorC "MongoServerError"
    ("E11000 duplicate key error: " ++ key) (Some 11000%Z) [key] None [].

(** The error [save()] rejects with when document validation fails. *)
Definition ValidationError (msgs : list string) : JsError :=
  mkError DriverErrorC "ValidationError"
    ("Validation failed: " ++ String.concat ", " msgs) None [] None msgs.

(** The error a query rejects with when a filter value cannot be cast. *)
Definition CastError (path : string) : JsError :=
  mkError DriverErrorC "CastError"
    ("Cast to ObjectId failed at path " ++ path) None [] None [].

(** ** Documents *)

(** An [ObjectId], by its 24 hexadecimal digits. *)
Definition ObjectId : Type := string.

Definition is_hex (c : ascii) : bool :=
  Regex.in_range 48 57 c || Regex.in_range 97 102 c || Regex.in_range 65 70 c.

(** Mongoose's cast of a string to [ObjectId]. *)
Definition castObjectId (s : string) : option ObjectId :=
  if (String.length s =? 24)%nat && Js.all_chars is_hex s
  then Some (Js.toLowerCase s) else None.

(** [models/shorturl.model.js]: [full_url], [short_url] (unique), [clicks]
    (default 0) and [user]; the schema sets no [timestamps] option, so a
    document has no [createdAt]. *)
Record ShortUrl : Type := mkShortUrl {
  su_id        : ObjectId;
  full_url     : string;
  short_url    : string;
  clicks       : Z;
  user         : option ObjectId
}.

(** [models/user.model.js], with [timestamps: true]. *)
Record User : Type := mkUser {
  u_id        : ObjectId;
  u_name      : string;
  u_email     : string;
  u_password  : string;
  u_avatar    : string;
  u_createdAt : Z;
  u_updatedAt : Z
}.

(** ** The environment: libraries and configuration *)

Record TokenPayload : Type := mkPayload {
  tp_id    : ObjectId;
  tp_email : string;
  tp_name  : string
}.

(** What [jwt.verify] returns: the payload, which any holder of the secret
    can have signed, and the registered claims [iat] and [exp]. *)
Record Decoded : Type := mkDecoded {
  d_id    : Js.value;
  d_email : Js.value;
  d_name  : Js.value;
  d_iat   : Z;
  d_exp   : Z
}.

Record Env : Type := mkEnv {
  (** the random bytes nanoid draws from, by position *)
  random_byte    : nat -> N;
  (** [new URL(u)] does not throw *)
  URL_parses     : string -> bool;
  (** [process.env.APP_URL], [process.env.JWT_SECRET] *)
  APP_URL        : option string;
  JWT_SECRET     : option string;
  (** fresh [_id]s, by the number of documents constructed so far *)
  new_ObjectId   : nat -> ObjectId;
  (** bcryptjs: [genSalt(rounds)] at a draw, [hash], [compare] *)
  bcrypt_genSalt : nat -> nat -> string;
  bcrypt_hash    : string -> string -> string;
  bcrypt_compare : string -> string -> bool;
  (** jsonwebtoken: [sign(payload, secret, options)] at a time, and
      [verify(token, secret, options)] at a time, which returns the decoded
      claims or throws *)
  jwt_sign       : TokenPayload -> string -> Z -> string;
  jwt_verify     : string -> string -> Z -> Decoded + JsError
}.

(** ** The database and the monad of asynchronous functions *)

Record Db : Type := mkDb {
  urls     : list ShortUrl;            (* the short-link collection, oldest first *)
  users    : list User;                (* the user collection *)
  faults   : list (option JsError);    (* what the next operations of the driver
                                          fail with, if they fail *)
  drawn    : nat;                      (* random bytes consumed *)
  made     : nat                       (* documents constructed *)
}.

Inductive Outcome (A : Type) : Type :=
| Return (a : A)
| Throw (e : JsError).
Arguments Return {A} a.
Arguments Throw {A} e.

Definition M (A : Type) : Type := Db -> Outcome A * Db.

Definition ret {A} (a : A) : M A := fun s => (Return a, s).
Definition throw {A} (e : JsError) : M A := fun s => (Throw e, s).

Definition bind {A B} (m : M A) (k : A -> M B) : M B :=
  fun s => match m s with
           | (Return a, s') => k a s'
           | (Throw e, s') => (Throw e, s')
           end.

(** [try { m } catch (error) { h error }] *)
Definition try_catch {A} (m : M A) (h : JsError -> M A) : M A :=
  fun s => match m s with
           | (Return a, s') => (Return a, s')
           | (Throw e, s') => h e s'
           end.

(** The outcome of [m] as a value: the statements of a [try] block up to
    an assignment its [catch] block can observe. *)
Definition attempt {A} (m : M A) : M (A + JsError) :=
  fun s => match m s with
           | (Return a, s') => (Return (inl a), s')
           | (Throw e, s') => (Return (inr e), s')
           end.

Definition get : M Db := fun s => (Return s, s).
Definition put (s : Db) : M unit := fun _ => (Return tt, s).

Declare Scope js_scope.
Delimit Scope js_scope with js.
Notation "x <- m ;; k" := (bind m (fun x => k))
  (at level 100, m at next level, right associativity) : js_scope.
Notation "m ;; k" := (bind m (fun _ => k))
  (at level 100, right associativity) : js_scope.
(** [if (c) throw e;] *)
Notation "'throw_if' c 'then' e ;; k" := (if c then throw e else k)
  (at level 100, c at next level, e at next level, right associativity) : js_scope.
Open Scope js_scope.

(** The value-level operations the sources apply to arguments that may not
    be strings. *)

(** [v.trim()] once [typeof v === 'string'] is known. *)
Definition trim_of (v : Js.value) : string :=
  match v with Js.Str s => Js.trim s | _ => EmptyString end.

(** [v.trim()] on an arbitrary value. *)
Definition method_trim (v : Js.value) : M string :=
  match v with
  | Js.Str s => ret (Js.trim s)
  | Js.Undefined | Js.Null =>
      throw (TypeError "Cannot read properties of undefined (reading 'trim')")
  | _ => throw (TypeError "trim is not a function")
  end.

(** [!v || typeof v !== 'string' || v.trim().length === 0] *)
Definition not_a_filled_string (v : Js.value) : bool :=
  negb (Js.truthy v) || negb (Js.is_string v)
  || (String.length (trim_of v) =? 0)%nat.

(** [v !== null && (typeof v !== 'string' || v.trim().length === 0)] *)
Definition given_but_not_filled (v : Js.value) : bool :=
  match v with
  | Js.Null => false
  | _ => negb (Js.is_string v) || (String.length (trim_of v) =? 0)%nat
  end.

(** A parameter declared [p = null]. *)
Definition default_null (v : Js.value) : Js.value :=
  match v with Js.Undefined => Js.Null | _ => v end.

(** ** JSON bodies and HTTP responses *)

#[local] Unset Elimination Schemes.
Inductive json : Type :=
| JNull
| JBool (b : bool)
| JNum (z : Z)
| JStr (s : string)
| JArr (items : list json)
| JObj (fields : list (string * json)).
#[local] Set Elimination Schemes.

(** [JSON.stringify] drops a property whose value is [undefined]. *)
Definition json_of_value (v : Js.value) : option json :=
  match v with
  | Js.Undefined => None
  | Js.Null => Some JNull
  | Js.Bool b => Some (JBool b)
  | Js.Num z => Some (JNum z)
  | Js.Str s => Some (JStr s)
  | Js.Obj => Some (JObj [])
  end.

Definition prop (k : string) (v : Js.value) : list (string * json) :=
  match json_of_value v with Some j => [(k, j)] | None => [] end.

Fixpoint field (k : string) (o : list (string * json)) : option json :=
  match o with
  | [] => None
  | (k', v) :: r => if String.eqb k' k then Some v else field k r
  end.

(** [delete o[k]] *)
Definition delete_field (k : string) (o : list (string * json))
  : list (string * json) :=
  filter (fun kv => negb (String.eqb (fst kv) k)) o.

(** [o[k] = v] *)
Definition set_field (k : string) (v : json) (o : list (string * json))
  : list (string * json) :=
  delete_field k o ++ [(k, v)].

Inductive Payload : Type :=
| Json (j : json)               (* res.json(j) *)
| Redirect (target : string).   (* res.redirect(status, target) *)

Record Response : Type := mkResponse {
  res_status  : Z;
  res_headers : list (string * string);   (* res.set(...) *)
  res_cookies : list (string * string);   (* res.cookie(...) *)
  res_payload : Payload
}.

(** [res.status(code).json(j)] on a fresh response. *)
Definition respond (code : Z) (j : json) : Response :=
  mkResponse code [] [] (Json j).

Definition dquote : string := String (ascii_of_nat 34) EmptyString.

(** ** Mongoose models over the database *)

(** One call of the driver consumes the head of [faults] and fails when
    the environment says so. *)
Definition pop_fault (s : Db) : Db :=
  mkDb (urls s) (users s) (tl (faults s)) (drawn s) (made s).

Definition driver_call : M unit :=
  fun s =>
    match hd None (faults s) with
    | Some e => (Throw e, pop_fault s)
    | None => (Return tt, pop_fault s)
    end.

Definition set_urls (l : list ShortUrl) : M unit :=
  fun s => (Return tt, mkDb l (users s) (faults s) (drawn s) (made s)).

Definition set_users (l : list User) : M unit :=
  fun s => (Return tt, mkDb (urls s) l (faults s) (drawn s) (made s)).

(** Stable sort on an optional key, largest first; an absent key sorts
    below every present one, and documents with equal keys keep the order
    of the collection. *)
Definition key_lt (a b : option Z) : bool :=
  match a, b with
  | None, Some _ => true
  | Some x, Some y => (x <? y)%Z
  | _, _ => false
  end.

Fixpoint insert_desc {A} (key : A -> option Z) (x : A) (l : list A) : list A :=
  match l with
  | [] => [x]
  | y :: r => if key_lt (key x) (key y) then y :: insert_desc key x r
              else x :: l
  end.

Definition sort_desc {A} (key : A -> option Z) (l : list A) : list A :=
  fold_right (fun x acc => insert_desc key x acc) [] l.

Section Backend.

Variable E : Env.

(** *** [models/shorturl.model.js] *)

(** A document made by [new urlSchema({...})], before it is saved. *)
Record ShortUrlDraft : Type := mkDraft {
  dr_id        : ObjectId;
  dr_full_url  : string;
  dr_short_url : string;
  dr_user      : option string     (* as assigned, before the cast *)
}.

(** [new urlSchema({ full_url, short_url })] *)
Definition ShortUrl_new (full short : string) : M ShortUrlDraft :=
  fun s =>
    (Return (mkDraft (new_ObjectId E (made s)) full short None),
     mkDb (urls s) (users s) (faults s) (drawn s) (S (made s))).

(** Schema validation of a draft: both URLs are [required], [user] must
    cast to an [ObjectId]. *)
Definition ShortUrl_validate (d : ShortUrlDraft) : list string :=
  (if Js.is_empty (dr_full_url d) then ["Path `full_url` is required."] else [])
  ++ (if Js.is_empty (dr_short_url d) then ["Path `short_url` is required."] else [])
  ++ match dr_user d with
     | None => []
     | Some u => match castObjectId u with
                 | Some _ => []
                 | None => ["Cast to ObjectId failed for path `user`"]
                 end
     end.

Definition ShortUrl_of_draft (d : ShortUrlDraft) : ShortUrl :=
  mkShortUrl (dr_id d) (dr_full_url d) (dr_short_url d) 0
    match dr_user d with Some u => castObjectId u | None => None end.

Definition has_short_url (key : string) (d : ShortUrl) : bool :=
  String.eqb (short_url d) key.

(** [doc.save()]: validation, then one insert, which the unique index on
    [short_url] rejects with code 11000 when the key is taken. *)
Definition ShortUrl_save (d : ShortUrlDraft) : M ShortUrl :=
  match ShortUrl_validate d with
  | (_ :: _) as msgs => throw (ValidationError msgs)
  | [] =>
      driver_call ;;
      s <- get ;;
      if existsb (has_short_url (dr_short_url d)) (urls s)
      then throw (DuplicateKeyError "short_url")
      else set_urls (urls s ++ [ShortUrl_of_draft d]) ;;
           ret (ShortUrl_of_draft d)
  end.

(** [ShortUrl.findOne({ short_url: key })] *)
Definition ShortUrl_findOne (key : string) : M (option ShortUrl) :=
  driver_call ;;
  s <- get ;;
  ret (find (has_short_url key) (urls s)).

Definition inc_clicks (d : ShortUrl) : ShortUrl :=
  mkShortUrl (su_id d) (full_url d) (short_url d) (clicks d + 1) (user d).

(** The first document with the key, updated by [$inc: { clicks: 1 }], and
    the collection after the update. *)
Fixpoint update_first (key : string) (l : list ShortUrl)
  : option ShortUrl * list ShortUrl :=
  match l with
  | [] => (None, [])
  | d :: r =>
      if has_short_url key d then (Some (inc_clicks d), inc_clicks d :: r)
      else let (found, r') := update_first key r in (found, d :: r')
  end.

(** [findOneAndUpdate({ short_url: key }, { $inc: { clicks: 1 } },
    { new: true, lean: true })]: one operation of the store. *)
Definition ShortUrl_findOneAndUpdate_inc (key : string) : M (option ShortUrl) :=
  driver_call ;;
  s <- get ;;
  let (found, l) := update_first key (urls s) in
  set_urls l ;;
  ret found.

(** [url.createdAt] and [url.created_at] of a lean short-link document:
    the schema declares neither path and nothing writes them. *)
Definition su_createdAt (d : ShortUrl) : option Z := None.
Definition su_created_at (d : ShortUrl) : option Z := None.

Definition owned_by (oid : ObjectId) (d : ShortUrl) : bool :=
  match user d with Some o => String.eqb o oid | None => false end.

(** [ShortUrl.find({ user: id }).sort({ createdAt: -1 }).lean()] *)
Definition ShortUrl_find_by_user_sorted (id : string) : M (list ShortUrl) :=
  match castObjectId id with
  | None => throw (CastError "user")
  | Some oid =>
      driver_call ;;
      s <- get ;;
      ret (sort_desc su_createdAt (filter (owned_by oid) (urls s)))
  end.

(** *** [utils/helper.js]: [generateNanoId] *)

Definition urlAlphabet : string :=
  "useandom-26T198340PX75pxJACKVERYMINDBUSHWOLF_GQZbfghjklqvwyzrict".

Definition alphabet_char (b : N) : ascii :=
  match String.get (N.to_nat (N.land b 63)) urlAlphabet with
  | Some c => c
  | None => "u"%char
  end.

Fixpoint nanoid_from (pos size : nat) : string :=
  match size with
  | O => EmptyString
  | S k => String (alphabet_char (random_byte E pos)) (nanoid_from (S pos) k)
  end.

(** [nanoid(size)]: one character of [urlAlphabet] per random byte. *)
Definition nanoid (size : nat) : M string :=
  fun s =>
    (Return (nanoid_from (drawn s) size),
     mkDb (urls s) (users s) (faults s) (drawn s + size) (made s)).

Definition generateNanoId (length : Z) : M string :=
  try_catch
    (throw_if (length <=? 0)%Z
       then Error "Length must be a positive number" ;;
     throw_if (50 <? length)%Z
       then Error "Length cannot exceed 50 characters" ;;
     id <- nanoid (Z.to_nat length) ;;
     throw_if Js.is_empty id || negb (Z.of_nat (String.length id) =? length)%Z
       then Error "Failed to generate ID with specified length" ;;
     ret id)
    (fun error => throw (Error ("ID generation failed: " ++ err_message error))).

(** *** [dao/shortUrl.dao.js] *)

Definition validateSaveInputs (shortUrl longUrl userId : Js.value) : M unit :=
  throw_if not_a_filled_string shortUrl
    then BadRequestError "Short URL is required and must be a non-empty string" ;;
  throw_if not_a_filled_string longUrl
    then BadRequestError "Long URL is required and must be a non-empty string" ;;
  throw_if given_but_not_filled userId
    then BadRequestError "User ID must be a non-empty string when provided" ;;
  ret tt.

(** The [catch] block of [saveShortUrl]. *)
Definition saveShortUrl_catch {A} (error : JsError) : M A :=
  if code_is_11000 error then
    if existsb (String.eqb "short_url") (err_keyPattern error)
    then throw (ConflictError "Short URL already exists")
    else throw (ConflictError "Duplicate entry detected")
  else if String.eqb (err_name error) "ValidationError" then
    throw (BadRequestError
             ("Validation failed: " ++ String.concat ", " (err_errors error)))
  else if String.eqb (err_name error) "CastError" then
    throw (BadRequestError "Invalid data format provided")
  else if instanceof_BadRequestError error || instanceof_ConflictError error then
    throw error
  else
    throw (Error ("Database operation failed: " ++ err_message error)).

Definition saveShortUrl (shortUrl longUrl userId : Js.value) : M ShortUrl :=
  let userId := default_null userId in
  try_catch
    (validateSaveInputs shortUrl longUrl userId ;;
     newUrl <- ShortUrl_new (trim_of longUrl) (trim_of shortUrl) ;;
     let newUrl :=
       if Js.truthy userId
       then mkDraft (dr_id newUrl) (dr_full_url newUrl) (dr_short_url newUrl)
                    (Some (trim_of userId))
       else newUrl in
     savedUrl <- ShortUrl_save newUrl ;;
     ret savedUrl)
    saveShortUrl_catch.

(** The [catch] block of [getShortUrl]. *)
Definition getShortUrl_catch {A} (error : JsError) : M A :=
  if String.eqb (err_name error) "CastError" then
    throw (BadRequestError "Invalid short URL format")
  else if instanceof_BadRequestError error then
    throw error
  else
    throw (Error ("Database query failed: " ++ err_message error)).

(** Returns [null] ([None]) when no document has the key. *)
Definition getShortUrl (shortUrl : Js.value) : M (option ShortUrl) :=
  try_catch
    (throw_if not_a_filled_string shortUrl
       then BadRequestError "Short URL is required and must be a non-empty string" ;;
     url <- ShortUrl_findOneAndUpdate_inc (trim_of shortUrl) ;;
     match url with
     | None => ret None
     | Some doc =>
         throw_if Js.is_empty (full_url doc)
           then Error "Invalid URL data in database" ;;
         ret (Some doc)
     end)
    getShortUrl_catch.

(** *** [services/ShortUrl.service.js] *)

Definition validateServiceInputs (url userId : Js.value) : M unit :=
  let userId := default_null userId in
  throw_if negb (Js.truthy url)
    then BadRequestError "URL is required" ;;
  throw_if negb (Js.is_string url) || (String.length (trim_of url) =? 0)%nat
    then BadRequestError "URL must be a non-empty string" ;;
  throw_if given_but_not_filled userId
    then BadRequestError "User ID must be a non-empty string when provided" ;;
  ret tt.

Definition maxRetries : nat := 3.

(** The [while (retryCount < maxRetries)] loop of
    [createShortUrlServiceWithUserId], by the number [maxRetries -
    retryCount] of iterations the condition still allows.  [shortUrl] is the
    variable declared before the loop, assigned in the [try] block and
    returned after the loop; [on_error] is the [catch] block, which sees the
    value [shortUrl] has when the error is thrown. *)
Fixpoint retry_loop (url userId : Js.value) (left : nat) (shortUrl : Js.value)
  : M Js.value :=
  match left with
  | O => ret shortUrl
  | S left' =>
      let retryCount := maxRetries - left in
      let on_error (shortUrl : Js.value) (error : JsError) : M Js.value :=
        let retryCount := S retryCount in
        if code_is_11000 error && (retryCount <? maxRetries)%nat then
          retry_loop url userId left' shortUrl
        else if (maxRetries <=? retryCount)%nat then
          throw (ConflictError
                   "Unable to generate unique short URL after multiple attempts")
        else throw error in
      generated <- attempt (generateNanoId 7) ;;
      match generated with
      | inr error => on_error shortUrl error
      | inl id =>
          let shortUrl := Js.Str id in
          try_catch
            (throw_if Js.is_empty id
               then Error "Failed to generate short URL" ;;
             longUrl <- method_trim url ;;
             owner <- method_trim userId ;;
             saveShortUrl shortUrl (Js.Str longUrl) (Js.Str owner) ;;
             ret shortUrl)
            (on_error shortUrl)
      end
  end.

Definition createShortUrlServiceWithUserId (url userId : Js.value) : M Js.value :=
  try_catch
    (validateServiceInputs url userId ;;
     retry_loop url userId maxRetries Js.Undefined)
    (fun error => throw error).

Definition taken_message (slug : string) : string :=
  "The custom URL " ++ dquote ++ slug ++ dquote
  ++ " is already taken. Please choose a different one.".

(** The [catch] block of [createCustomShortUrlService]. *)
Definition createCustomShortUrlService_catch {A} (customUrl : Js.value)
    (error : JsError) : M A :=
  if instanceof_BadRequestError error || instanceof_ConflictError error then
    throw error
  else if code_is_11000 error then
    customUrlTrimmed <- method_trim customUrl ;;
    throw (ConflictError (taken_message customUrlTrimmed))
  else
    throw (Error ("Failed to create custom short URL: " ++ err_message error)).

Definition createCustomShortUrlService (url customUrl userId : Js.value)
  : M string :=
  try_catch
    (validateServiceInputs url userId ;;
     throw_if not_a_filled_string customUrl
       then BadRequestError "Custom URL is required and must be a non-empty string" ;;
     let customUrlTrimmed := trim_of customUrl in
     throw_if negb (Regex.test customUrlRegex customUrlTrimmed)
       then BadRequestError
              "Custom URL can only contain letters, numbers, hyphens, and underscores" ;;
     throw_if (String.length customUrlTrimmed <? 3)%nat
              || (50 <? String.length customUrlTrimmed)%nat
       then BadRequestError "Custom URL must be between 3 and 50 characters long" ;;
     existingUrl <- ShortUrl_findOne customUrlTrimmed ;;
     match existingUrl with
     | Some _ => throw (ConflictError (taken_message customUrlTrimmed))
     | None =>
         longUrl <- method_trim url ;;
         saveShortUrl (Js.Str customUrlTrimmed) (Js.Str longUrl) userId ;;
         ret customUrlTrimmed
     end)
    (createCustomShortUrlService_catch customUrl).

(** [process.env.APP_URL || 'http://localhost:3000/'] *)
Definition app_url : string :=
  match APP_URL E with
  | Some u => if Js.is_empty u then "http://localhost:3000/" else u
  | None => "http://localhost:3000/"
  end.

(** An element of the list [getUserUrlsService] returns. *)
Record UrlEntry : Type := mkEntry {
  e_id          : string;
  e_shortUrl    : string;
  e_originalUrl : string;
  e_customUrl   : string;
  e_clicks      : Z;
  e_createdAt   : Z
}.

(** The function mapped over the documents found; [now] is what
    [new Date()] reads. *)
Definition transform (now : Z) (url : ShortUrl) : UrlEntry :=
  mkEntry (su_id url)
          (app_url ++ short_url url)
          (full_url url)
          (short_url url)
          (if (clicks url =? 0)%Z then 0%Z else clicks url)
          match su_createdAt url with
          | Some t => t
          | None => match su_created_at url with
                    | Some t => t
                    | None => now
                    end
          end.

Definition getUserUrlsService (now : Z) (userId : Js.value) : M (list UrlEntry) :=
  try_catch
    (throw_if not_a_filled_string userId
       then BadRequestError "Valid user ID is required" ;;
     found <- ShortUrl_find_by_user_sorted (trim_of userId) ;;
     ret (map (transform now) found))
    (fun error =>
       if instanceof_BadRequestError error then throw error
       else throw (Error ("Failed to retrieve user URLs: " ++ err_message error))).

(** *** [utils/errorHandler.js]: the global error handler *)

Definition errorHandler (err : JsError) : Response :=
  if instanceof_AppError err then
    respond (match err_statusCode err with Some c => c | None => 500%Z end)
            (JObj [("success", JBool false); ("message", JStr (err_message err))])
  else
    respond 500
            (JObj [("success", JBool false);
                   ("message", JStr (if Js.is_empty (err_message err)
                                     then "Internal Server Error"
                                     else err_message err))]).

(** [next(error)] in a controller hands the error to [errorHandler]. *)
Definition next_error (error : JsError) : M Response := ret (errorHandler error).

(** *** [controllers/shortUrl.controller.js] *)

Definition validateUrl (url : Js.value) : M unit :=
  throw_if negb (Js.truthy url)
    then BadRequestError "URL is required" ;;
  match url with
  | Js.Str u =>
      throw_if negb (URL_parses E u)
        then BadRequestError "Invalid URL format" ;;
      ret tt
  | _ => throw (BadRequestError "URL must be a string")
  end.

Definition no_cache_headers : list (string * string) :=
  [("Cache-Control", "no-cache, no-store, must-revalidate");
   ("Pragma", "no-cache");
   ("Expires", "0")].

(** [id] is [req.params.id]. *)
Definition redirectFromShortUrl (id : Js.value) : M Response :=
  try_catch
    (throw_if negb (Js.truthy id)
       then BadRequestError "Short URL ID is required" ;;
     throw_if negb (Js.is_string id) || (String.length (trim_of id) =? 0)%nat
       then BadRequestError "Invalid short URL ID format" ;;
     url <- getShortUrl (Js.Str (trim_of id)) ;;
     match url with
     | None => throw (NotFoundError "Short URL not found")
     | Some doc =>
         throw_if Js.is_empty (full_url doc)
           then Error "Invalid URL data in database" ;;
         ret (mkResponse 302 no_cache_headers [] (Redirect (full_url doc)))
     end)
    next_error.

(** The identity [authMiddleware] attaches to the request as [req.user]. *)
Record AuthUser : Type := mkAuthUser {
  au_id       : Js.value;
  au_email    : Js.value;
  au_name     : Js.value;
  au_tokenIat : Z;
  au_tokenExp : Z
}.

Definition reservedWords : list string :=
  ["api"; "admin"; "www"; "app"; "create"; "custom"; "user"; "auth"; "login";
   "signup"; "register"].

(** [url] and [customUrl] are the properties of [req.body], [requestId] and
    [timestamp] what the handler draws and reads for the response. *)
Definition createCustomShortUrl (requestId timestamp : string)
    (url customUrl : Js.value) (req_user : AuthUser) : M Response :=
  try_catch
    (validateUrl url ;;
     throw_if negb (Js.truthy customUrl) || negb (Js.is_string customUrl)
       then BadRequestError "Custom URL is required and must be a string" ;;
     let trimmedCustomUrl := trim_of customUrl in
     throw_if (String.length trimmedCustomUrl <? 3)%nat
              || (50 <? String.length trimmedCustomUrl)%nat
       then BadRequestError "Custom URL must be between 3 and 50 characters long" ;;
     throw_if negb (Regex.test customUrlRegex trimmedCustomUrl)
       then BadRequestError
              "Custom URL can only contain letters, numbers, hyphens, and underscores" ;;
     throw_if existsb (String.eqb (Js.toLowerCase trimmedCustomUrl)) reservedWords
       then BadRequestError "This custom URL is reserved and cannot be used" ;;
     let userId := au_id req_user in
     throw_if negb (Js.truthy userId)
       then Error "User authentication failed" ;;
     shortUrl <- createCustomShortUrlService url (Js.Str trimmedCustomUrl) userId ;;
     throw_if Js.is_empty shortUrl
       then Error "Failed to create custom short URL" ;;
     let fullShortUrl := app_url ++ shortUrl in
     ret (respond 201
            (JObj [("success", JBool true);
                   ("data", JObj ([("shortUrl", JStr fullShortUrl)]
                                  ++ prop "originalUrl" url
                                  ++ [("customUrl", JStr trimmedCustomUrl)]
                                  ++ prop "userId" userId
                                  ++ prop "createdBy" (au_email req_user)));
                   ("message", JStr "Custom short URL created successfully");
                   ("requestId", JStr requestId);
                   ("timestamp", JStr timestamp)])))
    next_error.

(** *** [models/user.model.js] *)

(** [new User({ name, email, password })]: the [_id] and the default
    [avatar] are set on construction. *)
Record UserDraft : Type := mkUserDraft {
  ud_id       : ObjectId;
  ud_name     : string;
  ud_email    : string;
  ud_password : string;
  ud_avatar   : string
}.

Definition User_new (name email password : string) : M UserDraft :=
  fun s =>
    (Return (mkUserDraft (new_ObjectId E (made s)) name email password
               ("https://api.dicebear.com/7.x/initials/svg?seed=" ++ name)),
     mkDb (urls s) (users s) (faults s) (drawn s) (S (made s))).

Definition User_validate (d : UserDraft) : list string :=
  (if Js.is_empty (ud_name d) then ["Path `name` is required."] else [])
  ++ (if Js.is_empty (ud_email d) then ["Path `email` is required."] else [])
  ++ (if Js.is_empty (ud_password d) then ["Path `password` is required."] else []).

Definition has_email (key : string) (u : User) : bool :=
  String.eqb (u_email u) key.

(** [newUser.save()] at time [now]; [email] has a unique index. *)
Definition User_save (now : Z) (d : UserDraft) : M User :=
  match User_validate d with
  | (_ :: _) as msgs => throw (ValidationError msgs)
  | [] =>
      driver_call ;;
      s <- get ;;
      if existsb (has_email (ud_email d)) (users s)
      then throw (DuplicateKeyError "email")
      else
        let saved := mkUser (ud_id d) (ud_name d) (ud_email d) (ud_password d)
                            (ud_avatar d) now now in
        set_users (users s ++ [saved]) ;;
        ret saved
  end.

(** [User.findOne({ email: key }).select('+password')] *)
Definition User_findOne (key : string) : M (option User) :=
  driver_call ;;
  s <- get ;;
  ret (find (has_email key) (users s)).

(** [user.toObject()] *)
Definition User_toObject (u : User) : list (string * json) :=
  [("_id", JStr (u_id u)); ("name", JStr (u_name u)); ("email", JStr (u_email u));
   ("password", JStr (u_password u)); ("avatar", JStr (u_avatar u));
   ("createdAt", JNum (u_createdAt u)); ("updatedAt", JNum (u_updatedAt u));
   ("__v", JNum 0)].

(** *** [dao/user.dao.js] *)

Definition findUserByEmail (email : Js.value) : M (option User) :=
  try_catch
    (throw_if not_a_filled_string email
       then BadRequestError "Email is required and must be a non-empty string" ;;
     throw_if negb (Regex.test emailRegex (trim_of email))
       then BadRequestError "Invalid email format" ;;
     User_findOne (Js.toLowerCase (trim_of email)))
    (fun error =>
       if instanceof_BadRequestError error then throw error
       else if String.eqb (err_name error) "CastError" then
         throw (BadRequestError "Invalid email format")
       else if String.eqb (err_name error) "MongoNetworkError" then
         throw (Error "Database connection failed")
       else throw (Error ("Database query failed: " ++ err_message error))).

(** *** [utils/helper.js]: tokens *)

(** [payload] is the object the services build; [now] is the time of
    signing. *)
Definition signToken (now : Z) (payload : TokenPayload) : M string :=
  try_catch
    (match JWT_SECRET E with
     | None => throw (Error "JWT secret not configured")
     | Some jwtSecret =>
         throw_if Js.is_empty jwtSecret
           then Error "JWT secret not configured" ;;
         let token := jwt_sign E payload jwtSecret now in
         throw_if Js.is_empty token
           then Error "Failed to generate token" ;;
         ret token
     end)
    (fun error =>
       if Js.includes "secretOrPrivateKey" (err_message error) then
         throw (Error "JWT secret configuration error")
       else if Js.includes "payload" (err_message error) then
         throw (Error "Invalid token payload provided")
       else throw (Error ("Token signing failed: " ++ err_message error))).

Definition verifyToken (now : Z) (token : Js.value) : M Decoded :=
  try_catch
    (throw_if negb (Js.truthy token)
       then Error "Token is required for verification" ;;
     match token with
     | Js.Str t =>
         match JWT_SECRET E with
         | None => throw (Error "JWT secret not configured")
         | Some jwtSecret =>
             throw_if Js.is_empty jwtSecret
               then Error "JWT secret not configured" ;;
             match jwt_verify E t jwtSecret now with
             | inl decoded => ret decoded
             | inr error => throw error
             end
         end
     | _ => throw (Error "Token must be a string")
     end)
    (fun error =>
       if String.eqb (err_name error) "TokenExpiredError" then
         throw (Error "Token has expired")
       else if String.eqb (err_name error) "JsonWebTokenError" then
         throw (Error "Invalid token format")
       else if String.eqb (err_name error) "NotBeforeError" then
         throw (Error "Token not active yet")
       else if Js.includes "secretOrPrivateKey" (err_message error) then
         throw (Error "JWT secret configuration error")
       else throw (Error ("Token verification failed: " ++ err_message error))).

(** *** [middlewares/auth.middleware.js] *)

(** What the gate reads from the request: [req.headers.authorization]
    ([None] when the header is absent) and [req.cookies] with its [token]
    property.  [req.cookies] is set by a cookie-parsing middleware; it is
    [None] on a request no such middleware has seen, as in [app.js], which
    mounts none. *)
Record AuthRequest : Type := mkAuthRequest {
  req_authorization : option string;
  req_cookies       : option (option string)
}.

Inductive Gate : Type :=
| Next (req_user : AuthUser)      (* req.user = ...; next() *)
| Reply (r : Response).           (* return res.status(401).json(...) *)

Definition value_of (o : option string) : Js.value :=
  match o with Some s => Js.Str s | None => Js.Undefined end.

(** [a || b] *)
Definition or_else (a b : Js.value) : Js.value :=
  if Js.truthy a then a else b.

(** [a && b] on [req.cookies && req.cookies.token] *)
Definition cookie_token (r : AuthRequest) : Js.value :=
  match req_cookies r with
  | None => Js.Undefined
  | Some t => value_of t
  end.

Definition unauthorized (requestId timestamp message code : string) : Response :=
  respond 401
    (JObj [("success", JBool false); ("message", JStr message);
           ("error", JStr code); ("requestId", JStr requestId);
           ("timestamp", JStr timestamp)]).

(** The token the gate verifies: the header, else the cookie, without a
    leading ['Bearer ']. *)
Definition extractToken (r : AuthRequest) : Js.value :=
  let token := or_else (value_of (req_authorization r)) (cookie_token r) in
  match token with
  | Js.Str t => if Js.truthy token && Js.startsWith "Bearer " t
                then Js.Str (Js.slice 7 t) else token
  | _ => token
  end.

Definition authMiddleware (requestId timestamp : string) (now : Z)
    (r : AuthRequest) : M Gate :=
  try_catch
    (let token := extractToken r in
     if negb (Js.truthy token) then
       ret (Reply (unauthorized requestId timestamp
                     "Authentication required. Please log in to access this resource."
                     "NO_TOKEN_PROVIDED"))
     else
       decoded <- verifyToken now token ;;
       if negb (Js.truthy (d_id decoded)) || negb (Js.truthy (d_email decoded)) then
         ret (Reply (unauthorized requestId timestamp
                       "Invalid authentication token. Please log in again."
                       "INVALID_TOKEN"))
       else
         found <- findUserByEmail (d_email decoded) ;;
         match found with
         | None =>
             ret (Reply (unauthorized requestId timestamp
                           "User account not found. Please log in again."
                           "USER_NOT_FOUND"))
         | Some u =>
             ret (Next (mkAuthUser (d_id decoded) (d_email decoded)
                          (or_else (d_name decoded) (Js.Str (u_name u)))
                          (d_iat decoded) (d_exp decoded)))
         end)
    (fun error =>
       if Js.includes "expired" (err_message error) then
         ret (Reply (unauthorized requestId timestamp
                       "Your session has expired. Please log in again."
                       "TOKEN_EXPIRED"))
       else if Js.includes "invalid" (err_message error) then
         ret (Reply (unauthorized requestId timestamp
                       "Invalid authentication token. Please log in again."
                       "INVALID_TOKEN"))
       else if Js.includes "malformed" (err_message error) then
         ret (Reply (unauthorized requestId timestamp
                       "Malformed authentication token. Please log in again."
                       "MALFORMED_TOKEN"))
       else
         ret (Reply (unauthorized requestId timestamp
                       "Authentication failed. Please log in again."
                       "AUTHENTICATION_FAILED"))).

(** *** [services/auth.service.js] *)

Definition saltRounds : nat := 12.

(** [await bcrypt.genSalt(saltRounds)] draws sixteen random bytes. *)
Definition genSalt (rounds : nat) : M string :=
  fun s =>
    (Return (bcrypt_genSalt E rounds (drawn s)),
     mkDb (urls s) (users s) (faults s) (drawn s + 16) (made s)).

(** [typeof v !== 'string' || c(v)], for a condition on the string. *)
Definition not_string_or (c : string -> bool) (v : Js.value) : bool :=
  match v with
  | Js.Str s => c s
  | _ => true
  end.

Definition string_of (v : Js.value) : string :=
  match v with Js.Str s => s | _ => EmptyString end.

Definition registerUserService (now : Z) (name email password : Js.value)
  : M (list (string * json)) :=
  try_catch
    (throw_if not_a_filled_string name
       then BadRequestError "Name is required and must be a non-empty string" ;;
     throw_if not_a_filled_string email
       then BadRequestError "Email is required and must be a non-empty string" ;;
     throw_if negb (Js.truthy password)
              || not_string_or (fun p => (String.length p <? 6)%nat) password
       then BadRequestError
              "Password is required and must be at least 6 characters long" ;;
     throw_if negb (Regex.test emailRegex (trim_of email))
       then BadRequestError "Please provide a valid email address" ;;
     userExists <- findUserByEmail (Js.Str (trim_of email)) ;;
     match userExists with
     | Some _ => throw (BadRequestError "User with this email already exists")
     | None =>
         salt <- genSalt saltRounds ;;
         let hashedPassword := bcrypt_hash E (string_of password) salt in
         throw_if Js.is_empty hashedPassword
           then Error "Failed to process password" ;;
         newUser <- User_new (trim_of name) (Js.toLowerCase (trim_of email))
                             hashedPassword ;;
         let tokenPayload :=
           mkPayload (ud_id newUser) (ud_email newUser) (ud_name newUser) in
         token <- signToken now tokenPayload ;;
         throw_if Js.is_empty token
           then Error "Failed to generate authentication token" ;;
         savedUser <- User_save now newUser ;;
         let userResponse := User_toObject savedUser in
         let userResponse := delete_field "password" userResponse in
         let userResponse := set_field "token" (JStr token) userResponse in
         ret userResponse
     end)
    (fun error =>
       if instanceof_BadRequestError error then throw error
       else if code_is_11000 error then
         throw (BadRequestError "User with this email already exists")
       else if String.eqb (err_name error) "ValidationError" then
         throw (BadRequestError "Invalid user data provided")
       else throw (Error ("User registration failed: " ++ err_message error))).

(** What [loginUserService] returns: [{ user, token, loginTime }]. *)
Record LoginResult : Type := mkLoginResult {
  lr_user      : list (string * json);
  lr_token     : string;
  lr_loginTime : Z
}.

Definition loginUserService (now : Z) (email password : Js.value)
  : M LoginResult :=
  try_catch
    (throw_if not_a_filled_string email
       then BadRequestError "Email is required and must be a non-empty string" ;;
     throw_if negb (Js.truthy password)
              || not_string_or (fun p => (String.length p =? 0)%nat) password
       then BadRequestError "Password is required" ;;
     throw_if negb (Regex.test emailRegex (trim_of email))
       then BadRequestError "Please provide a valid email address" ;;
     found <- findUserByEmail (Js.Str (Js.toLowerCase (trim_of email))) ;;
     match found with
     | None => throw (BadRequestError "Invalid email or password")
     | Some u =>
         let isPasswordValid :=
           bcrypt_compare E (string_of password) (u_password u) in
         throw_if negb isPasswordValid
           then BadRequestError "Invalid email or password" ;;
         let tokenPayload := mkPayload (u_id u) (u_email u) (u_name u) in
         token <- signToken now tokenPayload ;;
         throw_if Js.is_empty token
           then Error "Failed to generate authentication token" ;;
         let userResponse := delete_field "password" (User_toObject u) in
         ret (mkLoginResult userResponse token now)
     end)
    (fun error =>
       if instanceof_BadRequestError error then throw error
       else if String.eqb (err_name error) "CastError" then
         throw (BadRequestError "Invalid user data")
       else throw (Error ("User login failed: " ++ err_message error))).

(** *** [controllers/auth.controller.js] *)

(** [req.body]: [None] when it is undefined, else the properties of the
    parsed object. *)
Definition Body : Type := option (list (string * Js.value)).

Fixpoint body_prop (k : string) (o : list (string * Js.value)) : Js.value :=
  match o with
  | [] => Js.Undefined
  | (k', v) :: r => if String.eqb k' k then v else body_prop k r
  end.

(** [const { a, b } = req.body] throws on an undefined body. *)
Definition destructure (body : Body) : M (list (string * Js.value)) :=
  match body with
  | Some o => ret o
  | None => throw (TypeError "Cannot destructure property of 'req.body' as it is undefined.")
  end.

(** The logged preview [name ? `${name.substring(0, 2)}***` : 'undefined']
    calls a string method on a truthy value. *)
Definition log_name_preview (name : Js.value) : M unit :=
  if Js.truthy name && negb (Js.is_string name)
  then throw (TypeError "name.substring is not a function")
  else ret tt.

Definition field_or_null (k : string) (o : list (string * json)) : list (string * json) :=
  match field k o with Some j => [(k, j)] | None => [] end.

Definition renamed_field (k k' : string) (o : list (string * json)) : list (string * json) :=
  match field k o with Some j => [(k', j)] | None => [] end.

(** [{ id: user._id, name, email, avatar, createdAt }] *)
Definition public_user (o : list (string * json)) : json :=
  JObj (renamed_field "_id" "id" o ++ field_or_null "name" o
        ++ field_or_null "email" o ++ field_or_null "avatar" o
        ++ field_or_null "createdAt" o).

(** The status and code the two [catch] blocks derive, given the message
    that marks the first case. *)
Definition auth_failure (mark : string) (status : Z) (code : string)
    (requestId timestamp fallback : string) (error : JsError) : Response :=
  let '(statusCode, errorCode) :=
    if Js.includes mark (err_message error) then (status, code)
    else if Js.includes "required" (err_message error)
            || Js.includes "invalid" (err_message error)
         then (400%Z, "INVALID_INPUT")
    else match err_statusCode error with
         | Some c => if (c =? 0)%Z then (500%Z, "INTERNAL_SERVER_ERROR")
                     else (c, "SERVICE_ERROR")
         | None => (500%Z, "INTERNAL_SERVER_ERROR")
         end in
  respond statusCode
    (JObj [("success", JBool false);
           ("message", JStr (if Js.is_empty (err_message error) then fallback
                             else err_message error));
           ("error", JStr errorCode);
           ("requestId", JStr requestId);
           ("timestamp", JStr timestamp)]).

Definition missing_body : Response :=
  respond 400 (JObj [("success", JBool false);
                     ("message", JStr "Request body is required");
                     ("error", JStr "MISSING_REQUEST_BODY")]).

Definition registerUser (requestId timestamp : string) (now : Z) (body : Body)
  : M Response :=
  try_catch
    (o <- destructure body ;;
     let name := body_prop "name" o in
     let email := body_prop "email" o in
     let password := body_prop "password" o in
     log_name_preview name ;;
     match o with
     | [] => ret missing_body
     | _ =>
         user <- registerUserService now name email password ;;
         ret (respond 201
                (JObj [("success", JBool true);
                       ("data", JObj ([("user", public_user user)]
                                      ++ field_or_null "token" user));
                       ("message", JStr "User registered successfully");
                       ("requestId", JStr requestId)]))
     end)
    (fun error =>
       ret (auth_failure "already exists" 409 "USER_ALREADY_EXISTS"
              requestId timestamp "User registration failed" error)).

Definition loginUser (requestId timestamp : string) (now : Z) (body : Body)
  : M Response :=
  try_catch
    (o <- destructure body ;;
     let email := body_prop "email" o in
     let password := body_prop "password" o in
     match o with
     | [] => ret missing_body
     | _ =>
         result <- loginUserService now email password ;;
         ret (mkResponse 200 [] [("token", lr_token result)]
                (Json
                   (JObj [("success", JBool true);
                          ("data", JObj [("user", public_user (lr_user result));
                                         ("token", JStr (lr_token result));
                                         ("loginTime", JNum (lr_loginTime result))]);
                          ("message", JStr "User logged in successfully");
                          ("requestId", JStr requestId)])))
     end)
    (fun error =>
       ret (auth_failure "Invalid email or password" 401 "INVALID_CREDENTIALS"
              requestId timestamp "User login failed" error)).

End Backend.

(** * The rest of the backend *)

Section BackendRest.

Variable E : Env.

(** *** [services/ShortUrl.service.js]: links without an owner *)

(** The loop of [createShortUrlServiceWithoutUserId]; it differs from
    [retry_loop] in the call [saveShortUrl(shortUrl, url.trim())], whose
    third parameter takes its default. *)
Fixpoint retry_loop_anonymous (url : Js.value) (left : nat) (shortUrl : Js.value)
  : M Js.value :=
  match left with
  | O => ret shortUrl
  | S left' =>
      let retryCount := maxRetries - left in
      let on_error (shortUrl : Js.value) (error : JsError) : M Js.value :=
        let retryCount := S retryCount in
        if code_is_11000 error && (retryCount <? maxRetries)%nat then
          retry_loop_anonymous url left' shortUrl
        else if (maxRetries <=? retryCount)%nat then
          throw (ConflictError
                   "Unable to generate unique short URL after multiple attempts")
        else throw error in
      generated <- attempt (generateNanoId E 7) ;;
      match generated with
      | inr error => on_error shortUrl error
      | inl id =>
          let shortUrl := Js.Str id in
          try_catch
            (throw_if Js.is_empty id
               then Error "Failed to generate short URL" ;;
             longUrl <- method_trim url ;;
             saveShortUrl E shortUrl (Js.Str longUrl) Js.Undefined ;;
             ret shortUrl)
            (on_error shortUrl)
      end
  end.

Definition createShortUrlServiceWithoutUserId (url : Js.value) : M Js.value :=
  try_catch
    (validateServiceInputs url Js.Undefined ;;
     retry_loop_anonymous url maxRetries Js.Undefined)
    (fun error => throw error).

(** *** [controllers/shortUrl.controller.js]: create and list *)

(** [body] is [req.body], which [const { url } = req.body] destructures
    inside the [try] block; [req_user] is what the gate has attached. *)
Definition createShortUrl (requestId timestamp : string)
    (body : Body) (req_user : AuthUser) : M Response :=
  try_catch
    (o <- destructure body ;;
     let url := body_prop "url" o in
     validateUrl E url ;;
     let userId := au_id req_user in
     throw_if negb (Js.truthy userId)
       then Error "User authentication failed" ;;
     shortUrl <- createShortUrlServiceWithUserId E url userId ;;
     throw_if negb (Js.truthy shortUrl)
       then Error "Failed to create short URL" ;;
     let fullShortUrl := app_url E ++ string_of shortUrl in
     ret (respond 201
            (JObj [("success", JBool true);
                   ("data", JObj ([("shortUrl", JStr fullShortUrl)]
                                  ++ prop "originalUrl" url
                                  ++ prop "userId" userId
                                  ++ prop "createdBy" (au_email req_user)));
                   ("message", JStr "Short URL created successfully");
                   ("requestId", JStr requestId);
                   ("timestamp", JStr timestamp)])))
    next_error.

Definition entry_json (e : UrlEntry) : json :=
  JObj [("id", JStr (e_id e)); ("shortUrl", JStr (e_shortUrl e));
        ("originalUrl", JStr (e_originalUrl e));
        ("customUrl", JStr (e_customUrl e)); ("clicks", JNum (e_clicks e));
        ("createdAt", JNum (e_createdAt e))].

(** [req_user] is [req.user], with the properties [userId] and [id] the
    handler reads; [requestId] is [req.requestId] or the one drawn. *)
Definition getUserUrls (requestId : string) (now : Z)
    (req_user : option (Js.value * Js.value)) : M Response :=
  try_catch
    (match req_user with
     | None =>
         ret (respond 401 (JObj [("success", JBool false);
                                 ("message", JStr "Authentication required")]))
     | Some (user_userId, user_id) =>
         if negb (Js.truthy user_userId) && negb (Js.truthy user_id) then
           ret (respond 401 (JObj [("success", JBool false);
                                   ("message", JStr "Authentication required")]))
         else
           let userId := or_else user_userId user_id in
           found <- getUserUrlsService E now userId ;;
           ret (respond 200
                  (JObj [("success", JBool true);
                         ("message", JStr "URLs retrieved successfully");
                         ("data", JObj [("urls", JArr (map entry_json found));
                                        ("count", JNum (Z.of_nat (length found)))]);
                         ("requestId", JStr requestId)]))
     end)
    (fun error =>
       let statusCode :=
         match err_statusCode error with
         | Some c => if (c =? 0)%Z then 500%Z else c
         | None => 500%Z
         end in
       ret (respond statusCode
              (JObj [("success", JBool false);
                     ("message", JStr (if Js.is_empty (err_message error)
                                       then "Failed to retrieve URLs"
                                       else err_message error));
                     ("requestId", JStr requestId)]))).

(** *** [app.js]: what reaches the gate *)

(** What a client sends: the [Authorization] header and the pairs of the
    [Cookie] header. *)
Record HttpRequest : Type := mkHttpRequest {
  http_authorization : option string;
  http_cookie        : list (string * string)
}.

(** The request as the routes of [app.js] hand it to [authMiddleware].
    [app.js] mounts [cors], [express.json] and [express.urlencoded] before
    the routes and no cookie parser: nothing defines [req.cookies], and the
    [Cookie] header stays unread. *)
Definition app_request (h : HttpRequest) : AuthRequest :=
  mkAuthRequest (http_authorization h) None.

(** *** [middlewares/auth.middleware.js]: the optional gate *)

(** [req.headers.authorization || req.cookies.token]: the property read
    throws when [req.cookies] is undefined. *)
Definition optional_token (r : AuthRequest) : M Js.value :=
  let header := value_of (req_authorization r) in
  if Js.truthy header then ret header
  else match req_cookies r with
       | None =>
           throw (TypeError "Cannot read properties of undefined (reading 'token')")
       | Some t => ret (value_of t)
       end.

(** Returns what it leaves in [req.user] before [next()]: [None] is
    [null]. *)
Definition optionalAuthMiddleware (now : Z) (r : AuthRequest)
  : M (option AuthUser) :=
  try_catch
    (token <- optional_token r ;;
     let token :=
       match token with
       | Js.Str t => if Js.truthy token && Js.startsWith "Bearer " t
                     then Js.Str (Js.slice 7 t) else token
       | _ => token
       end in
     if negb (Js.truthy token) then ret None
     else
       decoded <- verifyToken E now token ;;
       if negb (Js.truthy (d_id decoded)) || negb (Js.truthy (d_email decoded)) then
         ret None
       else
         found <- findUserByEmail (d_email decoded) ;;
         match found with
         | None => ret None
         | Some u =>
             ret (Some (mkAuthUser (d_id decoded) (d_email decoded)
                          (or_else (d_name decoded) (Js.Str (u_name u)))
                          (d_iat decoded) (d_exp decoded)))
         end)
    (fun _ => ret None).

End BackendRest.

(** * The client's retry wrapper ([FRONTEND/src/utils/axiosInstance.js]) *)

Module Client.

(** The error object the response interceptor rejects with. *)
Record EnhancedError : Type := mkEnhanced {
  ee_message        : string;
  ee_status         : option Z;
  ee_isNetworkError : bool;
  ee_isTimeoutError : bool;
  ee_isServerError  : bool;
  ee_isClientError  : bool
}.

(** What the interceptor reads of an axios error: [response] (its status
    and the [message] of its data, when there is one), whether [request] is
    set, and [message]. *)
Record AxiosError : Type := mkAxiosError {
  ae_response : option (Z * option string);
  ae_request  : bool;
  ae_message  : string
}.

(** [response.data?.message || fallback] *)
Definition data_message_or (m : option string) (fallback : string) : string :=
  match m with
  | Some s => if Js.is_empty s then fallback else s
  | None => fallback
  end.

Definition client (status : Z) (msg : string) : EnhancedError :=
  mkEnhanced msg (Some status) false false false true.

Definition server (status : Z) (msg : string) : EnhancedError :=
  mkEnhanced msg (Some status) false false true false.

(** The rejection handler of the response interceptor: the enhanced error,
    and whether [localStorage.removeItem('authToken')] is called. *)
Definition enhance (error : AxiosError) : EnhancedError * bool :=
  match ae_response error with
  | Some (status, data_message) =>
      if (status =? 400)%Z then
        (client status (data_message_or data_message
                          "Bad request. Please check your input."), false)
      else if (status =? 401)%Z then
        (client status "Unauthorized. Please log in again.", true)
      else if (status =? 403)%Z then
        (client status
           "Forbidden. You don't have permission to access this resource.", false)
      else if (status =? 404)%Z then
        (client status "Resource not found.", false)
      else if (status =? 422)%Z then
        (client status (data_message_or data_message
                          "Validation error. Please check your input."), false)
      else if (status =? 429)%Z then
        (client status "Too many requests. Please try again later.", false)
      else if (status =? 500)%Z then
        (server status "Internal server error. Please try again later.", false)
      else if (status =? 502)%Z then
        (server status "Bad gateway. The server is temporarily unavailable.", false)
      else if (status =? 503)%Z then
        (server status "Service unavailable. Please try again later.", false)
      else if (status =? 504)%Z then
        (server status "Gateway timeout. The server took too long to respond.", false)
      else if (500 <=? status)%Z then
        (server status "Server error. Please try again later.", false)
      else if (400 <=? status)%Z then
        (client status (data_message_or data_message
                          "Client error. Please check your request."), false)
      else
        (mkEnhanced "An unexpected error occurred" (Some status)
                    false false false false, false)
  | None =>
      if ae_request error then
        if Js.includes "timeout" (ae_message error) then
          (mkEnhanced
             "Request timeout. Please check your internet connection and try again."
             None true true false false, false)
        else if Js.includes "Network Error" (ae_message error) then
          (mkEnhanced "Network error. Please check your internet connection."
                      None true false false false, false)
        else
          (mkEnhanced "Unable to connect to the server. Please try again later."
                      None true false false false, false)
      else
        (mkEnhanced (if Js.is_empty (ae_message error)
                     then "An unexpected error occurred."
                     else ae_message error)
                    None false false false false, false)
  end.

Definition isRetryableError (error : EnhancedError) : bool :=
  ee_isNetworkError error || ee_isTimeoutError error || ee_isServerError error
  || match ee_status error with
     | Some status => (500 <=? status)%Z && (status <? 600)%Z
     | None => false
     end.

(** A run of the wrapper: what it settles with ([inr None] is the
    [throw lastError] of a loop that never ran), the calls of [requestFn]
    it made, and the waits it slept, in order. *)
Record Run (A : Type) : Type := mkRun {
  run_result : A + option EnhancedError;
  run_calls  : nat;
  run_waits  : list Z
}.
Arguments mkRun {A} _ _ _.
Arguments run_result {A} _.
Arguments run_calls {A} _.
Arguments run_waits {A} _.

(** The [for (attempt = 1; attempt <= maxRetries; attempt++)] loop, by
    the number [maxRetries - attempt + 1] of iterations left; [requestFn k]
    is what the [k]-th call (from 0) settles with. *)
Fixpoint retry_from {A} (maxRetries : nat) (delay : Z)
    (requestFn : nat -> A + EnhancedError)
    (left : nat) (lastError : option EnhancedError) (calls : nat) (waits : list Z)
  : Run A :=
  match left with
  | O => mkRun (inr lastError) calls waits
  | S left' =>
      let attempt := S (maxRetries - left) in
      match requestFn calls with
      | inl response => mkRun (inl response) (S calls) waits
      | inr error =>
          if (attempt =? maxRetries)%nat || negb (isRetryableError error) then
            mkRun (inr (Some error)) (S calls) waits
          else
            let waitTime := (delay * 2 ^ Z.of_nat (attempt - 1))%Z in
            retry_from maxRetries delay requestFn left' (Some error) (S calls)
                       (waits ++ [waitTime])
      end
  end.

Definition createRetryWrapper {A} (maxRetries : nat) (delay : Z)
    (requestFn : nat -> A + EnhancedError) : Run A :=
  retry_from maxRetries delay requestFn maxRetries None 0 [].

End Client.

(** * Specification-side definitions *)

(** The normal form of an email: trimmed and lowercased. *)
Definition normalize (email : string) : string := Js.toLowerCase (Js.trim email).

(** The next [n] calls of the driver succeed. *)
Definition quiet (n : nat) (s : Db) : bool :=
  forallb (fun f => match f with None => true | Some _ => false end)
          (firstn n (faults s)).

Definition with_urls (l : list ShortUrl) (s : Db) : Db :=
  mkDb l (users s) (faults s) (drawn s) (made s).

Definition with_users (l : list User) (s : Db) : Db :=
  mkDb (urls s) l (faults s) (drawn s) (made s).

(** A string that does not begin with white space. *)
Definition starts_clean (s : string) : Prop :=
  match s with
  | EmptyString => True
  | String c _ => Js.is_ws c = false
  end.

(** Every character class of a pattern gives the same answer on [c] and on
    [f c]. *)
Fixpoint classes_respect (f : ascii -> ascii) (r : Regex.regex) : Prop :=
  match r with
  | Regex.Void | Regex.Eps => True
  | Regex.Class p => forall c, p (f c) = p c
  | Regex.Seq r1 r2 | Regex.Alt r1 r2 => classes_respect f r1 /\ classes_respect f r2
  | Regex.Star r1 => classes_respect f r1
  end.

(** One attempt of [createShortUrlServiceWithUserId]: the [try] block of
    its loop, run once, every error propagated. *)
Definition single_attempt (E : Env) (url userId : Js.value) : M Js.value :=
  id <- generateNanoId E 7 ;;
  throw_if Js.is_empty id
    then Error "Failed to generate short URL" ;;
  longUrl <- method_trim url ;;
  owner <- method_trim userId ;;
  saveShortUrl E (Js.Str id) (Js.Str longUrl) (Js.Str owner) ;;
  ret (Js.Str id).

(** A computation that never throws the duplicate-key code. *)
Definition never_11000 {A} (m : M A) : Prop :=
  forall s e s', m s = (Throw e, s') -> code_is_11000 e = false.

Definition not_ws (c : ascii) : bool := negb (Js.is_ws c).

(** The state once [n] random bytes are drawn. *)
Definition draw (n : nat) (s : Db) : Db :=
  mkDb (urls s) (users s) (faults s) (drawn s + n) (made s).

(** The state once one more document is constructed. *)
Definition construct (s : Db) : Db :=
  mkDb (urls s) (users s) (faults s) (drawn s) (S (made s)).

(** The slug rule of [createCustomShortUrl]: a non-empty string whose trim
    has 3 to 50 characters, matches the pattern, and is not a reserved word
    once lowercased. *)
Definition slug_accepted (slug : Js.value) : bool :=
  match slug with
  | Js.Str raw =>
      let t := Js.trim raw in
      negb (Js.is_empty raw)
      && (3 <=? String.length t)%nat && (String.length t <=? 50)%nat
      && Regex.test customUrlRegex t
      && negb (existsb (String.eqb (Js.toLowerCase t)) reservedWords)
  | _ => false
  end.

(** Some stored user has the normal form of [email] as the normal form of
    its own. *)
Definition email_taken (email : string) (s : Db) : bool :=
  existsb (fun u => String.eqb (normalize (u_email u)) (normalize email))
          (users s).

(** Stored emails are in normal form, as [registerUserService] writes
    them. *)
Definition emails_normalized (s : Db) : Prop :=
  Forall (fun u => normalize (u_email u) = u_email u) (users s).

(** The input checks of [registerUserService] on three strings: a name
    that is not blank, an email whose trim matches the pattern, a password
    of six characters or more. *)
Definition register_valid (name email password : string) : bool :=
  negb (Js.is_empty (Js.trim name))
  && Regex.test emailRegex (Js.trim email)
  && (6 <=? String.length password)%nat.

(** The body of a registration request. *)
Definition register_body (name email password : string) : Body :=
  Some [("name", Js.Str name); ("email", Js.Str email);
        ("password", Js.Str password)].

(** A function applied to every character. *)
Fixpoint map_string (f : ascii -> ascii) (s : string) : string :=
  match s with
  | EmptyString => EmptyString
  | String c r => String (f c) (map_string f r)
  end.

(** What a redirect visit for [key] may do to the short-link collection:
    the documents keep their positions and every field but [clicks]; a
    document whose [short_url] is not [key] is untouched, and [clicks]
    changes by one increment at most. *)
Definition only_clicks_of (key : string) (l l' : list ShortUrl) : Prop :=
  length l' = length l
  /\ forall i d, nth_error l i = Some d ->
       exists d', nth_error l' i = Some d'
         /\ su_id d' = su_id d /\ full_url d' = full_url d
         /\ short_url d' = short_url d /\ user d' = user d
         /\ (clicks d' = clicks d \/ clicks d' = (clicks d + 1)%Z)
         /\ (short_url d <> key -> d' = d).

(** ** A concrete environment and concrete stores

    Used to run the model on examples. *)

Module Demo.

Definition digit (n : nat) : string :=
  String (ascii_of_nat (48 + Nat.modulo n 10)) EmptyString.

(** Tokens of the demonstration signer are ["jwt:" ++ email]. *)
Definition sign (p : TokenPayload) (secret : string) (now : Z) : string :=
  "jwt:" ++ tp_email p.

Definition verify (t secret : string) (now : Z) : Decoded + JsError :=
  if Js.startsWith "jwt:" t
  then inl (mkDecoded (Js.Str "64b7f0c2a1d3e4f5a6b7c8d9") (Js.Str (Js.slice 4 t))
              Js.Undefined now (now + 604800))
  else inr (mkError ErrorC "JsonWebTokenError" "jwt malformed" None [] None []).

Definition env : Env :=
  mkEnv (fun n => N.of_nat (7 * n + 3))
        (fun u => Js.startsWith "http://" u || Js.startsWith "https://" u)
        None
        (Some "secret")
        (fun n => "64b7f0c2a1d3e4f5a6b7c80" ++ digit n)
        (fun rounds pos => "$2a$12$salt" ++ digit pos)
        (fun password salt => salt ++ "$" ++ password)
        (fun password hash => String.eqb hash ("$2a$12$salt0$" ++ password))
        sign
        verify.

Definition owner : string := "64b7f0c2a1d3e4f5a6b7c8d9".

Definition empty : Db := mkDb [] [] [] 0 0.

(** The first identifier [env] generates from position 0, and the second. *)
Definition first_id : string := "a60JYSG".

Definition link_old : ShortUrl :=
  mkShortUrl "64b7f0c2a1d3e4f5a6b7c8a1" "https://example.com/old" "old-one" 4
             (Some owner).

Definition link_new : ShortUrl :=
  mkShortUrl "64b7f0c2a1d3e4f5a6b7c8a2" "https://example.com/new" "new-one" 0
             (Some owner).

Definition link_taken : ShortUrl :=
  mkShortUrl "64b7f0c2a1d3e4f5a6b7c8a3" "https://example.com/taken" first_id 0
             None.

Definition two_links : Db := mkDb [link_old; link_new] [] [] 0 0.

Definition collision : Db := mkDb [link_taken] [] [] 0 0.

Definition bob : User :=
  mkUser "64b7f0c2a1d3e4f5a6b7c8b1" "Bob" "bob@example.com"
         "$2a$12$salt0$hunter22" "https://api.dicebear.com/7.x/initials/svg?seed=Bob"
         1000 1000.

Definition with_bob : Db := mkDb [] [bob] [] 0 0.

Definition alice : AuthUser :=
  mkAuthUser (Js.Str owner) (Js.Str "alice@example.com") (Js.Str "Alice") 0 604800.

End Demo.

(** ** Definitions for the further properties *)

(** The [user] of the document [saveShortUrl] builds for the argument
    [userId]: set only when the argument is truthy. *)
Definition stored_owner (userId : Js.value) : option ObjectId :=
  if Js.truthy (default_null userId)
  then castObjectId (trim_of (default_null userId))
  else None.

(** One attempt of [createShortUrlServiceWithoutUserId]. *)
Definition single_attempt_anonymous (E : Env) (url : Js.value) : M Js.value :=
  id <- generateNanoId E 7 ;;
  throw_if Js.is_empty id
    then Error "Failed to generate short URL" ;;
  longUrl <- method_trim url ;;
  saveShortUrl E (Js.Str id) (Js.Str longUrl) Js.Undefined ;;
  ret (Js.Str id).

(** A value [validateUrl] accepts: a non-empty string that parses. *)
Definition acceptable_url (E : Env) (url : Js.value) : bool :=
  match url with
  | Js.Str u => negb (Js.is_empty u) && URL_parses E u
  | _ => false
  end.

(** A request [createShortUrl] turns away before it generates anything:
    one without a body, or one whose [url] [validateUrl] refuses. *)
Definition bad_url_request (E : Env) (body : Body) : bool :=
  match body with
  | Some o => negb (acceptable_url E (body_prop "url" o))
  | None => true
  end.

(** [n] visits to the same path segment, one after the other. *)
Fixpoint visit_n (n : nat) (id : Js.value) (s : Db) : Db :=
  match n with
  | O => s
  | S k => visit_n k id (snd (redirectFromShortUrl id s))
  end.

(** No two stored links share a [short_url]. *)
Definition unique_short_urls (s : Db) : Prop :=
  NoDup (map short_url (urls s)).

(** An error raised by the driver itself: not one of the application's
    classes, and not a cast error. *)
Definition driver_error (e : JsError) : Prop :=
  err_class e = DriverErrorC /\ err_name e <> "CastError".

(** The body of a login request. *)
Definition login_body (email password : string) : Body :=
  Some [("email", Js.Str email); ("password", Js.Str password)].

(** What a run of [authMiddleware] leaves in [req.user]. *)
Definition gate_user (g : Outcome Gate) : option AuthUser :=
  match g with
  | Return (Next u) => Some u
  | _ => None
  end.

(** A computation that leaves both collections as they are, however it
    ends. *)
Definition keeps {A} (m : M A) : Prop :=
  forall s, urls (snd (m s)) = urls s /\ users (snd (m s)) = users s.

(** A computation that leaves both collections as they are when it
    throws. *)
Definition keeps_when_thrown {A} (m : M A) : Prop :=
  forall s e s', m s = (Throw e, s') -> urls s' = urls s /\ users s' = users s.

(** No two stored users share an [email]. *)
Definition unique_emails (s : Db) : Prop :=
  NoDup (map u_email (users s)).

(** What a registration may do to the collections: no link changes; when
    it throws no user changes, and when it returns one user has been
    appended, whose email no stored user had. *)
Definition adds_one_user {A} (m : M A) : Prop :=
  forall s out s', m s = (out, s') ->
    urls s' = urls s
    /\ match out with
       | Throw _ => users s' = users s
       | Return _ =>
           exists saved,
             users s' = (users s ++ [saved])%list
             /\ existsb (has_email (u_email saved)) (users s) = false
       end.

(** The value a run returned, [d] when it threw. *)
Definition returned {A} (d : A) (r : Outcome A * Db) : A :=
  match fst r with
  | Return a => a
  | Throw _ => d
  end.

(** A registration in the demonstration environment. *)
Definition al_registered : Outcome (list (string * json)) * Db :=
  registerUserService Demo.env 2000 (Js.Str " Al ") (Js.Str "Al@Example.com ")
    (Js.Str "secret1") Demo.with_bob.

(** A request that fails once with 503 and then succeeds. *)
Definition flaky_request (k : nat) : nat + Client.EnhancedError :=
  if (k <? 1)%nat
  then inr (Client.server 503 "Service unavailable. Please try again later.")
  else inl 200.

(** A request that is answered 409. *)
Definition conflict_response : Client.AxiosError :=
  Client.mkAxiosError (Some (409%Z, Some "Short URL already exists")) true
    "Request failed with status code 409".

(** * Strings *)

Lemma is_ws_lower_char (c : ascii) : Js.is_ws (Js.lower_char c) = Js.is_ws c.
Proof. destruct c as [[] [] [] [] [] [] [] []]; reflexivity. Qed.

Lemma lower_char_idem (c : ascii) :
  Js.lower_char (Js.lower_char c) = Js.lower_char c.
Proof. destruct c as [[] [] [] [] [] [] [] []]; reflexivity. Qed.

Lemma toLowerCase_idem (s : string) :
  Js.toLowerCase (Js.toLowerCase s) = Js.toLowerCase s.
Proof.
  induction s as [|c r IH]; simpl; [reflexivity|].
  now rewrite lower_char_idem, IH.
Qed.

Lemma trimStart_clean (s : string) : starts_clean (Js.trimStart s).
Proof.
  induction s as [|c r IH]; simpl; [exact I|].
  destruct (Js.is_ws c) eqn:W; [exact IH | simpl; exact W].
Qed.

Lemma trimStart_of_clean (s : string) : starts_clean s -> Js.trimStart s = s.
Proof. destruct s as [|c r]; simpl; [reflexivity|]. now intros ->. Qed.

Lemma trimEnd_clean (s : string) : starts_clean s -> starts_clean (Js.trimEnd s).
Proof.
  destruct s as [|c r]; simpl; [trivial|].
  intros W. destruct (Js.trimEnd r); [rewrite W|]; simpl; exact W.
Qed.

Lemma trimEnd_idem (s : string) : Js.trimEnd (Js.trimEnd s) = Js.trimEnd s.
Proof.
  induction s as [|c r IH]; simpl; [reflexivity|].
  destruct (Js.trimEnd r) as [|c' r'] eqn:T.
  - destruct (Js.is_ws c) eqn:W; simpl; [reflexivity | now rewrite W].
  - change (Js.trimEnd (String c (String c' r')))
      with (match Js.trimEnd (String c' r') with
            | EmptyString => if Js.is_ws c then EmptyString else String c EmptyString
            | r0 => String c r0
            end).
    now rewrite IH.
Qed.

Lemma trim_idem (s : string) : Js.trim (Js.trim s) = Js.trim s.
Proof.
  unfold Js.trim.
  rewrite (trimStart_of_clean (Js.trimEnd (Js.trimStart s))).
  - apply trimEnd_idem.
  - apply trimEnd_clean, trimStart_clean.
Qed.

Lemma trimStart_toLowerCase (s : string) :
  Js.trimStart (Js.toLowerCase s) = Js.toLowerCase (Js.trimStart s).
Proof.
  induction s as [|c r IH]; simpl; [reflexivity|].
  rewrite is_ws_lower_char. destruct (Js.is_ws c); [exact IH | reflexivity].
Qed.

Lemma trimEnd_toLowerCase (s : string) :
  Js.trimEnd (Js.toLowerCase s) = Js.toLowerCase (Js.trimEnd s).
Proof.
  induction s as [|c r IH]; simpl; [reflexivity|].
  rewrite IH, is_ws_lower_char.
  destruct (Js.trimEnd r); simpl; [destruct (Js.is_ws c)|]; reflexivity.
Qed.

Lemma trim_toLowerCase (s : string) :
  Js.trim (Js.toLowerCase s) = Js.toLowerCase (Js.trim s).
Proof. unfold Js.trim. now rewrite trimStart_toLowerCase, trimEnd_toLowerCase. Qed.

Lemma normalize_idem (e : string) : normalize (normalize e) = normalize e.
Proof.
  unfold normalize.
  now rewrite trim_toLowerCase, trim_idem, toLowerCase_idem.
Qed.

Lemma trim_normalize (e : string) : Js.trim (normalize e) = normalize e.
Proof. unfold normalize. now rewrite trim_toLowerCase, trim_idem. Qed.

(** A string without white space is its own trim. *)
Lemma trimEnd_no_ws (s : string) :
  Js.all_chars (fun c => negb (Js.is_ws c)) s = true -> Js.trimEnd s = s.
Proof.
  induction s as [|c r IH]; simpl; [reflexivity|].
  intros H. apply andb_prop in H as [Hc Hr]. rewrite (IH Hr).
  destruct r; [|reflexivity].
  now destruct (Js.is_ws c).
Qed.

Lemma trim_no_ws (s : string) :
  Js.all_chars (fun c => negb (Js.is_ws c)) s = true -> Js.trim s = s.
Proof.
  intros H. unfold Js.trim. rewrite trimStart_of_clean.
  - now apply trimEnd_no_ws.
  - destruct s as [|c r]; simpl in *; [exact I|].
    apply andb_prop in H as [Hc _]. now destruct (Js.is_ws c).
Qed.

Lemma is_empty_true (s : string) : Js.is_empty s = true <-> s = EmptyString.
Proof. destruct s; simpl; split; congruence. Qed.

Lemma is_empty_false (s : string) : Js.is_empty s = false <-> s <> EmptyString.
Proof. destruct s; simpl; split; congruence. Qed.

Lemma length_0_is_empty (s : string) : (String.length s =? 0)%nat = Js.is_empty s.
Proof. now destruct s. Qed.

Lemma toLowerCase_empty (s : string) :
  Js.is_empty (Js.toLowerCase s) = Js.is_empty s.
Proof. now destruct s. Qed.

(** * Patterns *)

Lemma nullable_deriv_respect f r c :
  classes_respect f r -> Regex.deriv (f c) r = Regex.deriv c r.
Proof.
  induction r as [| |p|r1 IH1 r2 IH2|r1 IH1 r2 IH2|r1 IH1]; simpl; intros H;
    try reflexivity.
  - now rewrite H.
  - destruct H as [H1 H2]. now rewrite IH1, IH2.
  - destruct H as [H1 H2]. now rewrite IH1, IH2.
  - now rewrite IH1.
Qed.

Lemma classes_respect_deriv f r c :
  classes_respect f r -> classes_respect f (Regex.deriv c r).
Proof.
  induction r as [| |p|r1 IH1 r2 IH2|r1 IH1 r2 IH2|r1 IH1]; simpl; intros H;
    try exact I.
  - now destruct (p c).
  - destruct H as [H1 H2]. destruct (Regex.nullable r1); simpl; auto.
  - destruct H as [H1 H2]. auto.
  - auto.
Qed.

Lemma test_respect f (s : string) : forall r,
  classes_respect f r -> Regex.test r (map_string f s) = Regex.test r s.
Proof.
  induction s as [|c s IH]; simpl; intros r H; [reflexivity|].
  rewrite nullable_deriv_respect by assumption.
  apply IH. now apply classes_respect_deriv.
Qed.

Lemma toLowerCase_map (s : string) : Js.toLowerCase s = map_string Js.lower_char s.
Proof. induction s; simpl; congruence. Qed.

Lemma email_atom_lower (c : ascii) : email_atom (Js.lower_char c) = email_atom c.
Proof. destruct c as [[] [] [] [] [] [] [] []]; reflexivity. Qed.

Lemma emailRegex_toLowerCase (s : string) :
  Regex.test emailRegex (Js.toLowerCase s) = Regex.test emailRegex s.
Proof.
  rewrite toLowerCase_map. apply test_respect.
  unfold emailRegex, Regex.Plus; simpl.
  repeat split; try apply email_atom_lower;
    intros c; destruct c as [[] [] [] [] [] [] [] []]; reflexivity.
Qed.

(** A string the email pattern accepts is not empty. *)
Lemma emailRegex_nonempty (s : string) :
  Regex.test emailRegex s = true -> s <> EmptyString.
Proof. intros H ->. discriminate H. Qed.

(** * Running computations *)

(** Case analysis on every condition a goal branches on. *)
Ltac case_ifs :=
  repeat match goal with
         | |- context [if ?b then _ else _] => destruct b
         end.

Lemma bind_Return {A B} (m : M A) (k : A -> M B) s a s' :
  m s = (Return a, s') -> bind m k s = k a s'.
Proof. unfold bind. now intros ->. Qed.

Lemma bind_Throw {A B} (m : M A) (k : A -> M B) s e s' :
  m s = (Throw e, s') -> bind m k s = (Throw e, s').
Proof. unfold bind. now intros ->. Qed.

Lemma try_Return {A} (m : M A) h s a s' :
  m s = (Return a, s') -> try_catch m h s = (Return a, s').
Proof. unfold try_catch. now intros ->. Qed.

Lemma try_Throw {A} (m : M A) h s e s' :
  m s = (Throw e, s') -> try_catch m h s = h e s'.
Proof. unfold try_catch. now intros ->. Qed.

Lemma quiet_S n s :
  quiet (S n) s = true ->
  hd None (faults s) = None /\ quiet n (pop_fault s) = true.
Proof.
  unfold quiet, pop_fault; simpl. destruct (faults s) as [|[e|] r]; simpl.
  - now destruct n.
  - discriminate.
  - auto.
Qed.

Lemma driver_call_quiet s :
  quiet 1 s = true -> driver_call s = (Return tt, pop_fault s).
Proof. intros H. apply quiet_S in H as [H _]. unfold driver_call. now rewrite H. Qed.

Lemma with_urls_same s : with_urls (urls s) s = s.
Proof. now destruct s. Qed.

(** * The redirect lookup *)

Lemma update_first_none key l :
  find (has_short_url key) l = None -> update_first key l = (None, l).
Proof.
  induction l as [|d r IH]; simpl; [reflexivity|].
  destruct (has_short_url key d); [discriminate|].
  intros H. now rewrite (IH H).
Qed.

Lemma update_first_some key l d :
  find (has_short_url key) l = Some d ->
  exists l1 l2,
    l = (l1 ++ d :: l2)%list /\ find (has_short_url key) l1 = None
    /\ update_first key l = (Some (inc_clicks d), (l1 ++ inc_clicks d :: l2)%list).
Proof.
  induction l as [|x r IH]; simpl; [discriminate|].
  destruct (has_short_url key x) eqn:Hx.
  - intros [= ->]. exists [], r. auto.
  - intros H. destruct (IH H) as (l1 & l2 & -> & Hn & Hu).
    exists (x :: l1), l2. simpl. rewrite Hx, Hu. auto.
Qed.

(** [$inc] touches one document, and only its [clicks]. *)
Lemma update_first_frame key l :
  length (snd (update_first key l)) = length l
  /\ forall i d, nth_error l i = Some d ->
       exists d', nth_error (snd (update_first key l)) i = Some d'
         /\ su_id d' = su_id d /\ full_url d' = full_url d
         /\ short_url d' = short_url d /\ user d' = user d
         /\ (d' = d \/ (has_short_url key d = true /\ d' = inc_clicks d))
         /\ (has_short_url key d = false -> d' = d).
Proof.
  induction l as [|x r [IHlen IH]]; simpl.
  - split; [reflexivity|]. intros [|i] d; discriminate.
  - destruct (has_short_url key x) eqn:Hx; simpl.
    + split; [reflexivity|]. intros [|i] d; simpl.
      * intros [= <-]. exists (inc_clicks x). rewrite Hx.
        repeat split; auto. discriminate.
      * intros H. exists d. repeat split; auto.
    + destruct (update_first key r) as [found r'] eqn:U; simpl in *.
      split; [now rewrite IHlen|]. intros [|i] d; simpl.
      * intros [= <-]. exists x. repeat split; auto.
      * apply IH.
Qed.

Lemma findOneAndUpdate_run key s :
  quiet 1 s = true ->
  ShortUrl_findOneAndUpdate_inc key s
  = (Return (fst (update_first key (urls s))),
     with_urls (snd (update_first key (urls s))) (pop_fault s)).
Proof.
  intros Q. unfold ShortUrl_findOneAndUpdate_inc.
  rewrite (bind_Return _ _ _ _ _ (driver_call_quiet s Q)).
  unfold bind, get; simpl.
  now destruct (update_first key (urls s)).
Qed.

Lemma not_filled_Str k :
  not_a_filled_string (Js.Str k) = Js.is_empty (Js.trim k).
Proof.
  unfold not_a_filled_string. simpl trim_of. rewrite length_0_is_empty.
  now destruct k.
Qed.

Lemma getShortUrl_found k s d :
  Js.trim k <> EmptyString -> quiet 1 s = true ->
  find (has_short_url (Js.trim k)) (urls s) = Some d ->
  full_url d <> EmptyString ->
  getShortUrl (Js.Str k) s
  = (Return (Some (inc_clicks d)),
     with_urls (snd (update_first (Js.trim k) (urls s))) (pop_fault s)).
Proof.
  intros Hk Q Hf Hu. unfold getShortUrl.
  apply try_Return. rewrite not_filled_Str.
  apply is_empty_false in Hk. rewrite Hk.
  erewrite bind_Return by (apply findOneAndUpdate_run; exact Q).
  unfold trim_of.
  destruct (update_first_some _ _ _ Hf) as (l1 & l2 & _ & _ & Hup).
  rewrite Hup. cbn [fst snd full_url inc_clicks].
  apply is_empty_false in Hu. now rewrite Hu.
Qed.

Lemma getShortUrl_missing k s :
  Js.trim k <> EmptyString -> quiet 1 s = true ->
  find (has_short_url (Js.trim k)) (urls s) = None ->
  getShortUrl (Js.Str k) s = (Return None, pop_fault s).
Proof.
  intros Hk Q Hf. unfold getShortUrl.
  apply try_Return. rewrite not_filled_Str.
  apply is_empty_false in Hk. rewrite Hk.
  erewrite bind_Return by (apply findOneAndUpdate_run; exact Q).
  unfold trim_of. rewrite (update_first_none _ _ Hf). cbn [fst snd].
  unfold ret. now rewrite <- (with_urls_same (pop_fault s)) at 2.
Qed.

Lemma only_clicks_refl key l : only_clicks_of key l l.
Proof.
  split; [reflexivity|]. intros i d H. exists d. repeat split; auto.
Qed.

Lemma has_short_url_false key d :
  short_url d <> key -> has_short_url key d = false.
Proof. unfold has_short_url. intros H. now apply String.eqb_neq. Qed.

Lemma only_clicks_update key l : only_clicks_of key l (snd (update_first key l)).
Proof.
  destruct (update_first_frame key l) as [Hlen H]. split; [exact Hlen|].
  intros i d Hi. destruct (H i d Hi) as (d' & Hn & H1 & H2 & H3 & H4 & H5 & H6).
  exists d'. repeat split; auto.
  - destruct H5 as [->|[_ ->]]; [now left | now right].
  - intros Hk. apply H6. now apply has_short_url_false.
Qed.

Lemma findOneAndUpdate_state key s :
  users (snd (ShortUrl_findOneAndUpdate_inc key s)) = users s
  /\ (urls (snd (ShortUrl_findOneAndUpdate_inc key s)) = urls s
      \/ urls (snd (ShortUrl_findOneAndUpdate_inc key s))
         = snd (update_first key (urls s))).
Proof.
  unfold ShortUrl_findOneAndUpdate_inc, bind, driver_call, get.
  destruct (hd None (faults s)); simpl; [auto|].
  destruct (update_first key (urls s)); simpl. auto.
Qed.

Lemma getShortUrl_state v s :
  users (snd (getShortUrl v s)) = users s
  /\ (urls (snd (getShortUrl v s)) = urls s
      \/ urls (snd (getShortUrl v s)) = snd (update_first (trim_of v) (urls s))).
Proof.
  unfold getShortUrl, try_catch.
  destruct (not_a_filled_string v).
  - unfold throw, getShortUrl_catch; simpl.
    case_ifs;
      simpl; auto.
  - unfold bind.
    pose proof (findOneAndUpdate_state (trim_of v) s) as [Hu Hl].
    destruct (ShortUrl_findOneAndUpdate_inc (trim_of v) s) as [[[doc|]|e] s1];
      simpl in *; unfold getShortUrl_catch, ret, throw;
      case_ifs;
      simpl; auto.
Qed.

Lemma redirect_state id s :
  users (snd (redirectFromShortUrl id s)) = users s
  /\ (urls (snd (redirectFromShortUrl id s)) = urls s
      \/ urls (snd (redirectFromShortUrl id s))
         = snd (update_first (Js.trim (trim_of id)) (urls s))).
Proof.
  unfold redirectFromShortUrl, try_catch, next_error, ret, throw.
  destruct (negb (Js.truthy id)); [simpl; auto|].
  destruct (negb (Js.is_string id) || (String.length (trim_of id) =? 0)%nat);
    [simpl; auto|].
  unfold bind.
  pose proof (getShortUrl_state (Js.Str (trim_of id)) s) as [Hu Hl].
  change (trim_of (Js.Str (trim_of id))) with (Js.trim (trim_of id)) in Hl.
  destruct (getShortUrl (Js.Str (trim_of id)) s) as [[[doc|]|e] s1];
    simpl in *;
    case_ifs;
    simpl; auto.
Qed.

Lemma redirect_found (s : Db) (code : string) (d : ShortUrl) :
  quiet 1 s = true ->
  find (has_short_url (Js.trim code)) (urls s) = Some d ->
  short_url d <> EmptyString ->
  full_url d <> EmptyString ->
  redirectFromShortUrl (Js.Str code) s
  = (Return (mkResponse 302 no_cache_headers [] (Redirect (full_url d))),
     with_urls (snd (update_first (Js.trim code) (urls s))) (pop_fault s)).
Proof.
  intros Q Hf Hs Hu.
  assert (Hk : Js.trim code <> EmptyString).
  { apply find_some in Hf as [_ Hm]. unfold has_short_url in Hm.
    apply String.eqb_eq in Hm. congruence. }
  unfold redirectFromShortUrl. apply try_Return.
  assert (Hc : code <> EmptyString) by (intros ->; apply Hk; reflexivity).
  apply is_empty_false in Hc. cbn [Js.truthy Js.is_string negb].
  rewrite Hc. cbn [negb orb]. unfold trim_of at 1.
  rewrite length_0_is_empty. apply is_empty_false in Hk. rewrite Hk.
  erewrite bind_Return.
  2:{ unfold trim_of. apply getShortUrl_found; rewrite ?trim_idem; eauto.
      now apply is_empty_false. }
  cbn [full_url inc_clicks]. apply is_empty_false in Hu. rewrite Hu.
  rewrite trim_idem. reflexivity.
Qed.

(** ** C9: a redirect visit changes nothing but one click counter *)

(** C9.  A redirect visit for any path segment [id] leaves the user
    collection alone and, in the short-link collection, keeps every
    document in place with its [_id], [full_url], [short_url] and [user];
    only the [clicks] of a document whose [short_url] is the trimmed code
    can change, and every other document is identical afterwards. *)
Theorem redirect_changes_only_clicks (id : Js.value) (s : Db) :
  let s' := snd (redirectFromShortUrl id s) in
  users s' = users s
  /\ only_clicks_of (Js.trim (trim_of id)) (urls s) (urls s').
Proof.
  cbv zeta. destruct (redirect_state id s) as [Hu [Hl|Hl]]; split; auto;
    rewrite Hl.
  - apply only_clicks_refl.
  - apply only_clicks_update.
Qed.

(** ** C3: the redirect response *)

(** C3.  A visit whose code matches a stored short link (a document that
    satisfies the schema: both URLs present) is answered with status 302,
    not 301, a redirect to the document's [full_url], and the three
    headers that forbid caching. *)
Theorem redirect_is_302_no_cache (s : Db) (code : string) (d : ShortUrl) :
  quiet 1 s = true ->
  find (has_short_url (Js.trim code)) (urls s) = Some d ->
  short_url d <> EmptyString ->
  full_url d <> EmptyString ->
  exists r s',
    redirectFromShortUrl (Js.Str code) s = (Return r, s')
    /\ res_status r = 302%Z
    /\ res_status r <> 301%Z
    /\ res_payload r = Redirect (full_url d)
    /\ res_headers r
       = [("Cache-Control", "no-cache, no-store, must-revalidate");
          ("Pragma", "no-cache");
          ("Expires", "0")].
Proof.
  intros Q Hf Hs Hu.
  exists (mkResponse 302 no_cache_headers [] (Redirect (full_url d))).
  eexists. split; [now apply redirect_found|].
  repeat split; discriminate.
Qed.

Lemma redirect_is_302_no_cache_witness :
  exists r s',
    redirectFromShortUrl (Js.Str " old-one ") Demo.two_links = (Return r, s')
    /\ res_status r = 302%Z
    /\ res_status r <> 301%Z
    /\ res_payload r = Redirect "https://example.com/old"
    /\ res_headers r
       = [("Cache-Control", "no-cache, no-store, must-revalidate");
          ("Pragma", "no-cache");
          ("Expires", "0")].
Proof.
  apply (redirect_is_302_no_cache Demo.two_links " old-one " Demo.link_old);
    [reflexivity | reflexivity | discriminate | discriminate].
Defined.

(** ** C2: the lookup is one find-and-increment *)

(** C2 fails for a blank code: no stored document has the (empty) trimmed
    code, yet the answer is 400, not 404, and no lookup is made. *)
Lemma blank_code_is_400_not_404 :
  find (has_short_url (Js.trim " ")) (urls Demo.two_links) = None
  /\ exists r,
       redirectFromShortUrl (Js.Str " ") Demo.two_links = (Return r, Demo.two_links)
       /\ res_status r = 400%Z
       /\ res_status r <> 404%Z.
Proof.
  split; [reflexivity|].
  eexists. split; [reflexivity|]. split; [reflexivity|discriminate].
Qed.

(** C2, amended.  For a code that is not blank and a store that answers and
    satisfies the schema, the lookup is one operation of the driver: when a
    document has the trimmed code as its [short_url], the first such
    document gets [clicks + 1], stays in place, and is what the lookup
    returns; when none has, the lookup returns nothing, the collection is
    unchanged and the response is 404.  A blank code is answered 400
    without any operation on the store. *)
Theorem redirect_lookup_find_and_increment (s : Db) (code : string) :
  quiet 1 s = true ->
  Forall (fun d => full_url d <> EmptyString) (urls s) ->
  let key := Js.trim code in
  if Js.is_empty key then
    exists r, redirectFromShortUrl (Js.Str code) s = (Return r, s)
              /\ res_status r = 400%Z
  else
    match find (has_short_url key) (urls s) with
    | Some d =>
        exists l1 l2,
          urls s = (l1 ++ d :: l2)%list
          /\ find (has_short_url key) l1 = None
          /\ getShortUrl (Js.Str key) s
             = (Return (Some (inc_clicks d)),
                with_urls (l1 ++ inc_clicks d :: l2)%list (pop_fault s))
          /\ clicks (inc_clicks d) = (clicks d + 1)%Z
    | None =>
        getShortUrl (Js.Str key) s = (Return None, pop_fault s)
        /\ exists r,
             redirectFromShortUrl (Js.Str code) s = (Return r, pop_fault s)
             /\ res_status r = 404%Z
             /\ urls (pop_fault s) = urls s
    end.
Proof.
  intros Q Hwf key. destruct (Js.is_empty key) eqn:Hk.
  - unfold redirectFromShortUrl, try_catch, next_error, ret, throw.
    cbn [Js.truthy Js.is_string negb orb]. rewrite negb_involutive.
    destruct (Js.is_empty code) eqn:Hc; [eexists; split; reflexivity|].
    unfold trim_of. rewrite length_0_is_empty. fold key. rewrite Hk.
    eexists; split; reflexivity.
  - apply is_empty_false in Hk.
    destruct (find (has_short_url key) (urls s)) as [d|] eqn:Hf.
    + destruct (update_first_some _ _ _ Hf) as (l1 & l2 & Hl & Hn & Hup).
      exists l1, l2. repeat split; auto.
      rewrite (getShortUrl_found key s d); unfold key; rewrite ?trim_idem; auto.
      * fold key. now rewrite Hup.
      * apply find_some in Hf as [Hin _].
        rewrite Forall_forall in Hwf. now apply Hwf.
    + assert (G : getShortUrl (Js.Str key) s = (Return None, pop_fault s)).
      { apply getShortUrl_missing; unfold key; rewrite ?trim_idem; auto. }
      split; [exact G|].
      eexists. split.
      { unfold redirectFromShortUrl.
        assert (Hc : code <> EmptyString) by (intros ->; apply Hk; reflexivity).
        apply is_empty_false in Hc. cbn [Js.truthy Js.is_string negb].
        rewrite Hc. cbn [negb orb]. unfold trim_of at 1.
        rewrite length_0_is_empty. fold key.
        apply is_empty_false in Hk. rewrite Hk.
        erewrite try_Throw; [reflexivity|].
        erewrite bind_Return by (unfold trim_of; fold key; exact G).
        reflexivity. }
      split; reflexivity.
Qed.

Lemma redirect_lookup_find_and_increment_witness :
  exists l1 l2,
    urls Demo.two_links = (l1 ++ Demo.link_new :: l2)%list
    /\ find (has_short_url "new-one") l1 = None
    /\ getShortUrl (Js.Str "new-one") Demo.two_links
       = (Return (Some (inc_clicks Demo.link_new)),
          with_urls (l1 ++ inc_clicks Demo.link_new :: l2)%list
                    (pop_fault Demo.two_links))
    /\ clicks (inc_clicks Demo.link_new) = (clicks Demo.link_new + 1)%Z.
Proof.
  apply (redirect_lookup_find_and_increment Demo.two_links "new-one");
    [reflexivity | repeat constructor; discriminate].
Defined.

(** * Identifier generation *)

Lemma alphabet_char_not_ws (b : N) : not_ws (alphabet_char b) = true.
Proof.
  unfold alphabet_char.
  assert (H : (N.to_nat (N.land b 63) < 64)%nat).
  { change 63%N with (N.ones 6). rewrite N.land_ones.
    pose proof (N.mod_upper_bound b (2 ^ 6)) as U.
    change (2 ^ 6)%N with 64%N in *. lia. }
  revert H. generalize (N.to_nat (N.land b 63)). intros n Hn.
  do 64 (destruct n as [|n]; [reflexivity|]). lia.
Qed.

Lemma nanoid_from_not_ws E n : forall pos,
  Js.all_chars not_ws (nanoid_from E pos n) = true.
Proof.
  induction n as [|n IH]; intros pos; simpl; [reflexivity|].
  now rewrite alphabet_char_not_ws, IH.
Qed.

Lemma nanoid_from_length E n : forall pos,
  String.length (nanoid_from E pos n) = n.
Proof. induction n as [|n IH]; intros pos; simpl; [reflexivity|]. now rewrite IH. Qed.

Lemma nanoid_from_trim E pos n :
  Js.trim (nanoid_from E pos n) = nanoid_from E pos n.
Proof. apply trim_no_ws, nanoid_from_not_ws. Qed.

(** [generateNanoId(7)] always returns: seven characters of the alphabet. *)
Lemma generateNanoId_7 E s :
  generateNanoId E 7 s = (Return (nanoid_from E (drawn s) 7), draw 7 s).
Proof. reflexivity. Qed.

(** * Saving a short link *)

Lemma saveShortUrl_catch_never_11000 {A} (e0 : JsError) :
  never_11000 (@saveShortUrl_catch A e0).
Proof.
  intros s e s'. unfold saveShortUrl_catch, throw.
  destruct (code_is_11000 e0) eqn:C.
  - destruct (existsb _ _); intros [= <- _]; reflexivity.
  - case_ifs;
      intros [= <- _]; auto.
Qed.

Lemma try_catch_never_11000 {A} (m : M A) h :
  (forall e, never_11000 (h e)) -> never_11000 (try_catch m h).
Proof.
  intros H s e s'. unfold try_catch.
  destruct (m s) as [[a|e0] s0]; [discriminate|]. apply H.
Qed.

Lemma saveShortUrl_never_11000 E a b c : never_11000 (saveShortUrl E a b c).
Proof. apply try_catch_never_11000. intros e. apply saveShortUrl_catch_never_11000. Qed.

Lemma method_trim_never_11000 v : never_11000 (method_trim v).
Proof.
  intros s e s'. destruct v; unfold method_trim, ret, throw;
    intros [= <- _]; reflexivity.
Qed.

Lemma single_attempt_never_11000 E url userId :
  never_11000 (single_attempt E url userId).
Proof.
  intros s e s'. unfold single_attempt, bind. rewrite generateNanoId_7.
  destruct (Js.is_empty _); [intros [= <- _]; reflexivity|].
  destruct (method_trim url (draw 7 s)) as [[longUrl|e1] t1] eqn:T1.
  - destruct (method_trim userId t1) as [[owner|e2] t2] eqn:T2.
    + destruct (saveShortUrl E _ _ _ t2) as [[d|e3] t3] eqn:Sv; [discriminate|].
      intros [= <- _]. eapply saveShortUrl_never_11000; exact Sv.
    + intros [= <- _]. eapply method_trim_never_11000; exact T2.
  - intros [= <- _]. eapply method_trim_never_11000; exact T1.
Qed.

(** The retry loop of [createShortUrlServiceWithUserId] makes one attempt:
    [saveShortUrl] turns the duplicate-key error of the driver into a
    [ConflictError], which has no [code], so the [catch] block of the loop
    never takes its retry branch. *)
Lemma retry_loop_is_single_attempt E url userId v s :
  retry_loop E url userId maxRetries v s = single_attempt E url userId s.
Proof.
  pose proof (single_attempt_never_11000 E url userId s) as N.
  unfold single_attempt in *. unfold maxRetries. cbn [retry_loop].
  unfold bind, attempt, try_catch in *. rewrite generateNanoId_7 in *.
  cbn [Nat.sub Nat.ltb Nat.leb maxRetries] in *.
  destruct (Js.is_empty (nanoid_from E (drawn s) 7)).
  - reflexivity.
  - destruct (method_trim url (draw 7 s)) as [[longUrl|e1] s1] eqn:T1.
    + destruct (method_trim userId s1) as [[owner|e2] s2] eqn:T2.
      * destruct (saveShortUrl E _ _ _ s2) as [[d|e3] s3] eqn:Sv; [reflexivity|].
        rewrite (N e3 s3 eq_refl). reflexivity.
      * rewrite (N e2 s2 eq_refl). reflexivity.
    + rewrite (N e1 s1 eq_refl). reflexivity.
Qed.

Lemma trim_nonempty (s : string) : Js.trim s <> EmptyString -> s <> EmptyString.
Proof. intros H ->. now apply H. Qed.

Lemma castObjectId_nonempty (o : string) (oid : ObjectId) :
  castObjectId o = Some oid -> o <> EmptyString.
Proof. intros H ->. discriminate H. Qed.

Lemma given_but_not_filled_Str (o : string) :
  given_but_not_filled (Js.Str o) = Js.is_empty (Js.trim o).
Proof. unfold given_but_not_filled. simpl. apply length_0_is_empty. Qed.

(** The document [saveShortUrl] inserts. *)
Lemma saveShortUrl_run E (id longUrl owner : string) (oid : ObjectId) (s : Db) :
  Js.trim id <> EmptyString ->
  Js.trim longUrl <> EmptyString ->
  castObjectId (Js.trim owner) = Some oid ->
  quiet 1 s = true ->
  saveShortUrl E (Js.Str id) (Js.Str longUrl) (Js.Str owner) s
  = if existsb (has_short_url (Js.trim id)) (urls s)
    then (Throw (ConflictError "Short URL already exists"),
          pop_fault (construct s))
    else
      let doc := mkShortUrl (new_ObjectId E (made s)) (Js.trim longUrl)
                            (Js.trim id) 0 (Some oid) in
      (Return doc, with_urls (urls s ++ [doc]) (pop_fault (construct s))).
Proof.
  intros Hi Hl Ho Q.
  pose proof (castObjectId_nonempty _ _ Ho) as Ho'.
  unfold saveShortUrl, validateSaveInputs. cbn [default_null].
  rewrite !not_filled_Str, given_but_not_filled_Str.
  apply is_empty_false in Hi, Hl, Ho'. rewrite Hi, Hl, Ho'.
  unfold try_catch, bind at 1 2. cbn [ret].
  unfold bind at 1. unfold ShortUrl_new at 1. fold (construct s).
  cbn [Js.truthy]. apply is_empty_false, trim_nonempty, is_empty_false in Ho'.
  rewrite Ho'. cbn [negb dr_id dr_full_url dr_short_url trim_of].
  unfold ShortUrl_save, ShortUrl_validate.
  cbn [dr_id dr_full_url dr_short_url dr_user]. rewrite Hi, Hl, Ho.
  cbn [app].
  assert (Q' : quiet 1 (construct s) = true) by exact Q.
  unfold bind at 1. rewrite (driver_call_quiet _ Q').
  unfold bind at 1, get.
  change (urls (pop_fault (construct s))) with (urls s).
  destruct (existsb (has_short_url (Js.trim id)) (urls s)).
  - reflexivity.
  - unfold ShortUrl_of_draft. cbn [dr_id dr_full_url dr_short_url dr_user].
    rewrite Ho. reflexivity.
Qed.

(** What a successful [saveShortUrl] has done. *)
Lemma saveShortUrl_Return E a b c s d s' :
  saveShortUrl E a b c s = (Return d, s') ->
  full_url d = trim_of b /\ short_url d = trim_of a /\ clicks d = 0%Z
  /\ full_url d <> EmptyString /\ short_url d <> EmptyString
  /\ existsb (has_short_url (trim_of a)) (urls s) = false
  /\ urls s' = (urls s ++ [d])%list /\ users s' = users s
  /\ faults s' = tl (faults s).
Proof.
  unfold saveShortUrl, try_catch.
  destruct (bind _ _ s) as [[d0|e0] s0] eqn:B.
  2:{ unfold saveShortUrl_catch, throw.
      case_ifs;
        discriminate. }
  intros [= -> ->]. revert B.
  unfold validateSaveInputs, bind, ShortUrl_new, ret, throw.
  destruct (not_a_filled_string a); [discriminate|].
  destruct (not_a_filled_string b); [discriminate|].
  destruct (given_but_not_filled (default_null c)); [discriminate|].
  unfold ShortUrl_save, ShortUrl_validate, ShortUrl_of_draft, bind, driver_call,
    get, set_urls, ret, throw.
  destruct (Js.truthy (default_null c));
    cbn [dr_id dr_full_url dr_short_url dr_user];
    destruct (Js.is_empty (trim_of b)) eqn:Eb; cbn [app]; try discriminate;
    destruct (Js.is_empty (trim_of a)) eqn:Ea; cbn [app]; try discriminate;
    try destruct (castObjectId _); cbn [app]; try discriminate;
    cbn [faults urls users drawn made pop_fault];
    destruct (hd None (faults s)); try discriminate;
    cbn [faults urls users drawn made pop_fault];
    destruct (existsb _ (urls s)) eqn:Ex; try discriminate;
    intros [= <- <-]; cbn; apply is_empty_false in Ea, Eb; repeat split; auto.
Qed.

Lemma find_app_last {A} (p : A -> bool) (l : list A) (x : A) :
  existsb p l = false -> p x = true -> find p (l ++ [x]) = Some x.
Proof.
  induction l as [|y r IH]; simpl; intros H Hx; [now rewrite Hx|].
  apply orb_false_iff in H as [Hy Hr]. rewrite Hy. now apply IH.
Qed.

Lemma find_after_update key l d :
  find (has_short_url key) l = Some d ->
  find (has_short_url key) (snd (update_first key l)) = Some (inc_clicks d).
Proof.
  induction l as [|x r IH]; simpl; [discriminate|].
  destruct (has_short_url key x) eqn:Hx.
  - intros [= ->]. simpl. unfold has_short_url in *. simpl. now rewrite Hx.
  - intros H. specialize (IH H). destruct (update_first key r); simpl in *.
    now rewrite Hx.
Qed.

Lemma try_rethrow {A} (m : M A) s : try_catch m (fun e => throw e) s = m s.
Proof. unfold try_catch, throw. now destruct (m s) as [[a|e] s']. Qed.

Lemma validateServiceInputs_Str (url owner : string) s :
  Js.trim url <> EmptyString -> Js.trim owner <> EmptyString ->
  validateServiceInputs (Js.Str url) (Js.Str owner) s = (Return tt, s).
Proof.
  intros Hu Ho. unfold validateServiceInputs. cbn [default_null Js.truthy Js.is_string negb].
  pose proof (trim_nonempty _ Hu) as Hu'. apply is_empty_false in Hu'.
  rewrite Hu'. cbn [negb orb]. rewrite given_but_not_filled_Str.
  unfold trim_of. rewrite length_0_is_empty.
  apply is_empty_false in Hu, Ho. now rewrite Hu, Ho.
Qed.

(** ** C1: the retry loop *)

(** C1 (what the code does).  When the first candidate the generator
    yields is already a stored [short_url], [createShortUrlServiceWithUserId]
    fails at once with the [ConflictError] of the DAO, "Short URL already
    exists": seven random bytes are drawn, the driver is called once, the
    collection is unchanged.  No second candidate is generated and the
    "unable to generate unique" error is not raised. *)
Theorem createShortUrl_gives_up_on_first_collision
    E (url owner : string) (oid : ObjectId) (s : Db) :
  Js.trim url <> EmptyString ->
  castObjectId (Js.trim owner) = Some oid ->
  quiet 1 s = true ->
  existsb (has_short_url (nanoid_from E (drawn s) 7)) (urls s) = true ->
  exists s',
    createShortUrlServiceWithUserId E (Js.Str url) (Js.Str owner) s
    = (Throw (ConflictError "Short URL already exists"), s')
    /\ drawn s' = drawn s + 7
    /\ faults s' = tl (faults s)
    /\ urls s' = urls s.
Proof.
  intros Hu Ho Q Hdup.
  exists (pop_fault (construct (draw 7 s))). split; [|repeat split].
  unfold createShortUrlServiceWithUserId. rewrite try_rethrow.
  erewrite bind_Return.
  2:{ apply validateServiceInputs_Str; [exact Hu|].
      apply castObjectId_nonempty in Ho. exact Ho. }
  rewrite retry_loop_is_single_attempt. unfold single_attempt.
  erewrite bind_Return by apply generateNanoId_7.
  assert (Hid : Js.is_empty (nanoid_from E (drawn s) 7) = false) by reflexivity.
  rewrite Hid. cbn [method_trim].
  erewrite bind_Return by reflexivity.
  erewrite bind_Return by reflexivity.
  erewrite bind_Throw; [reflexivity|].
  rewrite (saveShortUrl_run E _ _ _ oid); rewrite ?trim_idem, ?nanoid_from_trim;
    auto.
  - change (urls (draw 7 s)) with (urls s). now rewrite Hdup.
  - rewrite <- (nanoid_from_trim E (drawn s) 7) in Hid.
    now apply is_empty_false.
Qed.

Lemma createShortUrl_gives_up_on_first_collision_witness :
  exists s',
    createShortUrlServiceWithUserId Demo.env (Js.Str "https://example.com/x")
      (Js.Str Demo.owner) Demo.collision
    = (Throw (ConflictError "Short URL already exists"), s')
    /\ drawn s' = 7
    /\ faults s' = []
    /\ urls s' = [Demo.link_taken].
Proof.
  apply (createShortUrl_gives_up_on_first_collision Demo.env
           "https://example.com/x" Demo.owner Demo.owner Demo.collision);
    [discriminate | reflexivity | reflexivity | reflexivity].
Defined.

(** ** C4: creating a link, then visiting it *)

Lemma validateServiceInputs_state url userId s o s' :
  validateServiceInputs url userId s = (o, s') -> s' = s.
Proof.
  unfold validateServiceInputs, ret, throw.
  case_ifs;
    now intros [= _ <-].
Qed.

(** C4.  When [createShortUrlServiceWithUserId] succeeds for [url], it
    returns a seven-character code that now names a stored link with the
    trimmed [url] and zero clicks; the next visit to that code (the store
    answering) is redirected with status 302 to the trimmed [url], and
    afterwards the link stored under the code has one click. *)
Theorem create_then_visit_round_trip
    E (url : string) (owner c : Js.value) (s s1 : Db) :
  createShortUrlServiceWithUserId E (Js.Str url) owner s = (Return c, s1) ->
  quiet 1 s1 = true ->
  exists code d r s2,
    c = Js.Str code
    /\ String.length code = 7
    /\ find (has_short_url code) (urls s1) = Some d
    /\ full_url d = Js.trim url
    /\ clicks d = 0%Z
    /\ redirectFromShortUrl (Js.Str code) s1 = (Return r, s2)
    /\ res_status r = 302%Z
    /\ res_payload r = Redirect (Js.trim url)
    /\ find (has_short_url code) (urls s2) = Some (inc_clicks d)
    /\ clicks (inc_clicks d) = 1%Z.
Proof.
  intros Hc Q. revert Hc.
  unfold createShortUrlServiceWithUserId. rewrite try_rethrow. unfold bind at 1.
  destruct (validateServiceInputs (Js.Str url) owner s) as [[[]|e] s0] eqn:V;
    [|discriminate].
  apply validateServiceInputs_state in V as ->.
  rewrite retry_loop_is_single_attempt. unfold single_attempt.
  erewrite bind_Return by apply generateNanoId_7.
  assert (Hid : Js.is_empty (nanoid_from E (drawn s) 7) = false) by reflexivity.
  rewrite Hid. cbn [method_trim].
  erewrite bind_Return by reflexivity.
  unfold bind at 1.
  destruct (method_trim owner (draw 7 s)) as [[o|e] s0] eqn:T; [|discriminate].
  unfold bind at 1.
  destruct (saveShortUrl E _ _ _ s0) as [[d|e] s3] eqn:Sv; [|discriminate].
  unfold ret. intros [= <- <-].
  apply saveShortUrl_Return in Sv
    as (Hfull & Hshort & Hclicks & Hfne & Hsne & Hfree & Hurls & _ & _).
  cbn [trim_of] in *. rewrite trim_idem in Hfull.
  rewrite nanoid_from_trim in Hshort, Hfree.
  set (code := nanoid_from E (drawn s) 7) in *.
  assert (Hm : has_short_url code d = true).
  { unfold has_short_url. rewrite Hshort. apply String.eqb_refl. }
  assert (Hfind : find (has_short_url code) (urls s3) = Some d).
  { rewrite Hurls. now apply find_app_last. }
  assert (Hfind' : find (has_short_url (Js.trim code)) (urls s3) = Some d).
  { unfold code. now rewrite nanoid_from_trim. }
  exists code, d. do 2 eexists.
  split; [reflexivity|]. split; [apply nanoid_from_length|].
  split; [exact Hfind|]. split; [exact Hfull|]. split; [exact Hclicks|].
  split; [apply (redirect_found s3 code d Q Hfind' Hsne Hfne)|].
  split; [reflexivity|]. split; [cbn; now rewrite Hfull|].
  split.
  - cbn [urls with_urls]. unfold code at 2. rewrite nanoid_from_trim.
    now apply find_after_update.
  - cbn. rewrite Hclicks. reflexivity.
Qed.

Lemma create_then_visit_round_trip_witness :
  exists code d r s2,
    Js.Str Demo.first_id = Js.Str code
    /\ String.length code = 7
    /\ find (has_short_url code)
         (urls (snd (createShortUrlServiceWithUserId Demo.env
                       (Js.Str " https://example.com/x ") (Js.Str Demo.owner)
                       Demo.two_links))) = Some d
    /\ full_url d = "https://example.com/x"
    /\ clicks d = 0%Z
    /\ redirectFromShortUrl (Js.Str code)
         (snd (createShortUrlServiceWithUserId Demo.env
                 (Js.Str " https://example.com/x ") (Js.Str Demo.owner)
                 Demo.two_links)) = (Return r, s2)
    /\ res_status r = 302%Z
    /\ res_payload r = Redirect "https://example.com/x"
    /\ find (has_short_url code) (urls s2) = Some (inc_clicks d)
    /\ clicks (inc_clicks d) = 1%Z.
Proof.
  apply (create_then_visit_round_trip Demo.env " https://example.com/x "
           (Js.Str Demo.owner) (Js.Str Demo.first_id) Demo.two_links);
    reflexivity.
Defined.

(** ** C5: custom short links *)

Lemma validateUrl_ok E (url : string) s :
  URL_parses E url = true -> url <> EmptyString ->
  validateUrl E (Js.Str url) s = (Return tt, s).
Proof.
  intros HU Hu. unfold validateUrl. cbn [Js.truthy].
  apply is_empty_false in Hu. rewrite Hu, HU. reflexivity.
Qed.

Lemma length_ge_3_nonempty (t : string) :
  (String.length t <? 3)%nat = false -> Js.is_empty t = false.
Proof. now destruct t. Qed.

Lemma findOne_run key s :
  quiet 1 s = true ->
  ShortUrl_findOne key s
  = (Return (find (has_short_url key) (urls s)), pop_fault s).
Proof.
  intros Q. unfold ShortUrl_findOne.
  now rewrite (bind_Return _ _ _ _ _ (driver_call_quiet s Q)).
Qed.

Lemma find_existsb {A} (p : A -> bool) (l : list A) :
  existsb p l = match find p l with Some _ => true | None => false end.
Proof.
  induction l as [|x r IH]; simpl; [reflexivity|]. now destruct (p x).
Qed.

(** The service on a slug the controller has accepted. *)
Lemma createCustomShortUrlService_run
    E (url t owner : string) (oid : ObjectId) (s : Db) :
  Js.trim url <> EmptyString ->
  castObjectId (Js.trim owner) = Some oid ->
  Js.trim t = t ->
  (String.length t <? 3)%nat = false ->
  (50 <? String.length t)%nat = false ->
  Regex.test customUrlRegex t = true ->
  quiet 2 s = true ->
  createCustomShortUrlService E (Js.Str url) (Js.Str t) (Js.Str owner) s
  = if existsb (has_short_url t) (urls s)
    then (Throw (ConflictError (taken_message t)), pop_fault s)
    else
      let doc := mkShortUrl (new_ObjectId E (made s)) (Js.trim url) t 0 (Some oid) in
      (Return t,
       with_urls (urls s ++ [doc]) (pop_fault (construct (pop_fault s)))).
Proof.
  intros Hu Ho Ht Hmin Hmax Hre Q.
  pose proof (length_ge_3_nonempty t Hmin) as Hne.
  apply quiet_S in Q as [Q0 Q1].
  assert (Q0' : quiet 1 s = true).
  { unfold quiet. destruct (faults s) as [|f r]; [reflexivity|].
    simpl in *. now rewrite Q0. }
  unfold createCustomShortUrlService.
  unfold try_catch.
  erewrite bind_Return.
  2:{ apply validateServiceInputs_Str; [exact Hu|].
      now apply castObjectId_nonempty in Ho. }
  rewrite not_filled_Str, Ht, Hne. cbn [trim_of]. rewrite Ht, Hre, Hmin, Hmax.
  cbn [negb orb].
  erewrite bind_Return by (apply findOne_run; exact Q0').
  rewrite find_existsb.
  destruct (find (has_short_url t) (urls s)) as [d|] eqn:Hf.
  - reflexivity.
  - cbn [method_trim]. erewrite bind_Return by reflexivity.
    assert (Hfree : existsb (has_short_url (Js.trim t)) (urls (pop_fault s)) = false).
    { rewrite Ht. change (urls (pop_fault s)) with (urls s).
      rewrite find_existsb. now rewrite Hf. }
    erewrite bind_Return.
    2:{ rewrite (saveShortUrl_run E t (Js.trim url) owner oid);
          rewrite ?trim_idem, ?Ht; auto.
        - rewrite Ht in Hfree. rewrite Hfree. reflexivity.
        - now apply is_empty_false. }
    reflexivity.
Qed.

(** C5 fails as stated: ["API"] has three characters, matches the pattern,
    is not one of the eleven reserved words and names no stored link, yet
    the request is refused with 400 and nothing is stored. *)
Lemma reserved_words_are_matched_in_lower_case :
  ~ In "API" reservedWords
  /\ String.length "API" = 3
  /\ Regex.test customUrlRegex "API" = true
  /\ find (has_short_url "API") (urls Demo.empty) = None
  /\ exists r,
       createCustomShortUrl Demo.env "REQ-1" "2026-01-01T00:00:00.000Z"
         (Js.Str "https://example.com/x") (Js.Str "API") Demo.alice Demo.empty
       = (Return r, Demo.empty)
       /\ res_status r = 400%Z.
Proof.
  split.
  { simpl. intros H.
    repeat (destruct H as [H|H]; [discriminate H|]). exact H. }
  repeat split. eexists. split; reflexivity.
Qed.

(** C5, amended.  For a parseable URL, an authenticated owner and a store
    that answers, [createCustomShortUrl] answers 400 and stores nothing
    unless the slug is a non-empty string whose trimmed form has 3 to 50
    characters, matches [[a-zA-Z0-9-_]+] and, lowercased, is not a reserved
    word; for an accepted slug whose trimmed form is already a [short_url]
    it answers 409 and stores nothing; otherwise it appends the document
    [{full_url: trimmed url, short_url: trimmed slug, clicks: 0, user:
    owner}] and answers 201 with the trimmed slug. *)
Theorem custom_link_contract
    E (requestId timestamp url owner : string) (slug : Js.value)
    (u : AuthUser) (oid : ObjectId) (s : Db) :
  URL_parses E url = true ->
  Js.trim url <> EmptyString ->
  au_id u = Js.Str owner ->
  castObjectId (Js.trim owner) = Some oid ->
  quiet 2 s = true ->
  let t := trim_of slug in
  let run := createCustomShortUrl E requestId timestamp (Js.Str url) slug u s in
  if negb (slug_accepted slug) then
    exists r, run = (Return r, s) /\ res_status r = 400%Z
  else if existsb (has_short_url t) (urls s) then
    exists r s', run = (Return r, s') /\ res_status r = 409%Z
                 /\ urls s' = urls s
  else
    exists s',
      run = (Return
               (respond 201
                  (JObj [("success", JBool true);
                         ("data", JObj ([("shortUrl", JStr (app_url E ++ t));
                                         ("originalUrl", JStr url);
                                         ("customUrl", JStr t);
                                         ("userId", JStr owner)]
                                        ++ prop "createdBy" (au_email u)));
                         ("message", JStr "Custom short URL created successfully");
                         ("requestId", JStr requestId);
                         ("timestamp", JStr timestamp)])),
             s')
      /\ urls s'
         = (urls s ++ [mkShortUrl (new_ObjectId E (made s)) (Js.trim url) t 0
                                  (Some oid)])%list.
Proof.
  intros HU Hu Hid Ho Q t run. subst run.
  unfold createCustomShortUrl, try_catch.
  erewrite bind_Return
    by (apply validateUrl_ok; [exact HU | now apply trim_nonempty]).
  destruct slug as [| |b|z|raw|];
    try (cbn; rewrite ?orb_true_r; eexists; split; reflexivity).
  cbn [slug_accepted Js.truthy Js.is_string negb orb trim_of] in *.
  destruct (Js.is_empty raw) eqn:Hraw;
    [cbn; eexists; split; reflexivity|].
  cbn [negb andb orb]. rewrite !Nat.leb_antisym. fold t.
  destruct (String.length t <? 3)%nat eqn:Hmin;
    [cbn; eexists; split; reflexivity|].
  destruct (50 <? String.length t)%nat eqn:Hmax;
    [cbn; eexists; split; reflexivity|].
  destruct (Regex.test customUrlRegex t) eqn:Hre;
    [|cbn; eexists; split; reflexivity].
  destruct (existsb (String.eqb (Js.toLowerCase t)) reservedWords) eqn:Hres;
    [cbn; eexists; split; reflexivity|].
  cbn [negb andb orb]. rewrite Hid. cbn [Js.truthy].
  pose proof (castObjectId_nonempty _ _ Ho) as Hown.
  apply trim_nonempty, is_empty_false in Hown. rewrite Hown. cbn [negb].
  assert (Ht : Js.trim t = t) by apply trim_idem.
  pose proof (createCustomShortUrlService_run E url t owner oid s
                Hu Ho Ht Hmin Hmax Hre Q) as Run.
  unfold bind. rewrite Run.
  destruct (existsb (has_short_url t) (urls s)).
  - unfold next_error, ret. do 2 eexists. split; [reflexivity|].
    split; reflexivity.
  - cbv beta iota zeta. rewrite (length_ge_3_nonempty t Hmin).
    eexists. split; reflexivity.
Qed.

Lemma custom_link_contract_witness :
  exists s',
    createCustomShortUrl Demo.env "REQ-1" "2026-01-01T00:00:00.000Z"
      (Js.Str "https://example.com/x") (Js.Str " my-link ") Demo.alice
      Demo.two_links
    = (Return
         (respond 201
            (JObj [("success", JBool true);
                   ("data", JObj [("shortUrl", JStr "http://localhost:3000/my-link");
                                  ("originalUrl", JStr "https://example.com/x");
                                  ("customUrl", JStr "my-link");
                                  ("userId", JStr Demo.owner);
                                  ("createdBy", JStr "alice@example.com")]);
                   ("message", JStr "Custom short URL created successfully");
                   ("requestId", JStr "REQ-1");
                   ("timestamp", JStr "2026-01-01T00:00:00.000Z")])),
       s')
    /\ urls s'
       = [Demo.link_old; Demo.link_new;
          mkShortUrl "64b7f0c2a1d3e4f5a6b7c800" "https://example.com/x" "my-link"
                     0 (Some Demo.owner)].
Proof.
  apply (custom_link_contract Demo.env "REQ-1" "2026-01-01T00:00:00.000Z"
           "https://example.com/x" Demo.owner (Js.Str " my-link ") Demo.alice
           Demo.owner Demo.two_links);
    [reflexivity | discriminate | reflexivity | reflexivity | reflexivity].
Defined.

(** ** C8: listing the links of a user *)

Lemma insert_desc_constant {A} (x : A) (l : list A) :
  insert_desc (fun _ : A => @None Z) x l = x :: l.
Proof. now destruct l. Qed.

(** Sorting on a path no document has keeps the order of the collection. *)
Lemma sort_desc_su_createdAt (l : list ShortUrl) : sort_desc su_createdAt l = l.
Proof.
  unfold sort_desc, su_createdAt. induction l as [|x r IH]; simpl; [reflexivity|].
  now rewrite IH, insert_desc_constant.
Qed.

Lemma transform_schema E now d :
  transform E now d
  = mkEntry (su_id d) (app_url E ++ short_url d) (full_url d) (short_url d)
            (clicks d) now.
Proof.
  unfold transform, su_createdAt, su_created_at. f_equal.
  destruct (clicks d =? 0)%Z eqn:C; [|reflexivity].
  apply Z.eqb_eq in C. now rewrite C.
Qed.

(** C8 (what the code does).  [getUserUrlsService] returns one entry for
    each stored link whose [user] is the owner, with the base URL followed
    by the code, the original URL and the click count; but the entries come
    in the order of the collection, oldest first, because the sort key
    [createdAt] is a path the short-link schema does not have, and the
    [createdAt] of every entry is the time of the listing request, [now],
    not a time of creation. *)
Theorem getUserUrlsService_stamps_request_time
    E (now : Z) (owner : string) (oid : ObjectId) (s : Db) :
  castObjectId (Js.trim owner) = Some oid ->
  quiet 1 s = true ->
  getUserUrlsService E now (Js.Str owner) s
  = (Return
       (map (fun d => mkEntry (su_id d) (app_url E ++ short_url d) (full_url d)
                              (short_url d) (clicks d) now)
            (filter (owned_by oid) (urls s))),
     pop_fault s).
Proof.
  intros Ho Q. unfold getUserUrlsService. apply try_Return.
  rewrite not_filled_Str.
  pose proof (castObjectId_nonempty _ _ Ho) as Hne.
  apply is_empty_false in Hne. rewrite Hne.
  unfold ShortUrl_find_by_user_sorted. cbn [trim_of]. rewrite Ho.
  unfold bind at 1 2. rewrite (driver_call_quiet s Q).
  unfold bind, get, ret. rewrite sort_desc_su_createdAt.
  f_equal. f_equal. apply map_ext. intros d. apply transform_schema.
Qed.

Lemma getUserUrlsService_stamps_request_time_witness :
  getUserUrlsService Demo.env 1767225600000 (Js.Str Demo.owner) Demo.two_links
  = (Return
       [mkEntry "64b7f0c2a1d3e4f5a6b7c8a1" "http://localhost:3000/old-one"
                "https://example.com/old" "old-one" 4 1767225600000;
        mkEntry "64b7f0c2a1d3e4f5a6b7c8a2" "http://localhost:3000/new-one"
                "https://example.com/new" "new-one" 0 1767225600000],
     Demo.two_links).
Proof.
  apply (getUserUrlsService_stamps_request_time Demo.env 1767225600000
           Demo.owner Demo.owner Demo.two_links);
    reflexivity.
Defined.

(** ** The token the gate extracts *)

Lemma extractToken_bearer (t : string) c :
  extractToken (mkAuthRequest (Some ("Bearer " ++ t)) c) = Js.Str t.
Proof. unfold extractToken, or_else. cbn. now destruct t. Qed.

Lemma extractToken_verbatim (t : string) c :
  t <> EmptyString -> Js.startsWith "Bearer " t = false ->
  extractToken (mkAuthRequest (Some t) c) = Js.Str t.
Proof.
  intros Hne Hp. destruct t as [|a r]; [now elim Hne|].
  unfold extractToken, or_else.
  cbn [req_authorization value_of Js.truthy Js.is_empty negb andb].
  now rewrite Hp.
Qed.

Lemma extractToken_cookie (t : string) :
  t <> EmptyString -> Js.startsWith "Bearer " t = false ->
  extractToken (mkAuthRequest None (Some (Some t))) = Js.Str t.
Proof.
  intros Hne Hp. destruct t as [|a r]; [now elim Hne|].
  unfold extractToken, or_else.
  cbn [req_authorization req_cookies cookie_token value_of Js.truthy
       Js.is_empty negb andb].
  now rewrite Hp.
Qed.

(** For a token [t] (a non-empty string that does not itself begin with
    ['Bearer ']), [authMiddleware] extracts [t] from the header
    ['Bearer ' + t], from the header [t] alone, and from the [token]
    property of a parsed [req.cookies] when there is no header; so on such
    requests it gives one outcome, whatever the token, the store and the
    time. *)
Lemma gate_forms_have_one_outcome
    E (requestId timestamp : string) (now : Z) (t : string)
    (c1 c2 : option (option string)) (s : Db) :
  t <> EmptyString ->
  Js.startsWith "Bearer " t = false ->
  let bearer := mkAuthRequest (Some ("Bearer " ++ t)) c1 in
  let verbatim := mkAuthRequest (Some t) c2 in
  let cookie := mkAuthRequest None (Some (Some t)) in
  extractToken verbatim = Js.Str t
  /\ extractToken bearer = Js.Str t
  /\ extractToken cookie = Js.Str t
  /\ authMiddleware E requestId timestamp now verbatim s
     = authMiddleware E requestId timestamp now bearer s
  /\ authMiddleware E requestId timestamp now cookie s
     = authMiddleware E requestId timestamp now bearer s.
Proof.
  intros Hne Hp bearer verbatim cookie.
  pose proof (extractToken_bearer t c1) as Hb.
  pose proof (extractToken_verbatim t c2 Hne Hp) as Hv.
  pose proof (extractToken_cookie t Hne Hp) as Hc.
  fold bearer in Hb. fold verbatim in Hv. fold cookie in Hc.
  repeat split; auto; unfold authMiddleware; now rewrite ?Hb, ?Hv, ?Hc.
Qed.

(** * Users *)

Lemma findUserByEmail_run (e : string) (s : Db) :
  Regex.test emailRegex (Js.trim e) = true ->
  quiet 1 s = true ->
  findUserByEmail (Js.Str e) s
  = (Return (find (has_email (normalize e)) (users s)), pop_fault s).
Proof.
  intros Hre Q. unfold findUserByEmail. apply try_Return.
  rewrite not_filled_Str.
  pose proof (emailRegex_nonempty _ Hre) as Hne. apply is_empty_false in Hne.
  rewrite Hne. cbn [trim_of]. rewrite Hre. cbn [negb].
  unfold User_findOne.
  rewrite (bind_Return _ _ _ _ _ (driver_call_quiet s Q)).
  reflexivity.
Qed.

Lemma findUserByEmail_normalized (e : string) (s : Db) :
  Regex.test emailRegex (Js.trim e) = true ->
  quiet 1 s = true ->
  findUserByEmail (Js.Str (normalize e)) s
  = (Return (find (has_email (normalize e)) (users s)), pop_fault s).
Proof.
  intros Hre Q. rewrite findUserByEmail_run; auto.
  - now rewrite normalize_idem.
  - rewrite trim_normalize. unfold normalize.
    now rewrite emailRegex_toLowerCase.
Qed.

Lemma findUserByEmail_trimmed (e : string) (s : Db) :
  Regex.test emailRegex (Js.trim e) = true ->
  quiet 1 s = true ->
  findUserByEmail (Js.Str (Js.trim e)) s
  = (Return (find (has_email (normalize e)) (users s)), pop_fault s).
Proof.
  intros Hre Q. rewrite findUserByEmail_run; auto.
  - unfold normalize. now rewrite trim_idem.
  - now rewrite trim_idem.
Qed.

(** ** C6: the two ways a login is refused *)

Lemma loginUserService_refused E now (e p : string) (s : Db) :
  Regex.test emailRegex (Js.trim e) = true ->
  p <> EmptyString ->
  quiet 1 s = true ->
  match find (has_email (normalize e)) (users s) with
  | None => True
  | Some u => bcrypt_compare E p (u_password u) = false
  end ->
  loginUserService E now (Js.Str e) (Js.Str p) s
  = (Throw (BadRequestError "Invalid email or password"), pop_fault s).
Proof.
  intros Hre Hp Q Hcause.
  unfold loginUserService, try_catch.
  rewrite not_filled_Str.
  pose proof (emailRegex_nonempty _ Hre) as Hne. apply is_empty_false in Hne.
  rewrite Hne. cbn [Js.truthy not_string_or trim_of].
  apply is_empty_false in Hp. rewrite Hp, length_0_is_empty, Hp, Hre.
  cbn [negb orb].
  fold (normalize e).
  erewrite bind_Return by (apply findUserByEmail_normalized; assumption).
  destruct (find (has_email (normalize e)) (users s)) as [u|].
  - cbn [string_of]. rewrite Hcause. reflexivity.
  - reflexivity.
Qed.

(** The response of [loginUser] to a refusal of the credentials. *)
Lemma loginUser_refused E requestId timestamp now (e p : string) (s : Db) :
  Regex.test emailRegex (Js.trim e) = true ->
  p <> EmptyString ->
  quiet 1 s = true ->
  match find (has_email (normalize e)) (users s) with
  | None => True
  | Some u => bcrypt_compare E p (u_password u) = false
  end ->
  loginUser E requestId timestamp now
    (Some [("email", Js.Str e); ("password", Js.Str p)]) s
  = (Return
       (respond 401
          (JObj [("success", JBool false);
                 ("message", JStr "Invalid email or password");
                 ("error", JStr "INVALID_CREDENTIALS");
                 ("requestId", JStr requestId);
                 ("timestamp", JStr timestamp)])),
     pop_fault s).
Proof.
  intros Hre Hp Q Hcause.
  unfold loginUser, try_catch, destructure, bind at 1.
  cbn [ret body_prop String.eqb Ascii.eqb Bool.eqb].
  unfold bind. rewrite (loginUserService_refused E now e p s Hre Hp Q Hcause).
  reflexivity.
Qed.



(** ** C7: registration *)

Lemma email_taken_find (email : string) (s : Db) :
  emails_normalized s ->
  email_taken email s
  = match find (has_email (normalize email)) (users s) with
    | Some _ => true
    | None => false
    end.
Proof.
  unfold emails_normalized, email_taken. rewrite <- find_existsb.
  induction (users s) as [|u r IH]; intros H; [reflexivity|].
  inversion H as [|? ? Hu Hr]; subst. simpl.
  rewrite (IH Hr). unfold has_email. now rewrite Hu.
Qed.

Lemma signToken_run E now payload secret s :
  JWT_SECRET E = Some secret ->
  secret <> EmptyString ->
  jwt_sign E payload secret now <> EmptyString ->
  signToken E now payload s = (Return (jwt_sign E payload secret now), s).
Proof.
  intros Hs Hne Ht. unfold signToken. apply try_Return. rewrite Hs.
  apply is_empty_false in Hne, Ht. now rewrite Hne, Ht.
Qed.

Lemma registerUserService_run
    E now (name email password secret : string) (s : Db) :
  Js.trim name <> EmptyString ->
  Regex.test emailRegex (Js.trim email) = true ->
  (String.length password <? 6)%nat = false ->
  quiet 2 s = true ->
  JWT_SECRET E = Some secret ->
  secret <> EmptyString ->
  let salt := bcrypt_genSalt E saltRounds (drawn s) in
  let hash := bcrypt_hash E password salt in
  let id := new_ObjectId E (made s) in
  let token := jwt_sign E (mkPayload id (normalize email) (Js.trim name)) secret now in
  let saved :=
    mkUser id (Js.trim name) (normalize email) hash
           ("https://api.dicebear.com/7.x/initials/svg?seed=" ++ Js.trim name)
           now now in
  hash <> EmptyString ->
  token <> EmptyString ->
  registerUserService E now (Js.Str name) (Js.Str email) (Js.Str password) s
  = match find (has_email (normalize email)) (users s) with
    | Some _ =>
        (Throw (BadRequestError "User with this email already exists"),
         pop_fault s)
    | None =>
        (Return (set_field "token" (JStr token)
                   (delete_field "password" (User_toObject saved))),
         with_users (users s ++ [saved])
                    (pop_fault (construct (draw 16 (pop_fault s)))))
    end.
Proof.
  intros Hn Hre Hp Q Hs Hsec salt hash id token saved Hh Ht.
  apply quiet_S in Q as [Q0 Q1].
  assert (Q0' : quiet 1 s = true).
  { unfold quiet. destruct (faults s) as [|f r]; [reflexivity|].
    simpl in *. now rewrite Q0. }
  unfold registerUserService, try_catch.
  rewrite !not_filled_Str.
  pose proof (emailRegex_nonempty _ Hre) as Hne.
  apply is_empty_false in Hn, Hne. rewrite Hn, Hne.
  assert (Hpne : Js.is_empty password = false) by now destruct password.
  cbn [Js.truthy not_string_or trim_of]. rewrite Hpne, Hp, Hre. cbn [negb orb].
  erewrite bind_Return by (apply findUserByEmail_trimmed; assumption).
  destruct (find (has_email (normalize email)) (users s)) as [u|] eqn:Hf.
  - reflexivity.
  - unfold bind at 1. unfold genSalt at 1. fold (draw 16 (pop_fault s)).
    change (drawn (pop_fault s)) with (drawn s). fold salt.
    cbn [string_of]. fold hash.
    apply is_empty_false in Hh. rewrite Hh.
    unfold bind at 1. unfold User_new at 1.
    change (made (draw 16 (pop_fault s))) with (made s). fold id.
    fold (normalize email).
    cbn [ud_id ud_email ud_name].
    erewrite bind_Return.
    2:{ apply (signToken_run E now _ secret); [exact Hs | exact Hsec | exact Ht]. }
    fold token. apply is_empty_false in Ht. rewrite Ht.
    unfold bind at 1. unfold User_save, User_validate.
    cbn [ud_id ud_email ud_name ud_password ud_avatar].
    assert (He : Js.is_empty (normalize email) = false).
    { unfold normalize. now rewrite toLowerCase_empty. }
    rewrite Hn, He, Hh. cbn [app].
    unfold bind at 1.
    rewrite driver_call_quiet by exact Q1.
    unfold bind at 1, get.
    cbn [users pop_fault draw].
    rewrite find_existsb, Hf.
    reflexivity.
Qed.

Lemma registerUser_run E requestId timestamp now (name email password : string) s :
  registerUser E requestId timestamp now (register_body name email password) s
  = match registerUserService E now (Js.Str name) (Js.Str email)
            (Js.Str password) s with
    | (Return user, s') =>
        (Return
           (respond 201
              (JObj [("success", JBool true);
                     ("data", JObj ([("user", public_user user)]
                                    ++ field_or_null "token" user));
                     ("message", JStr "User registered successfully");
                     ("requestId", JStr requestId)])),
         s')
    | (Throw error, s') =>
        (Return
           (auth_failure "already exists" 409 "USER_ALREADY_EXISTS"
              requestId timestamp "User registration failed" error),
         s')
    end.
Proof.
  unfold registerUser, register_body, try_catch, destructure, bind, ret,
    log_name_preview.
  cbn [body_prop String.eqb Ascii.eqb Bool.eqb Js.truthy Js.is_string negb].
  rewrite andb_false_r. unfold ret. cbv beta iota.
  now destruct (registerUserService E now _ _ _ s) as [[user|e] s'].
Qed.

(** C7 fails as stated: Bob's address is registered, and a request for the
    same address with a three-character password is answered 400, not
    409. *)
Lemma short_password_with_known_email_is_400 :
  email_taken " Bob@Example.com " Demo.with_bob = true
  /\ exists r,
       registerUser Demo.env "REQ-1" "2026-01-01T00:00:00.000Z" 0
         (register_body "Bob" " Bob@Example.com " "abc") Demo.with_bob
       = (Return r, Demo.with_bob)
       /\ res_status r = 400%Z
       /\ res_status r <> 409%Z.
Proof.
  split; [reflexivity|]. eexists. split; [reflexivity|].
  split; [reflexivity|discriminate].
Qed.

Lemma registerUserService_taken E now (name email password : string) (u : User) (s : Db) :
  Js.trim name <> EmptyString ->
  Regex.test emailRegex (Js.trim email) = true ->
  (String.length password <? 6)%nat = false ->
  quiet 1 s = true ->
  find (has_email (normalize email)) (users s) = Some u ->
  registerUserService E now (Js.Str name) (Js.Str email) (Js.Str password) s
  = (Throw (BadRequestError "User with this email already exists"), pop_fault s).
Proof.
  intros Hn Hre Hp Q Hf.
  unfold registerUserService, try_catch.
  rewrite !not_filled_Str.
  pose proof (emailRegex_nonempty _ Hre) as Hne.
  apply is_empty_false in Hn, Hne. rewrite Hn, Hne.
  assert (Hpne : Js.is_empty password = false) by now destruct password.
  cbn [Js.truthy not_string_or trim_of]. rewrite Hpne, Hp, Hre. cbn [negb orb].
  erewrite bind_Return by (apply findUserByEmail_trimmed; assumption).
  rewrite Hf. reflexivity.
Qed.

Lemma registerUserService_invalid E now (name email password : string) (s : Db) :
  register_valid name email password = false ->
  exists msg,
    registerUserService E now (Js.Str name) (Js.Str email) (Js.Str password) s
    = (Throw (BadRequestError msg), s)
    /\ In msg ["Name is required and must be a non-empty string";
               "Email is required and must be a non-empty string";
               "Password is required and must be at least 6 characters long";
               "Please provide a valid email address"].
Proof.
  unfold register_valid. intros H.
  unfold registerUserService, try_catch.
  rewrite !not_filled_Str.
  destruct (Js.is_empty (Js.trim name)) eqn:Hn.
  { eexists. split; [reflexivity|]. simpl. auto. }
  destruct (Js.is_empty (Js.trim email)) eqn:He.
  { eexists. split; [reflexivity|]. simpl. auto. }
  cbn [Js.truthy not_string_or trim_of].
  destruct (Js.is_empty password) eqn:Hpe; cbn [negb orb].
  { eexists. split; [reflexivity|]. simpl. auto. }
  destruct (String.length password <? 6)%nat eqn:Hp.
  { eexists. split; [reflexivity|]. simpl. auto. }
  destruct (Regex.test emailRegex (Js.trim email)) eqn:Hre; cbn [negb].
  2:{ eexists. split; [reflexivity|]. simpl. auto 6. }
  rewrite Nat.leb_antisym, Hp in H. discriminate H.
Qed.

Lemma register_valid_true (name email password : string) :
  register_valid name email password = true ->
  Js.trim name <> EmptyString
  /\ Regex.test emailRegex (Js.trim email) = true
  /\ (String.length password <? 6)%nat = false.
Proof.
  unfold register_valid. intros H.
  apply andb_true_iff in H as [H Hp]. apply andb_true_iff in H as [Hn Hre].
  apply negb_true_iff, is_empty_false in Hn.
  rewrite Nat.leb_antisym in Hp. apply negb_true_iff in Hp. auto.
Qed.

(** C7, amended.  For a request whose [name], [email] and [password] are
    strings, on a store whose emails are in normal form (trimmed and
    lowercased, the form in which [registerUserService] stores them):
    - when the input checks fail (a blank name, an address whose trim does
      not match the pattern, a password of fewer than six characters),
      [registerUser] answers 400 whether or not the address is known,
      without a call of the driver, the state as it was;
    - when they pass and the store answers, [registerUser] answers 409 with
      USER_ALREADY_EXISTS and stores nothing whenever a stored user has the
      normalized address;
    - otherwise, with a configured secret and bcrypt and the signer giving
      non-empty results, it appends a user whose [password] is the bcrypt
      hash of the password under a fresh salt, and answers 201 with the
      user's public fields and a token signed for that user; the object the
      service returns has no [password], and the stored emails are still in
      normal form. *)
Theorem register_contract
    E (requestId timestamp : string) (now : Z)
    (name email password : string) (s : Db) :
  emails_normalized s ->
  (register_valid name email password = false ->
   exists r,
     registerUser E requestId timestamp now (register_body name email password) s
     = (Return r, s)
     /\ res_status r = 400%Z)
  /\ (register_valid name email password = true ->
      quiet 1 s = true ->
      email_taken email s = true ->
      registerUser E requestId timestamp now (register_body name email password) s
      = (Return
           (respond 409
              (JObj [("success", JBool false);
                     ("message", JStr "User with this email already exists");
                     ("error", JStr "USER_ALREADY_EXISTS");
                     ("requestId", JStr requestId);
                     ("timestamp", JStr timestamp)])),
         pop_fault s)
      /\ users (pop_fault s) = users s)
  /\ (register_valid name email password = true ->
      quiet 2 s = true ->
      email_taken email s = false ->
      forall secret,
        JWT_SECRET E = Some secret ->
        secret <> EmptyString ->
        let salt := bcrypt_genSalt E saltRounds (drawn s) in
        let hash := bcrypt_hash E password salt in
        let id := new_ObjectId E (made s) in
        let token :=
          jwt_sign E (mkPayload id (normalize email) (Js.trim name)) secret now in
        let avatar :=
          "https://api.dicebear.com/7.x/initials/svg?seed=" ++ Js.trim name in
        hash <> EmptyString ->
        token <> EmptyString ->
        exists s' obj,
          registerUser E requestId timestamp now
            (register_body name email password) s
          = (Return
               (respond 201
                  (JObj [("success", JBool true);
                         ("data",
                          JObj [("user",
                                 JObj [("id", JStr id);
                                       ("name", JStr (Js.trim name));
                                       ("email", JStr (normalize email));
                                       ("avatar", JStr avatar);
                                       ("createdAt", JNum now)]);
                                ("token", JStr token)]);
                         ("message", JStr "User registered successfully");
                         ("requestId", JStr requestId)])),
             s')
          /\ users s'
             = (users s
                ++ [mkUser id (Js.trim name) (normalize email) hash avatar now now])%list
          /\ registerUserService E now (Js.Str name) (Js.Str email)
               (Js.Str password) s
             = (Return obj, s')
          /\ field "password" obj = None
          /\ field "token" obj = Some (JStr token)
          /\ emails_normalized s').
Proof.
  intros Hnorm. split; [|split].
  - intros Hbad.
    destruct (registerUserService_invalid E now name email password s Hbad)
      as (msg & Run & Hmsg).
    rewrite registerUser_run, Run.
    eexists. split; [reflexivity|].
    destruct Hmsg as [<- | [<- | [<- | [<- | []]]]]; reflexivity.
  - intros Hok Q Htaken.
    apply register_valid_true in Hok as (Hn & Hre & Hp).
    rewrite (email_taken_find email s Hnorm) in Htaken.
    destruct (find (has_email (normalize email)) (users s)) as [u|] eqn:Hf;
      [|discriminate Htaken].
    rewrite registerUser_run.
    rewrite (registerUserService_taken E now name email password u s Hn Hre Hp Q Hf).
    split; reflexivity.
  - intros Hok Q Hfree secret Hs Hsec salt hash id token avatar Hh Ht.
    apply register_valid_true in Hok as (Hn & Hre & Hp).
    pose proof (registerUserService_run E now name email password secret s
                  Hn Hre Hp Q Hs Hsec Hh Ht) as Run.
    fold salt hash id token in Run.
    rewrite (email_taken_find email s Hnorm) in Hfree.
    destruct (find (has_email (normalize email)) (users s)) as [u|];
      [discriminate Hfree|].
    rewrite registerUser_run, Run.
    do 2 eexists. split; [reflexivity|].
    split; [reflexivity|]. split; [reflexivity|]. split; [reflexivity|].
    split; [reflexivity|].
    unfold emails_normalized in *. cbn [users with_users].
    apply Forall_app. split; [exact Hnorm|].
    constructor; [|constructor]. cbn [u_email]. apply normalize_idem.
Qed.

Lemma register_contract_witness :
  (exists r,
     registerUser Demo.env "REQ-1" "2026-01-01T00:00:00.000Z" 0
       (register_body "Bob" " Bob@Example.com " "abc") Demo.with_bob
     = (Return r, Demo.with_bob)
     /\ res_status r = 400%Z)
  /\ (registerUser Demo.env "REQ-1" "2026-01-01T00:00:00.000Z" 0
        (register_body "Robert" " BOB@example.com " "hunter22") Demo.with_bob
      = (Return
           (respond 409
              (JObj [("success", JBool false);
                     ("message", JStr "User with this email already exists");
                     ("error", JStr "USER_ALREADY_EXISTS");
                     ("requestId", JStr "REQ-1");
                     ("timestamp", JStr "2026-01-01T00:00:00.000Z")])),
         pop_fault Demo.with_bob)
      /\ users (pop_fault Demo.with_bob) = users Demo.with_bob)
  /\ (exists s' obj,
        registerUser Demo.env "REQ-1" "2026-01-01T00:00:00.000Z" 2000
          (register_body " Al " "Al@Example.com " "secret1") Demo.with_bob
        = (Return
             (respond 201
                (JObj [("success", JBool true);
                       ("data",
                        JObj [("user",
                               JObj [("id", JStr "64b7f0c2a1d3e4f5a6b7c800");
                                     ("name", JStr "Al");
                                     ("email", JStr "al@example.com");
                                     ("avatar",
                                      JStr "https://api.dicebear.com/7.x/initials/svg?seed=Al");
                                     ("createdAt", JNum 2000)]);
                              ("token", JStr "jwt:al@example.com")]);
                       ("message", JStr "User registered successfully");
                       ("requestId", JStr "REQ-1")])),
           s')
        /\ users s'
           = [Demo.bob;
              mkUser "64b7f0c2a1d3e4f5a6b7c800" "Al" "al@example.com"
                "$2a$12$salt0$secret1"
                "https://api.dicebear.com/7.x/initials/svg?seed=Al" 2000 2000]
        /\ registerUserService Demo.env 2000 (Js.Str " Al ") (Js.Str "Al@Example.com ")
             (Js.Str "secret1") Demo.with_bob
           = (Return obj, s')
        /\ field "password" obj = None
        /\ field "token" obj = Some (JStr "jwt:al@example.com")
        /\ emails_normalized s').
Proof.
  assert (Hnorm : emails_normalized Demo.with_bob) by (repeat constructor).
  split; [|split].
  - apply (register_contract Demo.env "REQ-1" "2026-01-01T00:00:00.000Z" 0
             "Bob" " Bob@Example.com " "abc" Demo.with_bob Hnorm).
    reflexivity.
  - apply (register_contract Demo.env "REQ-1" "2026-01-01T00:00:00.000Z" 0
             "Robert" " BOB@example.com " "hunter22" Demo.with_bob Hnorm);
      reflexivity.
  - apply (proj2 (proj2 (register_contract Demo.env "REQ-1"
                            "2026-01-01T00:00:00.000Z" 2000
                            " Al " "Al@Example.com " "secret1" Demo.with_bob Hnorm))
             eq_refl eq_refl eq_refl "secret" eq_refl);
      discriminate.
Defined.

(** A name that is not a string is outside the contract: the preview the
    handler logs calls [name.substring], which throws inside the [try]
    block, and the request is answered 500 although the address is
    registered and the other fields are well formed. *)
Lemma registerUser_name_not_a_string :
  email_taken "bob@example.com" Demo.with_bob = true
  /\ exists r,
       registerUser Demo.env "REQ-1" "2026-01-01T00:00:00.000Z" 0
         (Some [("name", Js.Num 123); ("email", Js.Str "bob@example.com");
                ("password", Js.Str "hunter22")]) Demo.with_bob
       = (Return r, Demo.with_bob)
       /\ res_status r = 500%Z.
Proof. split; [reflexivity|]. eexists. split; reflexivity. Qed.

(** [registerUserService] keeps stored emails in normal form. *)
Lemma registerUserService_keeps_normal_form
    E now (name email password secret : string) (s : Db) :
  Js.trim name <> EmptyString ->
  Regex.test emailRegex (Js.trim email) = true ->
  (String.length password <? 6)%nat = false ->
  quiet 2 s = true ->
  JWT_SECRET E = Some secret ->
  secret <> EmptyString ->
  bcrypt_hash E password (bcrypt_genSalt E saltRounds (drawn s)) <> EmptyString ->
  jwt_sign E (mkPayload (new_ObjectId E (made s)) (normalize email) (Js.trim name))
           secret now <> EmptyString ->
  emails_normalized s ->
  emails_normalized
    (snd (registerUserService E now (Js.Str name) (Js.Str email)
            (Js.Str password) s)).
Proof.
  intros Hn Hre Hp Q Hs Hsec Hh Ht Hnorm.
  rewrite (registerUserService_run E now name email password secret s)
    by assumption.
  destruct (find (has_email (normalize email)) (users s)); [exact Hnorm|].
  unfold emails_normalized in *. cbn [snd users with_users].
  apply Forall_app. split; [exact Hnorm|].
  constructor; [|constructor]. cbn [u_email]. apply normalize_idem.
Qed.

(** The same login request gets the same answer whether its address is
    unknown or known with another password, also when the request is
    malformed: the checks on the input do not read the store. *)
Lemma login_answer_hides_the_cause
    E requestId timestamp now (e p : string) (u : User) (s1 s2 : Db) :
  quiet 1 s1 = true -> quiet 1 s2 = true ->
  find (has_email (normalize e)) (users s1) = None ->
  find (has_email (normalize e)) (users s2) = Some u ->
  bcrypt_compare E p (u_password u) = false ->
  fst (loginUser E requestId timestamp now
         (Some [("email", Js.Str e); ("password", Js.Str p)]) s1)
  = fst (loginUser E requestId timestamp now
           (Some [("email", Js.Str e); ("password", Js.Str p)]) s2).
Proof.
  intros Q1 Q2 Hnone Hsome Hbad.
  destruct (Regex.test emailRegex (Js.trim e)) eqn:Hre;
    destruct (Js.is_empty p) eqn:Hp.
  2:{ apply is_empty_false in Hp.
      rewrite !(loginUser_refused E requestId timestamp now e p); auto.
      - now rewrite Hsome.
      - now rewrite Hnone. }
  all: unfold loginUser, try_catch, destructure, bind, ret, loginUserService,
         try_catch;
       cbn [body_prop String.eqb Ascii.eqb Bool.eqb];
       rewrite not_filled_Str;
       cbn [Js.truthy not_string_or trim_of];
       rewrite ?Hp, ?Hre, ?length_0_is_empty, ?Hp;
       destruct (Js.is_empty (Js.trim e)); reflexivity.
Qed.

(** The schema of stored links survives a redirect visit. *)
Lemma redirect_keeps_full_urls id s :
  Forall (fun d => full_url d <> EmptyString) (urls s) ->
  Forall (fun d => full_url d <> EmptyString)
         (urls (snd (redirectFromShortUrl id s))).
Proof.
  intros H. destruct (redirect_state id s) as [_ [-> | ->]]; [exact H|].
  induction (urls s) as [|d r IH]; simpl; [constructor|].
  inversion H as [|? ? Hd Hr]; subst.
  destruct (has_short_url _ d); simpl.
  - constructor; [exact Hd | exact Hr].
  - destruct (update_first _ r) as [found r'] eqn:U; simpl in *.
    constructor; [exact Hd | now apply IH].
Qed.

(** A link [saveShortUrl] stores has both of its URLs. *)
Lemma saveShortUrl_keeps_full_urls E a b c s d s' :
  saveShortUrl E a b c s = (Return d, s') ->
  Forall (fun d => full_url d <> EmptyString) (urls s) ->
  Forall (fun d => full_url d <> EmptyString) (urls s').
Proof.
  intros Sv H.
  apply saveShortUrl_Return in Sv as (_ & _ & _ & Hf & _ & _ & -> & _).
  apply Forall_app. split; [exact H|]. now constructor.
Qed.

(** Without a cookie-parsing middleware [req.cookies] is undefined, and a
    request that has no [Authorization] header is refused whatever cookies
    it carries. *)
Lemma gate_without_parsed_cookies E requestId timestamp now s :
  authMiddleware E requestId timestamp now (mkAuthRequest None None) s
  = (Return
       (Reply (unauthorized requestId timestamp
                 "Authentication required. Please log in to access this resource."
                 "NO_TOKEN_PROVIDED")),
     s).
Proof. reflexivity. Qed.

(** ** C10: the three presentations of a token *)

Lemma verifyToken_run E now (t secret : string) (decoded : Decoded) (s : Db) :
  t <> EmptyString ->
  JWT_SECRET E = Some secret -> secret <> EmptyString ->
  jwt_verify E t secret now = inl decoded ->
  verifyToken E now (Js.Str t) s = (Return decoded, s).
Proof.
  intros Ht Hs Hsne Hv. apply is_empty_false in Ht, Hsne.
  unfold verifyToken. apply try_Return.
  cbn [Js.truthy]. now rewrite Ht, Hs, Hsne, Hv.
Qed.

(** The gate on a request whose extracted token verifies and whose user is
    stored. *)
Lemma authMiddleware_granted
    E (requestId timestamp : string) (now : Z) (r : AuthRequest)
    (t secret email : string) (decoded : Decoded) (account : User) (s : Db) :
  extractToken r = Js.Str t ->
  t <> EmptyString ->
  JWT_SECRET E = Some secret -> secret <> EmptyString ->
  jwt_verify E t secret now = inl decoded ->
  Js.truthy (d_id decoded) = true ->
  d_email decoded = Js.Str email ->
  Regex.test emailRegex (Js.trim email) = true ->
  quiet 1 s = true ->
  find (has_email (normalize email)) (users s) = Some account ->
  authMiddleware E requestId timestamp now r s
  = (Return (Next (mkAuthUser (d_id decoded) (d_email decoded)
                     (or_else (d_name decoded) (Js.Str (u_name account)))
                     (d_iat decoded) (d_exp decoded))),
     pop_fault s).
Proof.
  intros Hx Ht Hs Hsne Hv Hid He Hre Q Hf.
  unfold authMiddleware. apply try_Return. rewrite Hx.
  pose proof Ht as Ht'. apply is_empty_false in Ht'.
  cbn [Js.truthy]. rewrite Ht'. cbn [negb].
  erewrite bind_Return by (apply (verifyToken_run E now t secret); eassumption).
  rewrite Hid, He. cbn [Js.truthy].
  pose proof (emailRegex_nonempty _ Hre) as Hne. apply trim_nonempty in Hne.
  apply is_empty_false in Hne. rewrite Hne. cbn [negb orb].
  erewrite bind_Return by (apply findUserByEmail_run; assumption).
  rewrite Hf. reflexivity.
Qed.

(** C10.  For a token [t] that [jwt.verify] accepts (a non-empty string
    that does not itself begin with ['Bearer ']), whose payload has an
    [id] and the email of a stored user, the store answering:
    [authMiddleware] attaches the same identity, and calls [next()], for
    the header [t] alone, for the header ['Bearer ' + t] and for a request
    without the header whose parsed [req.cookies] has [t] as [token].  In
    the application, though, no middleware parses cookies: the two header
    forms are let through, and the request that carries [t] in its
    [Cookie] header only is answered 401 NO_TOKEN_PROVIDED, the store
    unread. *)
Theorem gate_reads_no_cookie_in_the_app
    E (requestId timestamp : string) (now : Z)
    (t secret email : string) (decoded : Decoded) (account : User)
    (c : option (option string)) (others : list (string * string)) (s : Db) :
  t <> EmptyString ->
  Js.startsWith "Bearer " t = false ->
  JWT_SECRET E = Some secret -> secret <> EmptyString ->
  jwt_verify E t secret now = inl decoded ->
  Js.truthy (d_id decoded) = true ->
  d_email decoded = Js.Str email ->
  Regex.test emailRegex (Js.trim email) = true ->
  quiet 1 s = true ->
  find (has_email (normalize email)) (users s) = Some account ->
  let granted :=
    (Return (Next (mkAuthUser (d_id decoded) (d_email decoded)
                     (or_else (d_name decoded) (Js.Str (u_name account)))
                     (d_iat decoded) (d_exp decoded))),
     pop_fault s) in
  authMiddleware E requestId timestamp now (mkAuthRequest (Some t) c) s = granted
  /\ authMiddleware E requestId timestamp now
       (mkAuthRequest (Some ("Bearer " ++ t)) c) s = granted
  /\ authMiddleware E requestId timestamp now
       (mkAuthRequest None (Some (Some t))) s = granted
  /\ authMiddleware E requestId timestamp now
       (app_request (mkHttpRequest (Some t) others)) s = granted
  /\ authMiddleware E requestId timestamp now
       (app_request (mkHttpRequest (Some ("Bearer " ++ t)) others)) s = granted
  /\ authMiddleware E requestId timestamp now
       (app_request (mkHttpRequest None (("token", t) :: others))) s
     = (Return
          (Reply (unauthorized requestId timestamp
                    "Authentication required. Please log in to access this resource."
                    "NO_TOKEN_PROVIDED")),
        s).
Proof.
  intros Ht Hp Hs Hsne Hv Hid He Hre Q Hf granted.
  assert (G : forall r, extractToken r = Js.Str t ->
                authMiddleware E requestId timestamp now r s = granted).
  { intros r Hx.
    apply (authMiddleware_granted E requestId timestamp now r t secret email
             decoded account s); assumption. }
  split; [apply G, extractToken_verbatim; assumption|].
  split; [apply G, extractToken_bearer|].
  split; [apply G, extractToken_cookie; assumption|].
  split; [apply G, extractToken_verbatim; assumption|].
  split; [apply G, extractToken_bearer|].
  reflexivity.
Qed.

Lemma gate_reads_no_cookie_in_the_app_witness :
  let t := "jwt:bob@example.com" in
  let granted :=
    (Return (Next (mkAuthUser (Js.Str Demo.owner) (Js.Str "bob@example.com")
                     (Js.Str "Bob") 0 604800)),
     Demo.with_bob) in
  authMiddleware Demo.env "REQ-1" "2026-01-01T00:00:00.000Z" 0
    (mkAuthRequest (Some t) None) Demo.with_bob = granted
  /\ authMiddleware Demo.env "REQ-1" "2026-01-01T00:00:00.000Z" 0
       (mkAuthRequest (Some ("Bearer " ++ t)) None) Demo.with_bob = granted
  /\ authMiddleware Demo.env "REQ-1" "2026-01-01T00:00:00.000Z" 0
       (mkAuthRequest None (Some (Some t))) Demo.with_bob = granted
  /\ authMiddleware Demo.env "REQ-1" "2026-01-01T00:00:00.000Z" 0
       (app_request (mkHttpRequest (Some t) [])) Demo.with_bob = granted
  /\ authMiddleware Demo.env "REQ-1" "2026-01-01T00:00:00.000Z" 0
       (app_request (mkHttpRequest (Some ("Bearer " ++ t)) [])) Demo.with_bob
     = granted
  /\ authMiddleware Demo.env "REQ-1" "2026-01-01T00:00:00.000Z" 0
       (app_request (mkHttpRequest None [("token", t)])) Demo.with_bob
     = (Return
          (Reply (unauthorized "REQ-1" "2026-01-01T00:00:00.000Z"
                    "Authentication required. Please log in to access this resource."
                    "NO_TOKEN_PROVIDED")),
        Demo.with_bob).
Proof.
  apply (gate_reads_no_cookie_in_the_app Demo.env "REQ-1"
           "2026-01-01T00:00:00.000Z" 0 "jwt:bob@example.com" "secret"
           "bob@example.com"
           (mkDecoded (Js.Str Demo.owner) (Js.Str "bob@example.com") Js.Undefined
              0 604800)
           Demo.bob None [] Demo.with_bob);
    try reflexivity; discriminate.
Defined.

(** * Further properties of the code *)

(** ** The slug pattern and the identifier generator *)

Lemma test_Void (s : string) : Regex.test Regex.Void s = false.
Proof. induction s; simpl; auto. Qed.

Lemma test_Alt (s : string) : forall r1 r2,
  Regex.test (Regex.Alt r1 r2) s = Regex.test r1 s || Regex.test r2 s.
Proof. induction s as [|c s IH]; intros r1 r2; simpl; [reflexivity | apply IH]. Qed.

Lemma test_Seq_Void (s : string) : forall r,
  Regex.test (Regex.Seq Regex.Void r) s = false.
Proof. induction s as [|c s IH]; intros r; simpl; [reflexivity | apply IH]. Qed.

Lemma test_Seq_Eps (s : string) : forall r,
  Regex.test (Regex.Seq Regex.Eps r) s = Regex.test r s.
Proof.
  destruct s as [|c s]; intros r; simpl; [reflexivity|].
  now rewrite test_Alt, test_Seq_Void.
Qed.

Lemma test_Star_Class p (s : string) :
  Regex.test (Regex.Star (Regex.Class p)) s = Js.all_chars p s.
Proof.
  induction s as [|c s IH]; simpl; [reflexivity|].
  destruct (p c); simpl.
  - now rewrite test_Seq_Eps.
  - apply test_Seq_Void.
Qed.

Lemma test_Plus_Class p (s : string) :
  Regex.test (Regex.Plus (Regex.Class p)) s
  = negb (Js.is_empty s) && Js.all_chars p s.
Proof.
  destruct s as [|c s]; simpl; [reflexivity|].
  destruct (p c); simpl.
  - now rewrite test_Seq_Eps, test_Star_Class.
  - apply test_Seq_Void.
Qed.

(** X1.  The pattern [/^[a-zA-Z0-9-_]+$/] of the custom-link checks accepts
    exactly the non-empty strings made of ASCII letters, digits, hyphens
    and underscores. *)
Theorem customUrlRegex_accepts (s : string) :
  Regex.test customUrlRegex s = true
  <-> s <> EmptyString
      /\ forall c, In c (list_ascii_of_string s) ->
           let n := N_of_ascii c in
           (97 <= n <= 122 \/ 65 <= n <= 90 \/ 48 <= n <= 57
            \/ c = "-"%char \/ c = "_"%char)%N.
Proof.
  unfold customUrlRegex. rewrite test_Plus_Class, andb_true_iff, negb_true_iff.
  rewrite is_empty_false.
  assert (H : forall c, slug_char c = true <->
                let n := N_of_ascii c in
                (97 <= n <= 122 \/ 65 <= n <= 90 \/ 48 <= n <= 57
                 \/ c = "-"%char \/ c = "_"%char)%N).
  { intros c. unfold slug_char, Regex.in_range, Regex.char_is. cbv zeta.
    rewrite !orb_true_iff, !andb_true_iff, !N.leb_le, !Ascii.eqb_eq.
    intuition (auto; try congruence). }
  split; intros [Hne Hall]; split; auto.
  - induction s as [|a r IH]; simpl in *; [tauto|].
    apply andb_prop in Hall as [Ha Hr]. intros c [<-|Hin].
    + now apply H.
    + destruct r as [|b r']; [destruct Hin|]. apply IH; auto. discriminate.
  - clear Hne. induction s as [|a r IH]; simpl in *; [reflexivity|].
    apply andb_true_intro. split.
    + apply H. apply Hall. now left.
    + apply IH. intros c Hin. apply Hall. now right.
Qed.

Lemma alphabet_char_slug (b : N) : slug_char (alphabet_char b) = true.
Proof.
  unfold alphabet_char.
  assert (H : (N.to_nat (N.land b 63) < 64)%nat).
  { change 63%N with (N.ones 6). rewrite N.land_ones.
    pose proof (N.mod_upper_bound b (2 ^ 6)) as U.
    change (2 ^ 6)%N with 64%N in *. lia. }
  revert H. generalize (N.to_nat (N.land b 63)). intros n Hn.
  do 64 (destruct n as [|n]; [reflexivity|]). lia.
Qed.

Lemma nanoid_from_slug E n : forall pos,
  Js.all_chars slug_char (nanoid_from E pos n) = true.
Proof.
  induction n as [|n IH]; intros pos; simpl; [reflexivity|].
  now rewrite alphabet_char_slug, IH.
Qed.

(** X2.  [generateNanoId(length)] fails, without drawing a byte, for a
    length below 1 ("Length must be a positive number") or above 50
    ("Length cannot exceed 50 characters"), each message prefixed by "ID
    generation failed: "; for a length from 1 to 50 it returns an identifier
    of exactly that many characters, which the custom-link pattern accepts,
    and draws that many random bytes. *)
Theorem generateNanoId_contract E (length : Z) (s : Db) :
  if (length <=? 0)%Z then
    generateNanoId E length s
    = (Throw (Error "ID generation failed: Length must be a positive number"), s)
  else if (50 <? length)%Z then
    generateNanoId E length s
    = (Throw (Error "ID generation failed: Length cannot exceed 50 characters"), s)
  else
    exists id,
      generateNanoId E length s = (Return id, draw (Z.to_nat length) s)
      /\ Z.of_nat (String.length id) = length
      /\ Regex.test customUrlRegex id = true.
Proof.
  unfold generateNanoId, try_catch.
  destruct (length <=? 0)%Z eqn:H0; [reflexivity|].
  destruct (50 <? length)%Z eqn:H50; [reflexivity|].
  apply Z.leb_gt in H0.
  exists (nanoid_from E (drawn s) (Z.to_nat length)).
  assert (Hlen : Z.of_nat (String.length (nanoid_from E (drawn s) (Z.to_nat length)))
                 = length).
  { rewrite nanoid_from_length. lia. }
  assert (Hne : Js.is_empty (nanoid_from E (drawn s) (Z.to_nat length)) = false).
  { destruct (Z.to_nat length) eqn:Hn; [lia|reflexivity]. }
  split; [|split; [exact Hlen|]].
  - unfold bind, nanoid. cbv beta iota. rewrite Hne, Hlen, Z.eqb_refl.
    reflexivity.
  - unfold customUrlRegex. rewrite test_Plus_Class, Hne, nanoid_from_slug.
    reflexivity.
Qed.

(** ** What the DAO keeps *)

(** Whatever [saveShortUrl] is given and however it ends, the collection
    is left alone or gets one document under a [short_url] no stored
    document had. *)
Lemma saveShortUrl_urls E a b c s :
  urls (snd (saveShortUrl E a b c s)) = urls s
  \/ exists d,
       urls (snd (saveShortUrl E a b c s)) = (urls s ++ [d])%list
       /\ existsb (has_short_url (short_url d)) (urls s) = false.
Proof.
  destruct (saveShortUrl E a b c s) as [[d|e] s'] eqn:Sv.
  - right. exists d.
    apply saveShortUrl_Return in Sv as (_ & Hs & _ & _ & _ & Hfree & Hu & _).
    split; [exact Hu|]. now rewrite Hs.
  - left. revert Sv. unfold saveShortUrl, try_catch.
    destruct (bind _ _ s) as [[d0|e0] s0] eqn:B; [discriminate|].
    assert (H0 : urls s0 = urls s).
    { revert B.
      unfold validateSaveInputs, bind, ShortUrl_new, ret, throw.
      destruct (not_a_filled_string a); [now intros [= _ <-]|].
      destruct (not_a_filled_string b); [now intros [= _ <-]|].
      destruct (given_but_not_filled (default_null c)); [now intros [= _ <-]|].
      unfold ShortUrl_save, bind, driver_call, get, set_urls, ret, throw.
      match goal with
      | |- context [ShortUrl_validate ?d] => destruct (ShortUrl_validate d)
      end; [|now intros [= _ <-]].
      cbn [faults urls users drawn made pop_fault].
      destruct (hd None (faults s)); [now intros [= _ <-]|].
      cbn [faults urls users drawn made pop_fault].
      destruct (existsb _ (urls s)); [now intros [= _ <-]|discriminate]. }
    unfold saveShortUrl_catch, throw. case_ifs; intros [= _ <-]; exact H0.
Qed.

Lemma existsb_has_short_url key l :
  existsb (has_short_url key) l = false -> ~ In key (map short_url l).
Proof.
  induction l as [|d r IH]; simpl; [tauto|].
  intros H. apply orb_false_iff in H as [Hd Hr].
  unfold has_short_url in Hd. apply String.eqb_neq in Hd.
  intros [Heq|Hin]; [congruence | now apply IH].
Qed.

Lemma update_first_short_urls key l :
  map short_url (snd (update_first key l)) = map short_url l.
Proof.
  induction l as [|d r IH]; simpl; [reflexivity|].
  destruct (has_short_url key d); [reflexivity|].
  destruct (update_first key r); simpl in *. now rewrite IH.
Qed.

(** X3.  Uniqueness of [short_url] is an invariant of the two operations
    that write the short-link collection: whatever its arguments and its
    outcome, [saveShortUrl] leaves the stored codes pairwise distinct, and
    so does a redirect visit. *)
Theorem short_urls_stay_unique E (a b c id : Js.value) (s : Db) :
  unique_short_urls s ->
  unique_short_urls (snd (saveShortUrl E a b c s))
  /\ unique_short_urls (snd (redirectFromShortUrl id s)).
Proof.
  unfold unique_short_urls. intros U. split.
  - destruct (saveShortUrl_urls E a b c s) as [-> | (d & -> & Hfree)]; [exact U|].
    rewrite map_app. simpl.
    apply NoDup_app.
    + exact U.
    + repeat constructor. simpl. tauto.
    + intros x Hx [<-|[]]. revert Hx. now apply existsb_has_short_url.
  - destruct (redirect_state id s) as [_ [-> | ->]]; [exact U|].
    now rewrite update_first_short_urls.
Qed.

Lemma short_urls_stay_unique_witness :
  unique_short_urls
    (snd (saveShortUrl Demo.env (Js.Str "old-one") (Js.Str "https://example.com/2")
            Js.Null Demo.two_links))
  /\ unique_short_urls
       (snd (redirectFromShortUrl (Js.Str "old-one") Demo.two_links)).
Proof.
  apply (short_urls_stay_unique Demo.env (Js.Str "old-one")
           (Js.Str "https://example.com/2") Js.Null (Js.Str "old-one")
           Demo.two_links).
  unfold unique_short_urls. simpl. repeat constructor; simpl; intuition discriminate.
Defined.

(** ** Counting visits *)

Lemma quiet_with_urls n l s : quiet n (with_urls l s) = quiet n s.
Proof. reflexivity. Qed.

Lemma quiet_1_of_S n s : quiet (S n) s = true -> quiet 1 s = true.
Proof.
  unfold quiet. destruct (faults s) as [|f r]; [reflexivity|].
  simpl. destruct f; [discriminate|]. now destruct n.
Qed.

(** X4.  [n] successive visits to the code of a stored link (the store
    answering each time) leave that link with [n] more clicks, its other
    fields as they were. *)
Theorem n_visits_add_n_clicks (n : nat) : forall (code : string) (d : ShortUrl) (s : Db),
  quiet n s = true ->
  find (has_short_url (Js.trim code)) (urls s) = Some d ->
  short_url d <> EmptyString ->
  full_url d <> EmptyString ->
  find (has_short_url (Js.trim code)) (urls (visit_n n (Js.Str code) s))
  = Some (mkShortUrl (su_id d) (full_url d) (short_url d)
                     (clicks d + Z.of_nat n) (user d)).
Proof.
  induction n as [|n IH]; intros code d s Q Hf Hs Hu.
  - simpl. rewrite Hf, Z.add_0_r. now destruct d.
  - cbn [visit_n].
    pose proof (quiet_1_of_S n s Q) as Q1.
    rewrite (redirect_found s code d Q1 Hf Hs Hu). cbn [snd].
    apply quiet_S in Q as [_ Qn].
    rewrite (IH code (inc_clicks d)); auto.
    + cbn [inc_clicks su_id full_url short_url clicks user].
      do 2 f_equal. lia.
    + cbn [urls with_urls]. now apply find_after_update.
Qed.

Lemma n_visits_add_n_clicks_witness :
  find (has_short_url (Js.trim "old-one"))
       (urls (visit_n 3 (Js.Str "old-one") Demo.two_links))
  = Some (mkShortUrl (su_id Demo.link_old) (full_url Demo.link_old)
                     (short_url Demo.link_old)
                     (clicks Demo.link_old + Z.of_nat 3) (user Demo.link_old)).
Proof.
  apply (n_visits_add_n_clicks 3 "old-one" Demo.link_old Demo.two_links);
    [reflexivity | reflexivity | discriminate | discriminate].
Defined.

(** ** A failure of the database during a redirect *)

(** X5.  When the driver fails during the lookup of a redirect visit (with
    an error of its own, other than a cast error), the visitor is answered
    500 with the message "Database query failed: " followed by the driver's
    message; nothing is redirected and the collections are unchanged. *)
Theorem redirect_when_the_database_fails
    (code : string) (e : JsError) (rest : list (option JsError)) (s : Db) :
  Js.trim code <> EmptyString ->
  faults s = Some e :: rest ->
  driver_error e ->
  redirectFromShortUrl (Js.Str code) s
  = (Return (respond 500
               (JObj [("success", JBool false);
                      ("message", JStr ("Database query failed: " ++ err_message e))])),
     pop_fault s)
  /\ urls (pop_fault s) = urls s
  /\ users (pop_fault s) = users s.
Proof.
  intros Hk Hf [Hcls Hname]. split; [|split; reflexivity].
  assert (G : getShortUrl (Js.Str (Js.trim code)) s
              = (Throw (Error ("Database query failed: " ++ err_message e)),
                 pop_fault s)).
  { unfold getShortUrl. erewrite try_Throw.
    2:{ rewrite not_filled_Str, trim_idem.
        apply is_empty_false in Hk. rewrite Hk.
        apply bind_Throw. unfold ShortUrl_findOneAndUpdate_inc.
        apply bind_Throw. unfold driver_call. rewrite Hf. reflexivity. }
    unfold getShortUrl_catch, instanceof_BadRequestError, is_class.
    apply String.eqb_neq in Hname. rewrite Hname, Hcls. reflexivity. }
  unfold redirectFromShortUrl.
  assert (Hc : code <> EmptyString) by now apply trim_nonempty.
  apply is_empty_false in Hc. cbn [Js.truthy Js.is_string negb].
  rewrite Hc. cbn [negb orb]. unfold trim_of at 1.
  rewrite length_0_is_empty. apply is_empty_false in Hk. rewrite Hk.
  erewrite try_Throw.
  2:{ apply bind_Throw. unfold trim_of. exact G. }
  reflexivity.
Qed.

Lemma redirect_when_the_database_fails_witness :
  let e := mkError DriverErrorC "MongoNetworkError" "connection reset" None [] None [] in
  let s := mkDb [Demo.link_old] [] [Some e] 0 0 in
  redirectFromShortUrl (Js.Str "old-one") s
  = (Return (respond 500
               (JObj [("success", JBool false);
                      ("message", JStr ("Database query failed: " ++ err_message e))])),
     pop_fault s)
  /\ urls (pop_fault s) = urls s
  /\ users (pop_fault s) = users s.
Proof.
  apply (redirect_when_the_database_fails "old-one"
           (mkError DriverErrorC "MongoNetworkError" "connection reset" None [] None [])
           []
           (mkDb [Demo.link_old] [] [Some (mkError DriverErrorC "MongoNetworkError"
                                             "connection reset" None [] None [])] 0 0));
    [discriminate | reflexivity | split; [reflexivity | discriminate]].
Defined.

(** The owner a successful [saveShortUrl] has stored. *)
Lemma saveShortUrl_Return_owner E a b c s d s' :
  saveShortUrl E a b c s = (Return d, s') ->
  user d = stored_owner c.
Proof.
  unfold saveShortUrl, try_catch, stored_owner.
  destruct (bind _ _ s) as [[d0|e0] s0] eqn:B.
  2:{ unfold saveShortUrl_catch, throw. case_ifs; discriminate. }
  intros [= -> ->]. revert B.
  unfold validateSaveInputs, bind, ShortUrl_new, ret, throw.
  destruct (not_a_filled_string a); [discriminate|].
  destruct (not_a_filled_string b); [discriminate|].
  destruct (given_but_not_filled (default_null c)); [discriminate|].
  unfold ShortUrl_save, ShortUrl_validate, ShortUrl_of_draft, bind, driver_call,
    get, set_urls, ret, throw.
  destruct (Js.truthy (default_null c));
    cbn [dr_id dr_full_url dr_short_url dr_user];
    destruct (Js.is_empty (trim_of b)); cbn [app]; try discriminate;
    destruct (Js.is_empty (trim_of a)); cbn [app]; try discriminate;
    try destruct (castObjectId _) eqn:Hcast; cbn [app]; try discriminate;
    cbn [faults urls users drawn made pop_fault];
    destruct (hd None (faults s)); try discriminate;
    cbn [faults urls users drawn made pop_fault];
    destruct (existsb _ (urls s)); try discriminate;
    intros [= <- _]; cbn; auto.
Qed.

(** ** Custom links, twice and listed *)

(** What a successful [createCustomShortUrlService] has done. *)
Lemma createCustomShortUrlService_Return E url customUrl userId s t s' :
  createCustomShortUrlService E url customUrl userId s = (Return t, s') ->
  t = trim_of customUrl
  /\ Regex.test customUrlRegex t = true
  /\ (String.length t <? 3)%nat = false
  /\ (50 <? String.length t)%nat = false
  /\ exists d,
       urls s' = (urls s ++ [d])%list
       /\ short_url d = t /\ full_url d = Js.trim (trim_of url) /\ clicks d = 0%Z
       /\ user d = stored_owner userId.
Proof.
  unfold createCustomShortUrlService, try_catch.
  destruct (bind _ _ s) as [[t0|e0] s0] eqn:B.
  2:{ unfold createCustomShortUrlService_catch, bind, throw.
      case_ifs; try discriminate.
      destruct (method_trim customUrl s0) as [[x|x] y]; discriminate. }
  intros [= -> ->]. revert B. unfold bind at 1.
  destruct (validateServiceInputs url userId s) as [[[]|e] s1] eqn:V;
    [|discriminate].
  apply validateServiceInputs_state in V as ->.
  destruct (not_a_filled_string customUrl) eqn:Hc; [discriminate|].
  destruct (Regex.test customUrlRegex (trim_of customUrl)) eqn:Hre;
    [|discriminate].
  destruct (String.length (trim_of customUrl) <? 3)%nat eqn:Hmin; [discriminate|].
  destruct (50 <? String.length (trim_of customUrl))%nat eqn:Hmax; [discriminate|].
  cbn [negb orb]. unfold bind at 1, ShortUrl_findOne, bind, driver_call, get, ret.
  destruct (hd None (faults s)); [discriminate|]. cbv beta iota.
  cbn [urls pop_fault].
  destruct (find _ (urls s)); [discriminate|].
  destruct (method_trim url (pop_fault s)) as [[longUrl|e] s2] eqn:T;
    [|discriminate].
  assert (Hl : longUrl = trim_of url /\ s2 = pop_fault s).
  { revert T. destruct url; unfold method_trim, ret, throw; try discriminate.
    now intros [= <- <-]. }
  destruct Hl as [-> ->].
  destruct (saveShortUrl E _ _ userId (pop_fault s)) as [[d|e] s3] eqn:Sv;
    [|discriminate].
  intros [= <- <-].
  pose proof (saveShortUrl_Return_owner _ _ _ _ _ _ _ Sv) as Howner.
  apply saveShortUrl_Return in Sv
    as (Hfull & Hshort & Hclicks & _ & _ & _ & Hurls & _ & _).
  destruct customUrl as [| | | |raw|]; try discriminate Hc; try discriminate Hre.
  cbn [trim_of] in *. rewrite trim_idem in Hshort.
  repeat split; auto.
  exists d. rewrite Hurls. cbn [urls pop_fault]. repeat split; auto.
Qed.

Lemma createCustomShortUrlService_taken E (url raw owner : string) (s : Db) :
  Js.trim url <> EmptyString ->
  Js.trim owner <> EmptyString ->
  Regex.test customUrlRegex (Js.trim raw) = true ->
  (String.length (Js.trim raw) <? 3)%nat = false ->
  (50 <? String.length (Js.trim raw))%nat = false ->
  quiet 1 s = true ->
  existsb (has_short_url (Js.trim raw)) (urls s) = true ->
  createCustomShortUrlService E (Js.Str url) (Js.Str raw) (Js.Str owner) s
  = (Throw (ConflictError (taken_message (Js.trim raw))), pop_fault s).
Proof.
  intros Hu Ho Hre Hmin Hmax Q Hex.
  pose proof (length_ge_3_nonempty _ Hmin) as Hne.
  unfold createCustomShortUrlService, try_catch.
  erewrite bind_Return by (apply validateServiceInputs_Str; assumption).
  rewrite not_filled_Str, Hne. cbn [trim_of]. rewrite Hre, Hmin, Hmax.
  cbn [negb orb].
  erewrite bind_Return by (apply findOne_run; exact Q).
  rewrite find_existsb in Hex.
  destruct (find (has_short_url (Js.trim raw)) (urls s)); [reflexivity|discriminate].
Qed.

(** X6.  A custom slug can be created once: after
    [createCustomShortUrlService] has succeeded with the slug [t], a
    further call whose slug trims to [t] (for any URL and owner that pass
    the input checks, the store answering) fails with the [ConflictError]
    "The custom URL ... is already taken", status 409, and stores
    nothing. *)
Theorem custom_slug_is_created_once
    E (url1 slug1 owner1 : Js.value) (url2 slug2 owner2 t : string) (s s1 : Db) :
  createCustomShortUrlService E url1 slug1 owner1 s = (Return t, s1) ->
  Js.trim slug2 = t ->
  Js.trim url2 <> EmptyString ->
  Js.trim owner2 <> EmptyString ->
  quiet 1 s1 = true ->
  exists e s2,
    createCustomShortUrlService E (Js.Str url2) (Js.Str slug2) (Js.Str owner2) s1
    = (Throw e, s2)
    /\ e = ConflictError (taken_message t)
    /\ err_statusCode e = Some 409%Z
    /\ urls s2 = urls s1.
Proof.
  intros H1 Ht Hu Ho Q. subst t.
  apply createCustomShortUrlService_Return in H1
    as (_ & Hre & Hmin & Hmax & d & Hurls & Hshort & _).
  exists (ConflictError (taken_message (Js.trim slug2))), (pop_fault s1).
  split; [|repeat split].
  apply createCustomShortUrlService_taken; auto.
  rewrite Hurls, existsb_app. simpl.
  unfold has_short_url at 2. rewrite Hshort, String.eqb_refl.
  now rewrite orb_true_r.
Qed.

Lemma custom_slug_is_created_once_witness :
  exists e s2,
    createCustomShortUrlService Demo.env (Js.Str "https://example.org/other")
      (Js.Str "my-link ") (Js.Str Demo.owner)
      (snd (createCustomShortUrlService Demo.env (Js.Str "https://example.com/x")
              (Js.Str " my-link") (Js.Str Demo.owner) Demo.two_links))
    = (Throw e, s2)
    /\ e = ConflictError (taken_message "my-link")
    /\ err_statusCode e = Some 409%Z
    /\ urls s2
       = urls (snd (createCustomShortUrlService Demo.env
                      (Js.Str "https://example.com/x") (Js.Str " my-link")
                      (Js.Str Demo.owner) Demo.two_links)).
Proof.
  apply (custom_slug_is_created_once Demo.env (Js.Str "https://example.com/x")
           (Js.Str " my-link") (Js.Str Demo.owner)
           "https://example.org/other" "my-link " Demo.owner "my-link"
           Demo.two_links);
    [reflexivity | reflexivity | discriminate | discriminate | reflexivity].
Defined.

(** The listing, in the terms of the collection (the statement of the
    listing service once the schema is taken into account). *)
Lemma getUserUrlsService_run E (now : Z) (owner : string) (oid : ObjectId) (s : Db) :
  castObjectId (Js.trim owner) = Some oid ->
  quiet 1 s = true ->
  getUserUrlsService E now (Js.Str owner) s
  = (Return
       (map (fun d => mkEntry (su_id d) (app_url E ++ short_url d) (full_url d)
                              (short_url d) (clicks d) now)
            (filter (owned_by oid) (urls s))),
     pop_fault s).
Proof.
  intros Ho Q. unfold getUserUrlsService. apply try_Return.
  rewrite not_filled_Str.
  pose proof (castObjectId_nonempty _ _ Ho) as Hne.
  apply is_empty_false in Hne. rewrite Hne.
  unfold ShortUrl_find_by_user_sorted. cbn [trim_of]. rewrite Ho.
  unfold bind at 1 2. rewrite (driver_call_quiet s Q).
  unfold bind, get, ret. rewrite sort_desc_su_createdAt.
  f_equal. f_equal. apply map_ext. intros d. apply transform_schema.
Qed.

(** X7.  A custom link shows up in its owner's list: after
    [createCustomShortUrlService] has succeeded for an owner, the owner's
    listing is the listing of before followed by one entry for the new link,
    with the base URL and the slug, the trimmed URL and no clicks. *)
Theorem created_custom_link_is_listed
    E (now : Z) (url slug owner t : string) (oid : ObjectId) (s s1 : Db) :
  createCustomShortUrlService E (Js.Str url) (Js.Str slug) (Js.Str owner) s
  = (Return t, s1) ->
  castObjectId (Js.trim owner) = Some oid ->
  quiet 1 s = true ->
  quiet 1 s1 = true ->
  exists before id,
    fst (getUserUrlsService E now (Js.Str owner) s) = Return before
    /\ fst (getUserUrlsService E now (Js.Str owner) s1)
       = Return (before
                 ++ [mkEntry id (app_url E ++ Js.trim slug) (Js.trim url)
                             (Js.trim slug) 0 now])%list.
Proof.
  intros H1 Ho Q Q1.
  apply createCustomShortUrlService_Return in H1
    as (Ht & _ & _ & _ & d & Hurls & Hshort & Hfull & Hclicks & Huser).
  cbn [trim_of] in *. rewrite trim_idem in Hfull.
  assert (Hown : user d = Some oid).
  { rewrite Huser. unfold stored_owner. cbn [default_null Js.truthy trim_of].
    pose proof (castObjectId_nonempty _ _ Ho) as Hne.
    apply trim_nonempty, is_empty_false in Hne. now rewrite Hne. }
  rewrite !(getUserUrlsService_run E now owner oid) by assumption.
  do 2 eexists. split; [reflexivity|]. cbn [fst].
  rewrite Hurls, filter_app, map_app. simpl.
  unfold owned_by at 2. rewrite Hown, String.eqb_refl. simpl.
  rewrite Hshort, Hfull, Hclicks, <- Ht. reflexivity.
Qed.

Lemma created_custom_link_is_listed_witness :
  exists before id,
    fst (getUserUrlsService Demo.env 1767225600000 (Js.Str Demo.owner)
           Demo.two_links) = Return before
    /\ fst (getUserUrlsService Demo.env 1767225600000 (Js.Str Demo.owner)
              (snd (createCustomShortUrlService Demo.env
                      (Js.Str "https://example.com/x") (Js.Str " my-link")
                      (Js.Str Demo.owner) Demo.two_links)))
       = Return (before
                 ++ [mkEntry id "http://localhost:3000/my-link"
                             "https://example.com/x" "my-link" 0
                             1767225600000])%list.
Proof.
  apply (created_custom_link_is_listed Demo.env 1767225600000
           "https://example.com/x" " my-link" Demo.owner "my-link" Demo.owner
           Demo.two_links);
    reflexivity.
Defined.

(** ** Links without an owner *)

Lemma single_attempt_anonymous_never_11000 E url :
  never_11000 (single_attempt_anonymous E url).
Proof.
  intros s e s'. unfold single_attempt_anonymous, bind. rewrite generateNanoId_7.
  destruct (Js.is_empty _); [intros [= <- _]; reflexivity|].
  destruct (method_trim url (draw 7 s)) as [[longUrl|e1] t1] eqn:T1.
  - destruct (saveShortUrl E _ _ _ t1) as [[d|e3] t3] eqn:Sv; [discriminate|].
    intros [= <- _]. eapply saveShortUrl_never_11000; exact Sv.
  - intros [= <- _]. eapply method_trim_never_11000; exact T1.
Qed.

Lemma retry_loop_anonymous_is_single_attempt E url v s :
  retry_loop_anonymous E url maxRetries v s = single_attempt_anonymous E url s.
Proof.
  pose proof (single_attempt_anonymous_never_11000 E url s) as N.
  unfold single_attempt_anonymous in *. unfold maxRetries.
  cbn [retry_loop_anonymous].
  unfold bind, attempt, try_catch in *. rewrite generateNanoId_7 in *.
  cbn [Nat.sub Nat.ltb Nat.leb maxRetries] in *.
  destruct (Js.is_empty (nanoid_from E (drawn s) 7)).
  - reflexivity.
  - destruct (method_trim url (draw 7 s)) as [[longUrl|e1] s1] eqn:T1.
    + destruct (saveShortUrl E _ _ _ s1) as [[d|e3] s3] eqn:Sv; [reflexivity|].
      rewrite (N e3 s3 eq_refl). reflexivity.
    + rewrite (N e1 s1 eq_refl). reflexivity.
Qed.

(** X8.  When [createShortUrlServiceWithoutUserId] succeeds it returns a
    seven-character code and has appended one link, with the trimmed URL,
    that code, no clicks and no [user]; the list of every owner is what it
    was. *)
Theorem anonymous_link_has_no_owner E (url : string) (c : Js.value) (s s1 : Db) :
  createShortUrlServiceWithoutUserId E (Js.Str url) s = (Return c, s1) ->
  exists code d,
    c = Js.Str code
    /\ String.length code = 7
    /\ urls s1 = (urls s ++ [d])%list
    /\ short_url d = code /\ full_url d = Js.trim url
    /\ clicks d = 0%Z /\ user d = None
    /\ forall oid, filter (owned_by oid) (urls s1) = filter (owned_by oid) (urls s).
Proof.
  unfold createShortUrlServiceWithoutUserId. rewrite try_rethrow. unfold bind at 1.
  destruct (validateServiceInputs (Js.Str url) Js.Undefined s) as [[[]|e] s0] eqn:V;
    [|discriminate].
  apply validateServiceInputs_state in V as ->.
  rewrite retry_loop_anonymous_is_single_attempt. unfold single_attempt_anonymous.
  erewrite bind_Return by apply generateNanoId_7.
  assert (Hid : Js.is_empty (nanoid_from E (drawn s) 7) = false) by reflexivity.
  rewrite Hid. cbn [method_trim].
  erewrite bind_Return by reflexivity.
  unfold bind at 1.
  destruct (saveShortUrl E _ _ _ (draw 7 s)) as [[d|e] s3] eqn:Sv; [|discriminate].
  unfold ret. intros [= <- <-].
  pose proof (saveShortUrl_Return_owner _ _ _ _ _ _ _ Sv) as Howner.
  apply saveShortUrl_Return in Sv
    as (Hfull & Hshort & Hclicks & _ & _ & _ & Hurls & _ & _).
  cbn [trim_of] in *. rewrite trim_idem in Hfull.
  rewrite nanoid_from_trim in Hshort.
  exists (nanoid_from E (drawn s) 7), d.
  split; [reflexivity|]. split; [apply nanoid_from_length|].
  split; [exact Hurls|]. repeat split; auto.
  intros oid. rewrite Hurls. cbn [urls draw]. rewrite filter_app. simpl.
  unfold owned_by at 2. rewrite Howner. cbn. apply app_nil_r.
Qed.

Lemma anonymous_link_has_no_owner_witness :
  exists code d,
    Js.Str Demo.first_id = Js.Str code
    /\ String.length code = 7
    /\ urls (snd (createShortUrlServiceWithoutUserId Demo.env
                    (Js.Str " https://example.com/x ") Demo.two_links))
       = (urls Demo.two_links ++ [d])%list
    /\ short_url d = code /\ full_url d = "https://example.com/x"
    /\ clicks d = 0%Z /\ user d = None
    /\ forall oid,
         filter (owned_by oid)
           (urls (snd (createShortUrlServiceWithoutUserId Demo.env
                         (Js.Str " https://example.com/x ") Demo.two_links)))
         = filter (owned_by oid) (urls Demo.two_links).
Proof.
  apply (anonymous_link_has_no_owner Demo.env " https://example.com/x "
           (Js.Str Demo.first_id) Demo.two_links).
  reflexivity.
Defined.

(** ** The create and list handlers *)

(** X9.  [createShortUrl] turns a request away before an identifier is
    generated (no random byte is drawn, the driver is not called and the
    collections are unchanged) in two cases: a body whose [url] is not a
    non-empty string the URL parser accepts is answered 400; a request
    without a body is answered 500, since the destructuring of [req.body]
    throws a [TypeError] inside the [try] block, which [errorHandler]
    answers. *)
Theorem createShortUrl_rejects_bad_url
    E (requestId timestamp : string) (body : Body) (u : AuthUser) (s : Db) :
  bad_url_request E body = true ->
  exists r,
    createShortUrl E requestId timestamp body u s = (Return r, s)
    /\ res_status r = match body with
                      | Some _ => 400%Z
                      | None => 500%Z
                      end.
Proof.
  intros H. unfold createShortUrl, try_catch, destructure.
  destruct body as [o|]; [|eexists; split; reflexivity].
  cbn [bad_url_request] in H. apply negb_true_iff in H.
  unfold bind at 1. unfold ret at 1. cbv beta iota zeta.
  unfold bind, validateUrl, next_error, ret, throw.
  destruct (body_prop "url" o) as [| |b|z|str|]; cbn in *;
    try (eexists; split; reflexivity).
  - destruct b; eexists; split; reflexivity.
  - destruct (z =? 0)%Z; eexists; split; reflexivity.
  - destruct (Js.is_empty str); cbn in *; [eexists; split; reflexivity|].
    rewrite H. eexists; split; reflexivity.
Qed.

Lemma createShortUrl_rejects_bad_url_witness :
  (exists r,
     createShortUrl Demo.env "REQ-1" "2026-01-01T00:00:00.000Z"
       (Some [("url", Js.Str "example.com/x")]) Demo.alice Demo.two_links
     = (Return r, Demo.two_links)
     /\ res_status r = 400%Z)
  /\ (exists r,
        createShortUrl Demo.env "REQ-1" "2026-01-01T00:00:00.000Z"
          None Demo.alice Demo.two_links
        = (Return r, Demo.two_links)
        /\ res_status r = 500%Z).
Proof.
  split.
  - apply (createShortUrl_rejects_bad_url Demo.env "REQ-1"
             "2026-01-01T00:00:00.000Z" (Some [("url", Js.Str "example.com/x")])
             Demo.alice Demo.two_links).
    reflexivity.
  - apply (createShortUrl_rejects_bad_url Demo.env "REQ-1"
             "2026-01-01T00:00:00.000Z" None Demo.alice Demo.two_links).
    reflexivity.
Defined.

(** X10.  [getUserUrls] answers 401 "Authentication required" when the
    request carries no identity; and when the identity's [id] is a
    non-blank string that does not cast to an [ObjectId], the failed cast
    of the query is answered 500, with a message that begins "Failed to
    retrieve user URLs: ", without a call of the driver. *)
Theorem getUserUrls_refusals E (requestId : string) (now : Z) (owner : string) (s : Db) :
  Js.trim owner <> EmptyString ->
  castObjectId (Js.trim owner) = None ->
  getUserUrls E requestId now None s
  = (Return (respond 401 (JObj [("success", JBool false);
                                ("message", JStr "Authentication required")])),
     s)
  /\ getUserUrls E requestId now (Some (Js.Undefined, Js.Str owner)) s
     = (Return
          (respond 500
             (JObj [("success", JBool false);
                    ("message",
                     JStr ("Failed to retrieve user URLs: "
                           ++ err_message (CastError "user")));
                    ("requestId", JStr requestId)])),
        s).
Proof.
  intros Hne Hcast. split; [reflexivity|].
  unfold getUserUrls, try_catch. cbn [Js.truthy negb andb or_else].
  pose proof (trim_nonempty _ Hne) as Hn. apply is_empty_false in Hn.
  rewrite Hn. cbn [negb andb].
  erewrite bind_Throw.
  2:{ unfold getUserUrlsService. erewrite try_Throw.
      2:{ rewrite not_filled_Str. apply is_empty_false in Hne. rewrite Hne.
          apply bind_Throw. unfold ShortUrl_find_by_user_sorted.
          cbn [trim_of]. rewrite Hcast. reflexivity. }
      reflexivity. }
  reflexivity.
Qed.

Lemma getUserUrls_refusals_witness :
  getUserUrls Demo.env "REQ-1" 0 None Demo.two_links
  = (Return (respond 401 (JObj [("success", JBool false);
                                ("message", JStr "Authentication required")])),
     Demo.two_links)
  /\ getUserUrls Demo.env "REQ-1" 0 (Some (Js.Undefined, Js.Str "user123"))
       Demo.two_links
     = (Return
          (respond 500
             (JObj [("success", JBool false);
                    ("message",
                     JStr ("Failed to retrieve user URLs: "
                           ++ err_message (CastError "user")));
                    ("requestId", JStr "REQ-1")])),
        Demo.two_links).
Proof.
  apply (getUserUrls_refusals Demo.env "REQ-1" 0 "user123" Demo.two_links);
    [discriminate | reflexivity].
Defined.
(** ** The two gates *)

Lemma gates_agree_on_a_token
    E (requestId timestamp : string) (now : Z) (token : Js.value) (s : Db) :
  let gate :=
    try_catch
      (if negb (Js.truthy token) then
         ret (Reply (unauthorized requestId timestamp
                       "Authentication required. Please log in to access this resource."
                       "NO_TOKEN_PROVIDED"))
       else
         decoded <- verifyToken E now token ;;
         if negb (Js.truthy (d_id decoded)) || negb (Js.truthy (d_email decoded)) then
           ret (Reply (unauthorized requestId timestamp
                         "Invalid authentication token. Please log in again."
                         "INVALID_TOKEN"))
         else
           found <- findUserByEmail (d_email decoded) ;;
           match found with
           | None =>
               ret (Reply (unauthorized requestId timestamp
                             "User account not found. Please log in again."
                             "USER_NOT_FOUND"))
           | Some u =>
               ret (Next (mkAuthUser (d_id decoded) (d_email decoded)
                            (or_else (d_name decoded) (Js.Str (u_name u)))
                            (d_iat decoded) (d_exp decoded)))
           end)
      (fun error =>
         if Js.includes "expired" (err_message error) then
           ret (Reply (unauthorized requestId timestamp
                         "Your session has expired. Please log in again."
                         "TOKEN_EXPIRED"))
         else if Js.includes "invalid" (err_message error) then
           ret (Reply (unauthorized requestId timestamp
                         "Invalid authentication token. Please log in again."
                         "INVALID_TOKEN"))
         else if Js.includes "malformed" (err_message error) then
           ret (Reply (unauthorized requestId timestamp
                         "Malformed authentication token. Please log in again."
                         "MALFORMED_TOKEN"))
         else
           ret (Reply (unauthorized requestId timestamp
                         "Authentication failed. Please log in again."
                         "AUTHENTICATION_FAILED"))) s in
  try_catch
    (if negb (Js.truthy token) then ret None
     else
       decoded <- verifyToken E now token ;;
       if negb (Js.truthy (d_id decoded)) || negb (Js.truthy (d_email decoded)) then
         ret None
       else
         found <- findUserByEmail (d_email decoded) ;;
         match found with
         | None => ret None
         | Some u =>
             ret (Some (mkAuthUser (d_id decoded) (d_email decoded)
                          (or_else (d_name decoded) (Js.Str (u_name u)))
                          (d_iat decoded) (d_exp decoded)))
         end)
    (fun _ => ret None) s
  = (Return (gate_user (fst gate)), snd gate).
Proof.
  cbv zeta. unfold try_catch, bind.
  destruct (negb (Js.truthy token)); [reflexivity|].
  destruct (verifyToken E now token s) as [[decoded|e] s1].
  - destruct (negb (Js.truthy (d_id decoded)) || negb (Js.truthy (d_email decoded)));
      [reflexivity|].
    destruct (findUserByEmail (d_email decoded) s1) as [[[u|]|e] s2];
      try reflexivity.
    unfold ret. case_ifs; reflexivity.
  - unfold ret. case_ifs; reflexivity.
Qed.

(** X11.  [optionalAuthMiddleware] sets [req.user] to the identity
    [authMiddleware] would attach to the same request, and to [null]
    whenever [authMiddleware] would answer 401; the two leave the same
    state. *)
Theorem optional_gate_agrees_with_gate
    E (requestId timestamp : string) (now : Z) (r : AuthRequest) (s : Db) :
  optionalAuthMiddleware E now r s
  = (Return (gate_user (fst (authMiddleware E requestId timestamp now r s))),
     snd (authMiddleware E requestId timestamp now r s)).
Proof.
  destruct r as [[[|a h]|] [c|]];
    try exact (gates_agree_on_a_token E requestId timestamp now
                 (extractToken (mkAuthRequest (Some (String a h)) (Some c))) s);
    try exact (gates_agree_on_a_token E requestId timestamp now
                 (extractToken (mkAuthRequest (Some (String a h)) None)) s);
    try exact (gates_agree_on_a_token E requestId timestamp now
                 (extractToken (mkAuthRequest None (Some c))) s);
    try reflexivity.
Qed.

Lemma findUserByEmail_Return (v : Js.value) (s : Db) (found : option User) (s' : Db) :
  findUserByEmail v s = (Return found, s') ->
  exists e,
    v = Js.Str e
    /\ Regex.test emailRegex (Js.trim e) = true
    /\ hd None (faults s) = None
    /\ found = find (has_email (normalize e)) (users s)
    /\ s' = pop_fault s.
Proof.
  unfold findUserByEmail, try_catch.
  destruct (not_a_filled_string v) eqn:Hv.
  { unfold throw. cbn. discriminate. }
  destruct v as [| |b|z|e|]; try discriminate Hv;
    try (unfold not_a_filled_string in Hv; cbn in Hv; rewrite orb_true_r in Hv;
         discriminate Hv).
  cbn [trim_of].
  destruct (Regex.test emailRegex (Js.trim e)) eqn:Hre; cbn [negb].
  2:{ unfold throw. cbn. discriminate. }
  unfold User_findOne, bind, driver_call, get, ret.
  destruct (hd None (faults s)) as [err|] eqn:Hf.
  - unfold throw. case_ifs; discriminate.
  - intros [= <- <-]. exists e. repeat split; auto.
Qed.

Lemma verifyToken_Return E now (token : Js.value) (s : Db) (decoded : Decoded) (s' : Db) :
  verifyToken E now token s = (Return decoded, s') ->
  exists t secret,
    token = Js.Str t
    /\ JWT_SECRET E = Some secret
    /\ jwt_verify E t secret now = inl decoded
    /\ s' = s.
Proof.
  unfold verifyToken, try_catch.
  destruct (negb (Js.truthy token)).
  { unfold throw. case_ifs; discriminate. }
  destruct token as [| |b|z|t|]; try (unfold throw; case_ifs; discriminate).
  destruct (JWT_SECRET E) as [secret|]; [|unfold throw; case_ifs; discriminate].
  destruct (Js.is_empty secret); [unfold throw; case_ifs; discriminate|].
  destruct (jwt_verify E t secret now) as [d|err] eqn:Hv.
  - unfold ret. intros [= <- <-]. exists t, secret. auto.
  - unfold throw. case_ifs; discriminate.
Qed.

(** X12.  [authMiddleware] calls [next()] only if [jwt.verify] accepted the
    extracted token under the configured secret and a stored user has the
    normal form of the decoded email as its email; the identity it attaches
    carries the decoded [id], [email], [iat] and [exp], and the collections
    are unchanged. *)
Theorem gate_lets_through_only_verified_users
    E (requestId timestamp : string) (now : Z) (r : AuthRequest)
    (u : AuthUser) (s s' : Db) :
  authMiddleware E requestId timestamp now r s = (Return (Next u), s') ->
  exists t secret decoded email account,
    extractToken r = Js.Str t
    /\ JWT_SECRET E = Some secret
    /\ jwt_verify E t secret now = inl decoded
    /\ d_email decoded = Js.Str email
    /\ In account (users s) /\ u_email account = normalize email
    /\ au_id u = d_id decoded /\ au_email u = d_email decoded
    /\ au_tokenIat u = d_iat decoded /\ au_tokenExp u = d_exp decoded
    /\ urls s' = urls s /\ users s' = users s.
Proof.
  unfold authMiddleware, try_catch.
  destruct (negb (Js.truthy (extractToken r))); [discriminate|].
  unfold bind.
  destruct (verifyToken E now (extractToken r) s) as [[decoded|e] s1] eqn:V.
  2:{ unfold ret. case_ifs; discriminate. }
  apply verifyToken_Return in V as (t & secret & Ht & Hs & Hv & ->).
  destruct (negb (Js.truthy (d_id decoded)) || negb (Js.truthy (d_email decoded)));
    [discriminate|].
  destruct (findUserByEmail (d_email decoded) s) as [[[account|]|e] s2] eqn:F;
    try discriminate.
  2:{ unfold ret. case_ifs; discriminate. }
  apply findUserByEmail_Return in F as (email & He & _ & _ & Hfind & ->).
  unfold ret. intros [= <- <-].
  symmetry in Hfind. apply find_some in Hfind as [Hin Hem].
  unfold has_email in Hem. apply String.eqb_eq in Hem.
  exists t, secret, decoded, email, account. cbn. repeat split; auto.
Qed.

Lemma gate_lets_through_only_verified_users_witness :
  exists t secret decoded email account,
    extractToken (mkAuthRequest (Some "Bearer jwt:bob@example.com") None) = Js.Str t
    /\ JWT_SECRET Demo.env = Some secret
    /\ jwt_verify Demo.env t secret 0 = inl decoded
    /\ d_email decoded = Js.Str email
    /\ In account (users Demo.with_bob) /\ u_email account = normalize email
    /\ au_id (mkAuthUser (Js.Str Demo.owner) (Js.Str "bob@example.com")
                (Js.Str "Bob") 0 604800) = d_id decoded
    /\ au_email (mkAuthUser (Js.Str Demo.owner) (Js.Str "bob@example.com")
                   (Js.Str "Bob") 0 604800) = d_email decoded
    /\ au_tokenIat (mkAuthUser (Js.Str Demo.owner) (Js.Str "bob@example.com")
                      (Js.Str "Bob") 0 604800) = d_iat decoded
    /\ au_tokenExp (mkAuthUser (Js.Str Demo.owner) (Js.Str "bob@example.com")
                      (Js.Str "Bob") 0 604800) = d_exp decoded
    /\ urls Demo.with_bob = urls Demo.with_bob
    /\ users Demo.with_bob = users Demo.with_bob.
Proof.
  apply (gate_lets_through_only_verified_users Demo.env "REQ-1"
           "2026-01-01T00:00:00.000Z" 0
           (mkAuthRequest (Some "Bearer jwt:bob@example.com") None)
           (mkAuthUser (Js.Str Demo.owner) (Js.Str "bob@example.com")
              (Js.Str "Bob") 0 604800)
           Demo.with_bob Demo.with_bob).
  reflexivity.
Defined.

(** X13.  When [jwt.verify] rejects the token, [authMiddleware] answers 401
    with the code TOKEN_EXPIRED for a [TokenExpiredError] and with the code
    AUTHENTICATION_FAILED for a [JsonWebTokenError] or a [NotBeforeError],
    whatever the message of the library's error: [verifyToken] replaces
    the message, and "Invalid token format" contains neither "invalid" nor
    "malformed". *)
Theorem gate_codes_for_rejected_tokens
    E (requestId timestamp : string) (now : Z) (r : AuthRequest)
    (t secret : string) (e : JsError) (s : Db) :
  extractToken r = Js.Str t -> t <> EmptyString ->
  JWT_SECRET E = Some secret -> secret <> EmptyString ->
  jwt_verify E t secret now = inr e ->
  In (err_name e) ["TokenExpiredError"; "JsonWebTokenError"; "NotBeforeError"] ->
  authMiddleware E requestId timestamp now r s
  = (Return
       (Reply
          (if String.eqb (err_name e) "TokenExpiredError"
           then unauthorized requestId timestamp
                  "Your session has expired. Please log in again." "TOKEN_EXPIRED"
           else unauthorized requestId timestamp
                  "Authentication failed. Please log in again."
                  "AUTHENTICATION_FAILED")),
     s).
Proof.
  intros Ht Hne Hs Hsne Hv Hn.
  apply is_empty_false in Hne, Hsne.
  unfold authMiddleware, try_catch, bind, verifyToken, try_catch.
  rewrite Ht. cbn [Js.truthy]. rewrite Hne, Hs, Hsne, Hv. cbn [negb].
  unfold throw.
  destruct Hn as [<- | [<- | [<- | []]]]; reflexivity.
Qed.

Lemma gate_codes_for_rejected_tokens_witness :
  authMiddleware Demo.env "REQ-1" "2026-01-01T00:00:00.000Z" 0
    (mkAuthRequest None (Some (Some "not-a-token"))) Demo.with_bob
  = (Return
       (Reply
          (if String.eqb "JsonWebTokenError" "TokenExpiredError"
           then unauthorized "REQ-1" "2026-01-01T00:00:00.000Z"
                  "Your session has expired. Please log in again." "TOKEN_EXPIRED"
           else unauthorized "REQ-1" "2026-01-01T00:00:00.000Z"
                  "Authentication failed. Please log in again."
                  "AUTHENTICATION_FAILED")),
     Demo.with_bob).
Proof.
  apply (gate_codes_for_rejected_tokens Demo.env "REQ-1" "2026-01-01T00:00:00.000Z" 0
           (mkAuthRequest None (Some (Some "not-a-token"))) "not-a-token" "secret"
           (mkError ErrorC "JsonWebTokenError" "jwt malformed" None [] None [])
           Demo.with_bob);
    try reflexivity; try discriminate.
  simpl. auto.
Defined.

(** ** Operations that only read *)

Lemma keeps_ret {A} (a : A) : keeps (ret a).
Proof. intros s. split; reflexivity. Qed.

Lemma keeps_throw {A} (e : JsError) : keeps (@throw A e).
Proof. intros s. split; reflexivity. Qed.

Lemma keeps_bind {A B} (m : M A) (k : A -> M B) :
  keeps m -> (forall a, keeps (k a)) -> keeps (bind m k).
Proof.
  intros Hm Hk s. unfold bind. specialize (Hm s).
  destruct (m s) as [[a|e] s1]; cbn [snd] in *; [|exact Hm].
  destruct (Hk a s1) as [H1 H2]. destruct Hm as [H3 H4].
  split; congruence.
Qed.

Lemma keeps_try {A} (m : M A) (h : JsError -> M A) :
  keeps m -> (forall e, keeps (h e)) -> keeps (try_catch m h).
Proof.
  intros Hm Hh s. unfold try_catch. specialize (Hm s).
  destruct (m s) as [[a|e] s1]; cbn [snd] in *; [exact Hm|].
  destruct (Hh e s1) as [H1 H2]. destruct Hm as [H3 H4].
  split; congruence.
Qed.

Lemma keeps_driver_call : keeps driver_call.
Proof. intros s. unfold driver_call. destruct (hd None (faults s)); split; reflexivity. Qed.

Lemma keeps_get : keeps get.
Proof. intros s. split; reflexivity. Qed.

Ltac keep_step :=
  first
    [ apply keeps_ret | apply keeps_throw | apply keeps_driver_call
    | apply keeps_get
    | apply keeps_bind; [|intro] | apply keeps_try; [|intro]
    | match goal with
      | |- keeps (if ?b then _ else _) => destruct b
      | |- keeps (match ?x with Some _ => _ | None => _ end) => destruct x
      | |- keeps (match ?x with inl _ => _ | inr _ => _ end) => destruct x
      | |- keeps (match ?x with [] => _ | _ :: _ => _ end) => destruct x
      | |- keeps (match ?x with Js.Str _ => _ | _ => _ end) => destruct x
      | |- keeps (match ?x with (_, _) => _ end) => destruct x
      end ].

Lemma keeps_findUserByEmail v : keeps (findUserByEmail v).
Proof. unfold findUserByEmail, User_findOne. repeat keep_step. Qed.

Lemma keeps_verifyToken E now v : keeps (verifyToken E now v).
Proof. unfold verifyToken. repeat keep_step. Qed.

Lemma keeps_signToken E now p : keeps (signToken E now p).
Proof. unfold signToken. repeat keep_step. Qed.

Lemma keeps_loginUserService E now e p : keeps (loginUserService E now e p).
Proof.
  unfold loginUserService.
  repeat first [apply keeps_findUserByEmail | apply keeps_signToken | keep_step].
Qed.

Lemma keeps_getUserUrlsService E now v : keeps (getUserUrlsService E now v).
Proof.
  unfold getUserUrlsService, ShortUrl_find_by_user_sorted. repeat keep_step.
Qed.

(** X14.  [loginUser], [authMiddleware], [optionalAuthMiddleware] and
    [getUserUrls] leave both collections as they are, for every input and
    however they end. *)
Theorem reads_never_write
    E (requestId timestamp : string) (now : Z) (body : Body) (r : AuthRequest)
    (req_user : option (Js.value * Js.value)) :
  keeps (loginUser E requestId timestamp now body)
  /\ keeps (authMiddleware E requestId timestamp now r)
  /\ keeps (optionalAuthMiddleware E now r)
  /\ keeps (getUserUrls E requestId now req_user).
Proof.
  split; [|split; [|split]].
  - unfold loginUser, destructure.
    repeat first [apply keeps_loginUserService | keep_step].
  - unfold authMiddleware.
    repeat first [apply keeps_findUserByEmail | apply keeps_verifyToken | keep_step].
  - unfold optionalAuthMiddleware, optional_token.
    repeat first [apply keeps_findUserByEmail | apply keeps_verifyToken | keep_step].
  - unfold getUserUrls.
    repeat first [apply keeps_getUserUrlsService | keep_step].
Qed.

(** ** Registration and login *)

Lemma adds_one_throw {A} (e : JsError) : adds_one_user (@throw A e).
Proof. intros s out s' [= <- <-]. split; reflexivity. Qed.

Lemma adds_one_bind {A B} (m : M A) (k : A -> M B) :
  keeps m -> (forall a, adds_one_user (k a)) -> adds_one_user (bind m k).
Proof.
  intros Hm Hk s out s'. unfold bind. destruct (Hm s) as [H1 H2].
  destruct (m s) as [[a|e] s1]; cbn [snd] in *.
  - intros H. apply Hk in H. now rewrite H1, H2 in H.
  - intros [= <- <-]. auto.
Qed.

Lemma adds_one_try {A} (m : M A) (h : JsError -> M A) :
  adds_one_user m ->
  (forall e s, exists e', h e s = (Throw e', s)) ->
  adds_one_user (try_catch m h).
Proof.
  intros Hm Hh s out s'. unfold try_catch.
  destruct (m s) as [[a|e] s1] eqn:R.
  - intros [= <- <-]. exact (Hm _ _ _ R).
  - destruct (Hh e s1) as [e' ->]. intros [= <- <-]. exact (Hm _ _ _ R).
Qed.

Lemma adds_one_User_save {A} now (d : UserDraft) (f : User -> A) :
  adds_one_user (saved <- User_save now d ;; ret (f saved)).
Proof.
  intros s out s'. unfold bind, User_save.
  destruct (User_validate d); [|intros [= <- <-]; split; reflexivity].
  unfold bind, driver_call, get, set_users, ret, throw.
  destruct (hd None (faults s)); [intros [= <- <-]; split; reflexivity|].
  cbn [users pop_fault].
  destruct (existsb (has_email (ud_email d)) (users s)) eqn:Ex;
    intros [= <- <-]; split; try reflexivity.
  eexists. split; [reflexivity|]. exact Ex.
Qed.

Lemma keeps_genSalt E n : keeps (genSalt E n).
Proof. intros s. split; reflexivity. Qed.

Lemma keeps_User_new E a b c : keeps (User_new E a b c).
Proof. intros s. split; reflexivity. Qed.

Lemma registerUserService_adds_one
    E (now : Z) (name email password : Js.value) :
  adds_one_user (registerUserService E now name email password).
Proof.
  unfold registerUserService. apply adds_one_try.
  2:{ intros e s. unfold throw. case_ifs; eexists; reflexivity. }
  repeat match goal with
         | |- adds_one_user (if ?b then _ else _) =>
             destruct b; [apply adds_one_throw|]
         end.
  apply adds_one_bind; [apply keeps_findUserByEmail|].
  intros [u|]; [apply adds_one_throw|].
  apply adds_one_bind; [apply keeps_genSalt|]. intros salt.
  destruct (Js.is_empty _); [apply adds_one_throw|].
  apply adds_one_bind; [apply keeps_User_new|]. intros newUser.
  cbv zeta.
  apply adds_one_bind; [apply keeps_signToken|]. intros token.
  destruct (Js.is_empty token); [apply adds_one_throw|].
  apply (adds_one_User_save now newUser).
Qed.

(** X15.  For every input, [registerUserService] changes no link; when it
    throws it has stored no user, and when it returns it has appended
    exactly one user, whose email no stored user had. *)
Theorem registration_stores_at_most_one_user
    E (now : Z) (name email password : Js.value) :
  adds_one_user (registerUserService E now name email password).
Proof. apply registerUserService_adds_one. Qed.

Lemma NoDup_app_one {A} (l : list A) (x : A) :
  NoDup l -> ~ In x l -> NoDup (l ++ [x]).
Proof.
  intros Hl Hx. induction Hl as [|y r Hy Hr IH]; simpl.
  - constructor; [intros []|constructor].
  - constructor.
    + rewrite in_app_iff. intros [H|[H|[]]]; [now apply Hy|].
      apply Hx. left. now symmetry.
    + apply IH. intros H. apply Hx. now right.
Qed.

(** X16.  If no two stored users share an email, the same holds after
    [registerUserService], for every input and either outcome. *)
Theorem emails_stay_unique
    E (now : Z) (name email password : Js.value) (s : Db) :
  unique_emails s ->
  unique_emails (snd (registerUserService E now name email password s)).
Proof.
  intros U.
  destruct (registerUserService E now name email password s) as [out s'] eqn:R.
  apply registerUserService_adds_one in R as [_ R].
  cbn [snd]. unfold unique_emails in *.
  destruct out as [o|e]; [|now rewrite R].
  destruct R as (saved & -> & Hnew).
  rewrite map_app. apply NoDup_app_one; [exact U|].
  intros Hin. apply in_map_iff in Hin as (u & Hu & Hin).
  assert (existsb (has_email (u_email saved)) (users s) = true) as Hex.
  { apply existsb_exists. exists u. split; [exact Hin|].
    unfold has_email. now apply String.eqb_eq. }
  congruence.
Qed.

Lemma emails_stay_unique_witness :
  unique_emails
    (snd (registerUserService Demo.env 2000 (Js.Str "Al") (Js.Str "Al@Example.com")
            (Js.Str "secret1") Demo.with_bob)).
Proof.
  apply (emails_stay_unique Demo.env 2000 (Js.Str "Al") (Js.Str "Al@Example.com")
           (Js.Str "secret1") Demo.with_bob).
  unfold unique_emails. simpl. constructor; [intros []|constructor].
Defined.

Lemma bind_Return_inv {A B} (m : M A) (k : A -> M B) s b s' :
  bind m k s = (Return b, s') ->
  exists a s0, m s = (Return a, s0) /\ k a s0 = (Return b, s').
Proof.
  unfold bind. destruct (m s) as [[a|e] s0]; [|discriminate].
  intros H. now exists a, s0.
Qed.

Lemma try_Return_inv {A} (m : M A) (h : JsError -> M A) s a s' :
  (forall e s0, exists e', h e s0 = (Throw e', s0)) ->
  try_catch m h s = (Return a, s') -> m s = (Return a, s').
Proof.
  intros Hh. unfold try_catch. destruct (m s) as [[a0|e] s0]; [auto|].
  destruct (Hh e s0) as [e' ->]. discriminate.
Qed.

Ltac thrown H :=
  solve [unfold throw, ret in H; cbv beta iota zeta in H; discriminate H].

Lemma signToken_Return E now payload s token s' :
  signToken E now payload s = (Return token, s') ->
  exists secret,
    JWT_SECRET E = Some secret /\ secret <> EmptyString
    /\ token = jwt_sign E payload secret now /\ token <> EmptyString /\ s' = s.
Proof.
  intros H. apply try_Return_inv in H.
  2:{ intros e s0. unfold throw. case_ifs; eexists; reflexivity. }
  destruct (JWT_SECRET E) as [secret|]; [|thrown H].
  destruct (Js.is_empty secret) eqn:Hs; [thrown H|].
  cbv zeta in H.
  destruct (Js.is_empty (jwt_sign E payload secret now)) eqn:Ht; [thrown H|].
  injection H as <- <-. apply is_empty_false in Hs, Ht.
  exists secret. auto.
Qed.

Lemma quiet_cons n s :
  hd None (faults s) = None -> quiet n (pop_fault s) = true -> quiet (S n) s = true.
Proof.
  unfold quiet, pop_fault; simpl. destruct (faults s) as [|[e|] r]; simpl; auto.
  discriminate.
Qed.

Lemma registerUserService_Return
    E now (name email password : string) (s : Db) o s' :
  registerUserService E now (Js.Str name) (Js.Str email) (Js.Str password) s
  = (Return o, s') ->
  exists secret,
    Js.trim name <> EmptyString
    /\ Regex.test emailRegex (Js.trim email) = true
    /\ (String.length password <? 6)%nat = false
    /\ quiet 2 s = true
    /\ JWT_SECRET E = Some secret /\ secret <> EmptyString
    /\ bcrypt_hash E password (bcrypt_genSalt E saltRounds (drawn s)) <> EmptyString
    /\ jwt_sign E (mkPayload (new_ObjectId E (made s)) (normalize email)
                     (Js.trim name)) secret now <> EmptyString
    /\ find (has_email (normalize email)) (users s) = None.
Proof.
  intros H. apply try_Return_inv in H.
  2:{ intros e s0. unfold throw. case_ifs; eexists; reflexivity. }
  rewrite !not_filled_Str in H.
  destruct (Js.is_empty (Js.trim name)) eqn:Hn; [thrown H|].
  destruct (Js.is_empty (Js.trim email)) eqn:He; [thrown H|].
  cbn [Js.truthy not_string_or trim_of string_of] in H.
  destruct (negb (negb (Js.is_empty password)) || (String.length password <? 6)%nat)
    eqn:Hp; [thrown H|].
  apply orb_false_iff in Hp as [_ Hp].
  destruct (Regex.test emailRegex (Js.trim email)) eqn:Hre; [|thrown H].
  cbn [negb] in H.
  apply bind_Return_inv in H as (found & s0 & F & H).
  apply findUserByEmail_Return in F as (e & [= <-] & _ & Hq0 & -> & ->).
  unfold normalize in H. rewrite trim_idem in H. fold (normalize email) in H.
  destruct (find (has_email (normalize email)) (users s)) eqn:Hf; [thrown H|].
  unfold bind at 1 in H. unfold genSalt at 1 in H.
  change (drawn (pop_fault s)) with (drawn s) in H.
  destruct (Js.is_empty (bcrypt_hash E password _)) eqn:Hh; [thrown H|].
  unfold bind at 1 in H. unfold User_new at 1 in H.
  cbn [made] in H. change (made (pop_fault s)) with (made s) in H.
  cbv zeta in H. cbn [ud_id ud_email ud_name] in H.
  apply bind_Return_inv in H as (token & s1 & T & H).
  apply signToken_Return in T as (secret & Hs & Hsne & -> & Htne & ->).
  fold (normalize email) in H, Htne.
  apply is_empty_false in Htne. rewrite Htne in H.
  apply bind_Return_inv in H as (saved & s2 & Sv & H).
  unfold User_save in Sv.
  destruct (User_validate _); [|thrown Sv].
  apply bind_Return_inv in Sv as ([] & s3 & D & _).
  unfold driver_call in D. cbn [faults pop_fault] in D.
  destruct (hd None (tl (faults s))) eqn:Hq1; [thrown D|].
  exists secret. apply is_empty_false in Hn, Hh, Htne.
  repeat split; auto.
  apply quiet_cons; [exact Hq0|]. apply quiet_cons; [exact Hq1|].
  unfold quiet. now destruct (faults (pop_fault (pop_fault s))).
Qed.

Lemma loginUserService_run E now (e p secret : string) (u : User) (s : Db) :
  Regex.test emailRegex (Js.trim e) = true ->
  p <> EmptyString ->
  quiet 1 s = true ->
  find (has_email (normalize e)) (users s) = Some u ->
  bcrypt_compare E p (u_password u) = true ->
  JWT_SECRET E = Some secret -> secret <> EmptyString ->
  jwt_sign E (mkPayload (u_id u) (u_email u) (u_name u)) secret now <> EmptyString ->
  loginUserService E now (Js.Str e) (Js.Str p) s
  = (Return (mkLoginResult (delete_field "password" (User_toObject u))
               (jwt_sign E (mkPayload (u_id u) (u_email u) (u_name u)) secret now)
               now),
     pop_fault s).
Proof.
  intros Hre Hp Q Hf Hc Hs Hsne Ht.
  unfold loginUserService. apply try_Return.
  rewrite not_filled_Str.
  pose proof (emailRegex_nonempty _ Hre) as Hne. apply is_empty_false in Hne.
  rewrite Hne. cbn [Js.truthy not_string_or trim_of].
  apply is_empty_false in Hp. rewrite Hp, length_0_is_empty, Hp, Hre.
  cbn [negb orb].
  fold (normalize e).
  erewrite bind_Return by (apply findUserByEmail_normalized; assumption).
  rewrite Hf. cbn [string_of]. rewrite Hc. cbn [negb]. cbv zeta.
  erewrite bind_Return by (apply (signToken_run E now _ secret); assumption).
  apply is_empty_false in Ht. rewrite Ht. reflexivity.
Qed.

Lemma normalize_same_pattern (e e' : string) :
  normalize e' = normalize e ->
  Regex.test emailRegex (Js.trim e') = Regex.test emailRegex (Js.trim e).
Proof.
  unfold normalize. intros H.
  rewrite <- (emailRegex_toLowerCase (Js.trim e')), H.
  apply emailRegex_toLowerCase.
Qed.

(** The state and the stored user after a successful registration. *)
Lemma registerUserService_stored
    E now (name email password : string) (s : Db) o s1 :
  registerUserService E now (Js.Str name) (Js.Str email) (Js.Str password) s
  = (Return o, s1) ->
  exists secret saved,
    JWT_SECRET E = Some secret /\ secret <> EmptyString
    /\ Js.trim name <> EmptyString
    /\ Regex.test emailRegex (Js.trim email) = true
    /\ (String.length password <? 6)%nat = false
    /\ saved = mkUser (new_ObjectId E (made s)) (Js.trim name) (normalize email)
                 (bcrypt_hash E password (bcrypt_genSalt E saltRounds (drawn s)))
                 ("https://api.dicebear.com/7.x/initials/svg?seed=" ++ Js.trim name)
                 now now
    /\ o = set_field "token"
             (JStr (jwt_sign E (mkPayload (new_ObjectId E (made s)) (normalize email)
                                  (Js.trim name)) secret now))
             (delete_field "password" (User_toObject saved))
    /\ users s1 = (users s ++ [saved])%list
    /\ urls s1 = urls s
    /\ faults s1 = tl (tl (faults s))
    /\ find (has_email (normalize email)) (users s1) = Some saved.
Proof.
  intros H.
  pose proof (registerUserService_Return _ _ _ _ _ _ _ _ H)
    as (secret & Hn & Hre & Hp & Q & Hs & Hsne & Hh & Ht & Hf).
  rewrite (registerUserService_run E now name email password secret s
             Hn Hre Hp Q Hs Hsne Hh Ht), Hf in H.
  injection H as <- <-.
  eexists secret, _. repeat split; auto.
  cbn [users with_users].
  apply find_app_last.
  - cbn [users pop_fault construct draw]. now rewrite find_existsb, Hf.
  - unfold has_email. cbn [u_email]. apply String.eqb_refl.
Qed.

(** X17.  After a successful registration, a login with the same password
    and an email that has the same normal form (trimmed, lowercased)
    succeeds, provided [bcrypt.compare] accepts the password against the
    hash made of it and the signer yields a token: it returns the token
    signed for the stored [_id], email and name, and the stored user, with
    the [_id] the registration returned and without the password, which
    the registration did not return either. *)
Theorem login_after_registration
    E (now now' : Z) (name email password email' secret : string)
    (o : list (string * json)) (s s1 : Db) :
  registerUserService E now (Js.Str name) (Js.Str email) (Js.Str password) s
  = (Return o, s1) ->
  normalize email' = normalize email ->
  quiet 1 s1 = true ->
  bcrypt_compare E password
    (bcrypt_hash E password (bcrypt_genSalt E saltRounds (drawn s))) = true ->
  JWT_SECRET E = Some secret ->
  jwt_sign E (mkPayload (new_ObjectId E (made s)) (normalize email) (Js.trim name))
    secret now' <> EmptyString ->
  exists r,
    loginUserService E now' (Js.Str email') (Js.Str password) s1
    = (Return r, pop_fault s1)
    /\ lr_token r
       = jwt_sign E (mkPayload (new_ObjectId E (made s)) (normalize email)
                       (Js.trim name)) secret now'
    /\ field "_id" (lr_user r) = field "_id" o
    /\ field "email" (lr_user r) = Some (JStr (normalize email))
    /\ field "name" (lr_user r) = Some (JStr (Js.trim name))
    /\ field "password" (lr_user r) = None
    /\ field "password" o = None.
Proof.
  intros H Hnorm Q Hc Hs Ht.
  apply registerUserService_stored in H
    as (secret0 & saved & Hs0 & Hsne & Hn & Hre & Hp & Hsaved & Ho & _ & _ & _ & Hf).
  rewrite Hs in Hs0. injection Hs0 as <-.
  assert (Hpne : password <> EmptyString).
  { intros ->. discriminate Hp. }
  rewrite <- Hnorm in Hf.
  eexists. split.
  { apply (loginUserService_run E now' email' password secret saved s1); auto.
    - rewrite (normalize_same_pattern email email'); assumption.
    - subst saved. exact Hc.
    - subst saved. exact Ht. }
  subst saved o. repeat split; reflexivity.
Qed.

Lemma login_after_registration_witness :
  exists r,
    loginUserService Demo.env 3000 (Js.Str " AL@example.com") (Js.Str "secret1")
      (snd al_registered)
    = (Return r, pop_fault (snd al_registered))
    /\ lr_token r
       = jwt_sign Demo.env
           (mkPayload (new_ObjectId Demo.env (made Demo.with_bob))
              (normalize "Al@Example.com ") (Js.trim " Al ")) "secret" 3000
    /\ field "_id" (lr_user r) = field "_id" (returned [] al_registered)
    /\ field "email" (lr_user r) = Some (JStr (normalize "Al@Example.com "))
    /\ field "name" (lr_user r) = Some (JStr (Js.trim " Al "))
    /\ field "password" (lr_user r) = None
    /\ field "password" (returned [] al_registered) = None.
Proof.
  apply (login_after_registration Demo.env 2000 3000 " Al " "Al@Example.com "
           "secret1" " AL@example.com" "secret" (returned [] al_registered)
           Demo.with_bob (snd al_registered));
    try reflexivity.
  discriminate.
Defined.

(** X18.  After a successful registration, [registerUser] answers 409
    USER_ALREADY_EXISTS to every well-formed request whose email has the
    same normal form, with one call of the driver and nothing stored. *)
Theorem email_registers_once
    E (requestId timestamp : string) (now now' : Z)
    (name email password name' email' password' : string)
    (o : list (string * json)) (s s1 : Db) :
  registerUserService E now (Js.Str name) (Js.Str email) (Js.Str password) s
  = (Return o, s1) ->
  normalize email' = normalize email ->
  Js.trim name' <> EmptyString ->
  (String.length password' <? 6)%nat = false ->
  quiet 1 s1 = true ->
  registerUser E requestId timestamp now' (register_body name' email' password') s1
  = (Return
       (respond 409
          (JObj [("success", JBool false);
                 ("message", JStr "User with this email already exists");
                 ("error", JStr "USER_ALREADY_EXISTS");
                 ("requestId", JStr requestId);
                 ("timestamp", JStr timestamp)])),
     pop_fault s1).
Proof.
  intros H Hnorm Hn' Hp' Q.
  apply registerUserService_stored in H
    as (secret & saved & _ & _ & _ & Hre & _ & _ & _ & _ & _ & _ & Hf).
  rewrite <- Hnorm in Hf.
  rewrite registerUser_run.
  rewrite (registerUserService_taken E now' name' email' password' saved s1);
    auto.
  rewrite (normalize_same_pattern email email'); assumption.
Qed.

Lemma email_registers_once_witness :
  registerUser Demo.env "REQ-2" "2026-01-01T00:00:00.000Z" 3000
    (register_body "Alan" " al@EXAMPLE.com" "another-secret") (snd al_registered)
  = (Return
       (respond 409
          (JObj [("success", JBool false);
                 ("message", JStr "User with this email already exists");
                 ("error", JStr "USER_ALREADY_EXISTS");
                 ("requestId", JStr "REQ-2");
                 ("timestamp", JStr "2026-01-01T00:00:00.000Z")])),
     pop_fault (snd al_registered)).
Proof.
  apply (email_registers_once Demo.env "REQ-2" "2026-01-01T00:00:00.000Z" 2000 3000
           " Al " "Al@Example.com " "secret1" "Alan" " al@EXAMPLE.com"
           "another-secret" (returned [] al_registered) Demo.with_bob
           (snd al_registered));
    try reflexivity.
  discriminate.
Defined.

(** ** The client's retry wrapper *)

Lemma retry_from_spec {A} (maxRetries : nat) (delay : Z)
    (requestFn : nat -> A + Client.EnhancedError) :
  forall (left : nat) lastError (calls : nat) (waits : list Z),
    calls + left = maxRetries -> 0 < left ->
    let r := Client.retry_from maxRetries delay requestFn left lastError calls waits in
    calls < Client.run_calls r <= maxRetries
    /\ Client.run_waits r
       = (waits ++ map (fun i => (delay * 2 ^ Z.of_nat i)%Z)
                       (seq calls (Client.run_calls r - 1 - calls)))%list
    /\ Client.run_result r
       = match requestFn (Client.run_calls r - 1) with
         | inl response => inl response
         | inr error => inr (Some error)
         end
    /\ (forall k, calls <= k < Client.run_calls r - 1 ->
          exists error, requestFn k = inr error
                        /\ Client.isRetryableError error = true)
    /\ (Client.run_calls r < maxRetries ->
        match requestFn (Client.run_calls r - 1) with
        | inl _ => True
        | inr error => Client.isRetryableError error = false
        end).
Proof.
  induction left as [|left IH]; intros lastError calls waits Hsum Hpos; [lia|].
  cbn [Client.retry_from]. cbv zeta.
  replace (maxRetries - S left) with calls by lia.
  destruct (requestFn calls) as [response|error] eqn:R.
  - cbn [Client.run_calls Client.run_waits Client.run_result].
    replace (S calls - 1) with calls by lia. rewrite R.
    replace (calls - calls) with 0 by lia. cbn [seq map]. rewrite app_nil_r.
    split; [lia|]. split; [reflexivity|]. split; [reflexivity|].
    split; [intros k Hk; lia | trivial].
  - destruct ((S calls =? maxRetries)%nat || negb (Client.isRetryableError error)) eqn:Stop.
    + cbn [Client.run_calls Client.run_waits Client.run_result].
      replace (S calls - 1) with calls by lia. rewrite R.
      replace (calls - calls) with 0 by lia. cbn [seq map]. rewrite app_nil_r.
      split; [lia|]. split; [reflexivity|]. split; [reflexivity|].
      split; [intros k Hk; lia|].
      intros Hlt. apply orb_true_iff in Stop as [Stop|Stop].
      * apply Nat.eqb_eq in Stop. lia.
      * now apply negb_true_iff in Stop.
    + apply orb_false_iff in Stop as [Hne Hre].
      apply Nat.eqb_neq in Hne. apply negb_false_iff in Hre.
      replace (S calls - 1) with calls by lia.
      specialize (IH (Some error) (S calls)
                     (waits ++ [(delay * 2 ^ Z.of_nat calls)%Z])%list
                     ltac:(lia) ltac:(lia)).
      cbv zeta in IH.
      destruct IH as (Hc & Hw & Hr & Hk & Hl).
      split; [lia|]. split.
      { rewrite Hw, <- app_assoc. f_equal. cbn [app].
        replace (Client.run_calls _ - 1 - calls)
          with (S (Client.run_calls
                     (Client.retry_from maxRetries delay requestFn left (Some error)
                        (S calls) (waits ++ [(delay * 2 ^ Z.of_nat calls)%Z]))
                   - 1 - S calls)) by lia.
        reflexivity. }
      split; [exact Hr|]. split; [|exact Hl].
      intros k Hk'. destruct (Nat.eq_dec k calls) as [->|Hneq].
      * exists error. auto.
      * apply Hk. lia.
Qed.

(** X19.  The function [createRetryWrapper(maxRetries, delay)] returns
    calls [requestFn] at most [maxRetries] times, and before its [k]-th
    retry it waits [delay * 2^(k-1)]: the waits of a run with [n] calls are
    [delay, 2 delay, ..., 2^(n-2) delay]. *)
Theorem retry_wrapper_schedule {A} (maxRetries : nat) (delay : Z)
    (requestFn : nat -> A + Client.EnhancedError) :
  Client.run_calls (Client.createRetryWrapper maxRetries delay requestFn)
  <= maxRetries
  /\ Client.run_waits (Client.createRetryWrapper maxRetries delay requestFn)
     = map (fun i => (delay * 2 ^ Z.of_nat i)%Z)
           (seq 0 (Client.run_calls
                     (Client.createRetryWrapper maxRetries delay requestFn) - 1)).
Proof.
  unfold Client.createRetryWrapper.
  destruct maxRetries as [|n]; [split; [apply Nat.le_refl | reflexivity]|].
  destruct (retry_from_spec (S n) delay requestFn (S n) None 0 []
              ltac:(lia) ltac:(lia)) as (Hc & Hw & _).
  split; [lia|]. rewrite Hw. cbn [app]. now rewrite Nat.sub_0_r.
Qed.

(** X20.  With [maxRetries] positive, the wrapper settles with the outcome
    of its last call; every earlier call failed with a retryable error;
    and if it stops before [maxRetries] calls, the last call succeeded or
    failed with an error that is not retryable. *)
Theorem retry_wrapper_stopping_rule {A} (maxRetries : nat) (delay : Z)
    (requestFn : nat -> A + Client.EnhancedError) :
  0 < maxRetries ->
  let r := Client.createRetryWrapper maxRetries delay requestFn in
  1 <= Client.run_calls r
  /\ Client.run_result r
     = match requestFn (Client.run_calls r - 1) with
       | inl response => inl response
       | inr error => inr (Some error)
       end
  /\ (forall k, k < Client.run_calls r - 1 ->
        exists error, requestFn k = inr error
                      /\ Client.isRetryableError error = true)
  /\ (Client.run_calls r < maxRetries ->
      match requestFn (Client.run_calls r - 1) with
      | inl _ => True
      | inr error => Client.isRetryableError error = false
      end).
Proof.
  intros Hpos. unfold Client.createRetryWrapper.
  destruct (retry_from_spec maxRetries delay requestFn maxRetries None 0 []
              ltac:(lia) Hpos) as (Hc & _ & Hr & Hk & Hl).
  cbv zeta. split; [lia|]. split; [exact Hr|]. split; [|exact Hl].
  intros k Hlt. apply Hk. lia.
Qed.

Lemma enhance_retryable (error : Client.AxiosError) :
  Client.isRetryableError (fst (Client.enhance error))
  = match Client.ae_response error with
    | Some (status, _) => (500 <=? status)%Z
    | None => Client.ae_request error
    end
  /\ snd (Client.enhance error)
     = match Client.ae_response error with
       | Some (status, _) => (status =? 401)%Z
       | None => false
       end.
Proof.
  unfold Client.enhance, Client.isRetryableError.
  destruct (Client.ae_response error) as [[status m]|].
  - repeat match goal with
           | |- context [(status =? ?c)%Z] =>
               destruct (Z.eqb_spec status c) as [->|?]; [split; reflexivity|]
           end.
    destruct (500 <=? status)%Z eqn:H5; [split; reflexivity|].
    destruct (400 <=? status)%Z eqn:H4; cbn; rewrite H5; split; reflexivity.
  - destruct (Client.ae_request error); [|split; reflexivity].
    case_ifs; split; reflexivity.
Qed.

(** X21.  An error that went through the response interceptor is
    retryable exactly when the response status is 500 or more or, without
    a response, when the request was sent; the stored token is removed
    exactly when the status is 401. *)
Theorem retryable_after_the_interceptor (error : Client.AxiosError) :
  Client.isRetryableError (fst (Client.enhance error))
  = match Client.ae_response error with
    | Some (status, _) => (500 <=? status)%Z
    | None => Client.ae_request error
    end
  /\ snd (Client.enhance error)
     = match Client.ae_response error with
       | Some (status, _) => (status =? 401)%Z
       | None => false
       end.
Proof. apply enhance_retryable. Qed.

(** X22.  A request whose first answer is an error response with a status
    below 500 (such as the 409 of a taken short URL) is sent once: the
    wrapper rejects with that error, without waiting. *)
Theorem client_errors_are_sent_once {A} (maxRetries : nat) (delay : Z)
    (requestFn : nat -> A + Client.EnhancedError)
    (error : Client.AxiosError) (status : Z) (message : option string) :
  0 < maxRetries ->
  Client.ae_response error = Some (status, message) ->
  (status < 500)%Z ->
  requestFn 0 = inr (fst (Client.enhance error)) ->
  Client.createRetryWrapper maxRetries delay requestFn
  = Client.mkRun (inr (Some (fst (Client.enhance error)))) 1 [].
Proof.
  intros Hpos Hresp Hlt H0.
  destruct (enhance_retryable error) as [Hre _].
  rewrite Hresp in Hre.
  replace (500 <=? status)%Z with false in Hre by (symmetry; apply Z.leb_gt; lia).
  unfold Client.createRetryWrapper.
  destruct maxRetries as [|n]; [lia|].
  cbn [Client.retry_from]. rewrite H0, Hre. cbn [negb]. rewrite orb_true_r.
  reflexivity.
Qed.

Lemma retry_wrapper_stopping_rule_witness :
  let r := Client.createRetryWrapper 3 1000 flaky_request in
  1 <= Client.run_calls r
  /\ Client.run_result r
     = match flaky_request (Client.run_calls r - 1) with
       | inl response => inl response
       | inr error => inr (Some error)
       end
  /\ (forall k, k < Client.run_calls r - 1 ->
        exists error, flaky_request k = inr error
                      /\ Client.isRetryableError error = true)
  /\ (Client.run_calls r < 3 ->
      match flaky_request (Client.run_calls r - 1) with
      | inl _ => True
      | inr error => Client.isRetryableError error = false
      end).
Proof.
  apply (retry_wrapper_stopping_rule 3 1000 flaky_request). lia.
Defined.

Lemma client_errors_are_sent_once_witness :
  Client.createRetryWrapper 3 1000
    (fun _ : nat => @inr nat _ (fst (Client.enhance conflict_response)))
  = Client.mkRun (inr (Some (fst (Client.enhance conflict_response)))) 1 [].
Proof.
  apply (client_errors_are_sent_once 3 1000
           (fun _ : nat => @inr nat _ (fst (Client.enhance conflict_response)))
           conflict_response 409 (Some "Short URL already exists"));
    try reflexivity; lia.
Defined.
